(* ===================================================================== *)
(* agent-in-the-loop: session service, API routes and review endpoint    *)
(*                                                                       *)
(* A shallow embedding of                                                *)
(*   src/coderabbit_api.py                                               *)
(*   src/backend/app/services/simple_cline_service.py                    *)
(*   src/backend/app/api/routes/cline.py   (the session endpoints)       *)
(* together with the properties of the file-channel protocol, of the     *)
(* routes and of the review parser.                                      *)
(* ===================================================================== *)

From Stdlib Require Import ZArith NArith List Bool Lia.
From stdpp Require Import base option list gmap strings pretty.

Local Open Scope N_scope.

(* ===================================================================== *)
(* Python strings                                                        *)
(* ===================================================================== *)
(* A Python str is a sequence of Unicode code points; len() counts code
   points and strip() removes Unicode white space, so a str is a list of
   code points here, not a byte string. *)

Abbreviation str := (list N).

Module PyStr.

(* A literal whose characters are all ASCII. *)
Definition lit (x : string) : str :=
  map (fun a => N.of_nat (Ascii.nat_of_ascii a)) (String.list_ascii_of_string x).
#[global] Arguments lit : simpl never.

(* The double quote character, U+0022. *)
Definition dq : str := [34].

(* str.isspace() on one code point. *)
Definition isspace (c : N) : bool :=
  ((9 <=? c) && (c <=? 13)) || ((28 <=? c) && (c <=? 32))
  || (c =? 133) || (c =? 160) || (c =? 5760)
  || ((8192 <=? c) && (c <=? 8202))
  || (c =? 8232) || (c =? 8233) || (c =? 8239) || (c =? 8287) || (c =? 12288).

Fixpoint lstrip (x : str) : str :=
  match x with
  | [] => []
  | c :: x' => if isspace c then lstrip x' else x
  end.

Definition rstrip (x : str) : str := rev (lstrip (rev x)).

(* x.strip() *)
Definition strip (x : str) : str := rstrip (lstrip x).

(* x.startswith(p) *)
Fixpoint startswith (p x : str) : bool :=
  match p, x with
  | [], _ => true
  | _ :: _, [] => false
  | a :: p', b :: x' => (a =? b) && startswith p' x'
  end.

(* sub in x *)
Fixpoint contains (sub x : str) : bool :=
  startswith sub x ||
  match x with
  | [] => false
  | _ :: x' => contains sub x'
  end.

(* x.split(sep) for a non-empty separator: the occurrences of sep are
   taken from the left and do not overlap.  [skip] counts the characters
   of a separator still to be passed over, [cur] is the piece being
   read, in reverse. *)
Fixpoint split_go (sep : str) (skip : nat) (cur : str) (x : str) : list str :=
  match x with
  | [] => [rev cur]
  | c :: x' =>
      match skip with
      | S k => split_go sep k cur x'
      | O =>
          if startswith sep x
          then rev cur :: split_go sep (length sep - 1) [] x'
          else split_go sep 0 (c :: cur) x'
      end
  end.

Definition split (sep x : str) : list str := split_go sep 0 [] x.

(* x.replace(old, new) for a non-empty old. *)
Fixpoint replace_go (old new : str) (skip : nat) (x : str) : str :=
  match x with
  | [] => []
  | c :: x' =>
      match skip with
      | S k => replace_go old new k x'
      | O =>
          if startswith old x
          then new ++ replace_go old new (length old - 1) x'
          else c :: replace_go old new 0 x'
      end
  end.

Definition replace (old new x : str) : str := replace_go old new 0 x.

(* x == y *)
Definition eqb (x y : str) : bool := bool_decide (x = y).

(* The line feed, the separator of content.split('\n'). *)
Definition nl : str := [10].

End PyStr.

Import PyStr.

(* ===================================================================== *)
(* src/coderabbit_api.py                                                 *)
(* ===================================================================== *)

Module Review.

(* The dictionaries appended to [comments]. *)
Record Comment := {
  text : str;
  user : str;
  range : str;
  filePath : str;
  timestamp : str
}.

(* logger.info(f"Expected {expected_count} comments from CodeRabbit") *)
Inductive LogRecord := Expected (expected_count : Z).

(* '📝 Extracted:' (U+1F4DD), the test of the first branch. *)
Definition extracted_marker : str := 128221 :: lit " Extracted:".
(* '📝 Extracted: ', the separator of the split inside that branch. *)
Definition extracted_sep : str := 128221 :: lit " Extracted: ".
(* '📊 Review completed with' (U+1F4CA). *)
Definition completed_marker : str := 128202 :: lit " Review completed with".

Definition extracted_comment (comment_text current_timestamp : str) : Comment :=
  {| text := comment_text; user := lit "CodeRabbit"; range := lit "Unknown";
     filePath := lit "Unknown"; timestamp := current_timestamp |}.

Definition placeholder (current_timestamp : str) : Comment :=
  {| text := lit "CodeRabbit review completed successfully. Check the output logs for detailed analysis.";
     user := lit "CodeRabbit"; range := lit "Overall";
     filePath := lit "Workspace"; timestamp := current_timestamp |}.

(* line.split('📝 Extracted: ')[1].replace('...', '').strip();
   None is the IndexError of the subscript. *)
Definition comment_text_of (line : str) : option str :=
  match split extracted_sep line !! 1%nat with
  | Some part => Some (strip (replace (lit "...") [] part))
  | None => None
  end.

(* line.split('with ')[1].split(' comment')[0]; None is an IndexError. *)
Definition count_part_of (line : str) : option str :=
  match split (lit "with ") line !! 1%nat with
  | Some part => split (lit " comment") part !! 0%nat
  | None => None
  end.

Section Parser.

(* int(count_part) of the Python runtime; None is its ValueError. *)
Variable int : str -> option Z.

(* The body of `for line in lines`, with the list under construction
   and the log written so far. *)
Fixpoint scan (current_timestamp : str) (lines : list str)
    (comments : list Comment) (log : list LogRecord)
    : list Comment * list LogRecord :=
  match lines with
  | [] => (comments, log)
  | line :: rest =>
      if contains extracted_marker line then
        match comment_text_of line with
        | Some comment_text =>
            if negb (eqb comment_text []) && (10 <? length comment_text)%nat
            then scan current_timestamp rest
                   (comments ++ [extracted_comment comment_text current_timestamp]) log
            else scan current_timestamp rest comments log
        | None => scan current_timestamp rest comments log
        end
      else if contains completed_marker line && contains (lit "comments") line then
        match count_part_of line with
        | Some count_part =>
            match int count_part with
            | Some expected_count =>
                scan current_timestamp rest comments (log ++ [Expected expected_count])
            | None => scan current_timestamp rest comments log
            end
        | None => scan current_timestamp rest comments log
        end
      else scan current_timestamp rest comments log
  end.

(* parse_coderabbit_output(output); current_timestamp is the value of
   time.strftime at the call, the second component is the log. *)
Definition parse_coderabbit_output (current_timestamp output : str)
    : list Comment * list LogRecord :=
  let lines := split nl output in
  let '(comments, log) := scan current_timestamp lines [] [] in
  if bool_decide (comments = [])
  then ([placeholder current_timestamp], log)
  else (comments, log).

End Parser.

(* The text a line adds to the comments, if it adds one: the guards of
   the first branch of the loop, taken together. *)
Definition accepted (line : str) : option str :=
  if contains extracted_marker line then
    match comment_text_of line with
    | Some comment_text =>
        if negb (eqb comment_text []) && (10 <? length comment_text)%nat
        then Some comment_text else None
    | None => None
    end
  else None.

End Review.

(* ===================================================================== *)
(* JSON values, as json.loads returns them                               *)
(* ===================================================================== *)

Module Json.

(* Numbers are the integers: a sequence number is a counter.  A number
   with a fraction or an exponent is a Python float and is outside this
   model. *)
#[local] Unset Elimination Schemes.
Inductive json :=
| JNull
| JBool (b : bool)
| JInt (n : Z)
| JStr (s : str)
| JArr (items : list json)
| JObj (fields : list (str * json)).
#[local] Set Elimination Schemes.

(* A dict read from a JSON object, as its items. *)
Abbreviation dict := (list (str * json)).

(* d.get(key): the item of the key, None when the key is absent. *)
Fixpoint get (key : str) (d : dict) : option json :=
  match d with
  | [] => None
  | (k, v) :: d' => if bool_decide (k = key) then Some v else get key d'
  end.

(* key in d *)
Definition has_key (key : str) (d : dict) : bool :=
  match get key d with Some _ => true | None => false end.

(* d.get(key, default) *)
Definition get_default (key : str) (default : json) (d : dict) : json :=
  match get key d with Some v => v | None => default end.

(* The integer a value stands for in an order comparison with an int:
   bool is a subclass of int; None, str, list and dict raise TypeError
   (None here). *)
Definition number (v : json) : option Z :=
  match v with
  | JInt n => Some n
  | JBool true => Some 1%Z
  | JBool false => Some 0%Z
  | _ => None
  end.

End Json.

Import Json.

(* ===================================================================== *)
(* src/backend/app/services/simple_cline_service.py                      *)
(* ===================================================================== *)
(* The service is embedded by explicit state passing.  The state holds
   the registry self.sessions, the file system and the processes of the
   machine, the clock and the log.  One request runs at a time; the other
   processes of the machine act while a request sleeps, and code between
   two sleeps takes no time.  Time is counted in milliseconds.  Files hold
   text, as f.read() returns it and f.write() takes it.  Session objects
   are shared between the registry and the running request, so a method
   writes the session it has changed back under its id. *)

Module Cline.

Local Open Scope Z_scope.

(* The exceptions, each with the text str(e) gives; asyncio raises
   ProcessLookupError without arguments.  An exception of a subclass
   stands under its class (FileNotFoundError under OSError), and
   OtherException is any further subclass of Exception that is no
   ValueError.  UnicodeDecodeError is a subclass of ValueError, the
   others are not. *)
Inductive Exn :=
| ValueError (msg : str)
| TimeoutError (msg : str)
| TypeError (msg : str)
| OSError (msg : str)
| AttributeError (msg : str)
| ProcessLookupError
| UnicodeDecodeError (msg : str)
| RecursionError (msg : str)
| OtherException (msg : str).

(* str(e) *)
Definition exn_str (e : Exn) : str :=
  match e with
  | ValueError msg | TimeoutError msg | TypeError msg | OSError msg
  | AttributeError msg | UnicodeDecodeError msg | RecursionError msg
  | OtherException msg => msg
  | ProcessLookupError => []
  end.

(* isinstance(e, ValueError) *)
Definition is_ValueError (e : Exn) : bool :=
  match e with
  | ValueError _ | UnicodeDecodeError _ => true
  | _ => false
  end.

(* The TypeError of os.path.exists(None) and the one of open(None). *)
Definition stat_of_None : Exn :=
  TypeError (lit "stat: path should be string, bytes, os.PathLike or integer, not NoneType").

Definition open_of_None : Exn :=
  TypeError (lit "expected str, bytes or os.PathLike object, not NoneType").

(* type(v).__name__ *)
Definition type_name (v : json) : str :=
  match v with
  | JNull => lit "NoneType"
  | JBool _ => lit "bool"
  | JInt _ => lit "int"
  | JStr _ => lit "str"
  | JArr _ => lit "list"
  | JObj _ => lit "dict"
  end.

(* The TypeError of `v > last_response_id` for a v that is no number;
   the last id is kept as the int it equals. *)
Definition unordered (v : json) : Exn :=
  TypeError (lit "'>' not supported between instances of '" ++ type_name v
             ++ lit "' and 'int'").

(* session.status *)
Inductive Status := initializing | ready | processing | error | stopped.

Definition status_str (s : Status) : str :=
  match s with
  | initializing => lit "initializing"
  | ready => lit "ready"
  | processing => lit "processing"
  | error => lit "error"
  | stopped => lit "stopped"
  end.

#[global] Instance Status_eq_dec : EqDecision Status.
Proof. solve_decision. Defined.

Inductive Role := user | agent.

(* The dictionaries of session.messages.  The content of a user message
   is the text sent, that of an agent message whatever the reply holds
   under "response"; only agent messages have metadata, the
   "message_id" of which is response.get("messageId"). *)
Record Message := {
  m_id : str;
  m_type : Role;
  m_content : json;
  m_timestamp : Z;
  m_metadata : option (option json)
}.

(* An asyncio.subprocess.Process, named by its pid. *)
Definition Process := N.

Record PersistentClineSession := {
  session_id : str;
  workspace_path : str;
  created_at : Z;
  messages : list Message;
  status : Status;
  cli_process : option Process;
  input_file : option str;
  output_file : option str;
  (* The attribute _last_response_id, absent until the first reply is
     consumed; it holds the number the stored messageId stands for. *)
  _last_response_id : option Z
}.

Definition set_status (v : Status) (s : PersistentClineSession) :=
  {| session_id := session_id s; workspace_path := workspace_path s;
     created_at := created_at s; messages := messages s; status := v;
     cli_process := cli_process s; input_file := input_file s;
     output_file := output_file s; _last_response_id := _last_response_id s |}.

Definition append_message (m : Message) (s : PersistentClineSession) :=
  {| session_id := session_id s; workspace_path := workspace_path s;
     created_at := created_at s; messages := messages s ++ [m]; status := status s;
     cli_process := cli_process s; input_file := input_file s;
     output_file := output_file s; _last_response_id := _last_response_id s |}.

Definition set_files (i o : str) (s : PersistentClineSession) :=
  {| session_id := session_id s; workspace_path := workspace_path s;
     created_at := created_at s; messages := messages s; status := status s;
     cli_process := cli_process s; input_file := Some i;
     output_file := Some o; _last_response_id := _last_response_id s |}.

Definition set_cli_process (p : Process) (s : PersistentClineSession) :=
  {| session_id := session_id s; workspace_path := workspace_path s;
     created_at := created_at s; messages := messages s; status := status s;
     cli_process := Some p; input_file := input_file s;
     output_file := output_file s; _last_response_id := _last_response_id s |}.

Definition set_last_response_id (n : Z) (s : PersistentClineSession) :=
  {| session_id := session_id s; workspace_path := workspace_path s;
     created_at := created_at s; messages := messages s; status := status s;
     cli_process := cli_process s; input_file := input_file s;
     output_file := output_file s; _last_response_id := Some n |}.

(* ------------------------------------------------------------------- *)
(* The machine: files, directories and processes                       *)
(* ------------------------------------------------------------------- *)

Record Proc := {
  returncode : option Z;      (* None while the process runs *)
  transport_closed : bool;    (* the transport was closed after the exit *)
  sigterm : bool;             (* terminate() was delivered *)
  sigkill : bool              (* kill() was delivered *)
}.

Record World := {
  files : gmap str str;       (* regular files and their contents *)
  dirs : gset str;            (* directories *)
  procs : gmap N Proc
}.

Definition set_files_of (f : gmap str str) (w : World) : World :=
  {| files := f; dirs := dirs w; procs := procs w |}.

Definition set_dirs_of (d : gset str) (w : World) : World :=
  {| files := files w; dirs := d; procs := procs w |}.

Definition set_procs_of (p : gmap N Proc) (w : World) : World :=
  {| files := files w; dirs := dirs w; procs := p |}.

(* os.path.exists(path) *)
Definition path_exists (path : str) (w : World) : bool :=
  bool_decide (is_Some (files w !! path)) || bool_decide (path ∈ dirs w).

(* The part of a reversed path from its first '/' on. *)
Fixpoint from_slash (x : str) : str :=
  match x with
  | [] => []
  | c :: x' => if (c =? 47)%N then x else from_slash x'
  end.

Fixpoint drop_slashes (x : str) : str :=
  match x with
  | [] => []
  | c :: x' => if (c =? 47)%N then drop_slashes x' else x
  end.

(* os.path.dirname(path) *)
Definition dirname (path : str) : str :=
  let head := from_slash (rev path) in
  match drop_slashes head with
  | [] => rev head
  | stripped => rev stripped
  end.

(* os.path.join(a, b) for a relative b *)
Definition path_join (a b : str) : str :=
  if bool_decide (a = []) then b
  else if startswith (lit "/") (rev a) then a ++ b
  else a ++ lit "/" ++ b.

(* with open(path, 'w') as f: f.write(content); None is the OSError of
   open: the path is a directory or its directory does not exist (the
   current directory, of the empty name, does). *)
Definition write_file (path content : str) (w : World) : option World :=
  if bool_decide (path ∈ dirs w) then None
  else if bool_decide (dirname path = []) || bool_decide (dirname path ∈ dirs w)
  then Some (set_files_of (<[path := content]> (files w)) w)
  else None.

(* with open(path, 'r') as f: f.read(); None is the OSError of open. *)
Definition read_file (path : str) (w : World) : option str := files w !! path.

(* os.unlink(path); None is its OSError. *)
Definition unlink (path : str) (w : World) : option World :=
  match files w !! path with
  | Some _ => Some (set_files_of (delete path (files w)) w)
  | None => None
  end.

Definition proc_of (p : Process) (w : World) : Proc :=
  default {| returncode := None;
             transport_closed := false; sigterm := false; sigkill := false |}
          (procs w !! p).

(* process.returncode *)
Definition Process_returncode (p : Process) (w : World) : option Z :=
  returncode (proc_of p w).

(* process.terminate(): the transport of a process that has exited and
   whose pipes are closed raises ProcessLookupError. *)
Definition Process_terminate (p : Process) (w : World) : Exn + World :=
  let pr := proc_of p w in
  if transport_closed pr then inl ProcessLookupError
  else inr (set_procs_of (<[p := {| returncode := returncode pr;
                                    transport_closed := false;
                                    sigterm := true; sigkill := sigkill pr |}]> (procs w)) w).

(* process.kill() *)
Definition Process_kill (p : Process) (w : World) : Exn + World :=
  let pr := proc_of p w in
  if transport_closed pr then inl ProcessLookupError
  else inr (set_procs_of (<[p := {| returncode := returncode pr;
                                    transport_closed := false;
                                    sigterm := sigterm pr; sigkill := true |}]> (procs w)) w).

(* process.poll().  The handle is the one asyncio.create_subprocess_exec
   returns, an asyncio.subprocess.Process, whatever the annotation
   Optional[subprocess.Popen] of the attribute says; unlike Popen, this
   class has no poll method, so the attribute lookup raises
   AttributeError. *)
Definition Process_poll (p : Process) (w : World) : Exn + option Z :=
  inl (AttributeError (lit "'Process' object has no attribute 'poll'")).

(* ------------------------------------------------------------------- *)
(* The log                                                             *)
(* ------------------------------------------------------------------- *)
(* One constructor for each call of the logger, with the values its
   message interpolates. *)

Inductive Level := INFO | WARNING | ERROR.

Inductive LogRecord :=
(* create_session *)
| Creating (session_id : str)
| Workspace (workspace_path : str)
| SessionFiles (temp_dir : str)
| EnvironmentConfigured (session_id : str)
| StartingCli (cli_script_path : str)
| CliStarted (pid : N)
| Operational (session_id : str)
| CreateFailed (session_id : str) (e : Exn)
| FullException
(* _wait_for_session_ready_with_logs *)
| WaitingReady (session_id : str)
| Monitoring (output_file : option str)
| StillWaiting (session_id : str) (elapsed : Z)
| ProcessExited (returncode : Z)
| ProcessStdout (stdout : str)
| ProcessStderr (stderr : str)
| ProcessRunning (pid : N)
| OutputSoFar (content : str)
| OutputEmpty
| OutputUnreadable
| OutputMissing
| SessionReady (session_id : str) (elapsed : Z)
| ReadyReadError
| TimedOut (session_id : str)
(* send_message and _wait_for_response *)
| Sending (session_id message : str)
| SendFailed (session_id : str) (e : Exn)
| ResponseReadError (e : Exn)
(* stop_session *)
| Stopped (session_id : str)
| StopFailed (session_id : str) (e : Exn)
(* routes/cline.py, send_message *)
| RouteSendFailed (session_id : str) (e : Exn).

Definition level (r : LogRecord) : Level :=
  match r with
  | CreateFailed _ _ | FullException | ProcessExited _ | ProcessStdout _
  | ProcessStderr _ | TimedOut _ | SendFailed _ _ | StopFailed _ _
  | RouteSendFailed _ _ => ERROR
  | OutputUnreadable | ReadyReadError | ResponseReadError _ => WARNING
  | _ => INFO
  end.

(* ------------------------------------------------------------------- *)
(* The state and the surroundings of the service                       *)
(* ------------------------------------------------------------------- *)

Record State := {
  sessions : gmap str PersistentClineSession;   (* self.sessions *)
  world : World;
  now : Z;                                      (* time.time(), in ms *)
  draws : nat;                                  (* uuid4 calls so far *)
  log : list LogRecord
}.

Definition set_sessions (v : gmap str PersistentClineSession) (st : State) : State :=
  {| sessions := v; world := world st; now := now st; draws := draws st; log := log st |}.

Definition set_world (v : World) (st : State) : State :=
  {| sessions := sessions st; world := v; now := now st; draws := draws st; log := log st |}.

Definition set_now (v : Z) (st : State) : State :=
  {| sessions := sessions st; world := world st; now := v; draws := draws st; log := log st |}.

Definition set_draws (v : nat) (st : State) : State :=
  {| sessions := sessions st; world := world st; now := now st; draws := v; log := log st |}.

Definition set_log (v : list LogRecord) (st : State) : State :=
  {| sessions := sessions st; world := world st; now := now st; draws := draws st; log := v |}.

(* How json.loads(line) ends for a line that starts with '{'. *)
Inductive Loads :=
(* A JSON text that starts with '{' is an object: the value is a dict. *)
| Loaded (response_data : dict)
| JSONDecodeError
(* Another exception: RecursionError for a text nested too deeply,
   ValueError for a number of too many digits. *)
| LoadsRaises (e : Exn).

(* How stdout.decode() and stderr.decode() end: the text, or the text of
   the UnicodeDecodeError. *)
Inductive Decoded :=
| Text (s : str)
| Undecodable (msg : str).

(* How `stdout, stderr = await process.communicate()` ends for a process
   that has exited, with what decode() makes of the two values. *)
Inductive Communicate :=
(* The await does not return: a descendant of the process holds the
   pipes open. *)
| Pending
| Streams (stdout stderr : Decoded).

(* What the service does not decide itself. *)
Class Env := {
  json_loads : str -> Loads;
  (* str(uuid.uuid4()), by the number of the draw. *)
  uuid4 : nat -> str;
  (* tempfile.mkdtemp(prefix=...): the path of the directory it makes, or
     the exception it raises. *)
  mkdtemp : str -> World -> Exn + str;
  (* asyncio.create_subprocess_exec with its arguments, cwd and env: the new
     process and the machine with it, or the exception it raises (an
     OSError; ValueError for a NUL character in a value of env). *)
  create_subprocess_exec :
    list str -> str -> list (str * str) -> World -> Exn + (Process * World);
  communicate : Process -> World -> Communicate;
  (* str(e) of the OSError that open() or os.unlink() raises for the
     path. *)
  strerror : str -> World -> str;
  (* What the other processes have done to the machine when a sleep
     ends at the given time. *)
  elapse : Z -> World -> World;
  (* By how much a sleep that starts at the given time is late. *)
  lag : Z -> World -> N
}.

(* ------------------------------------------------------------------- *)
(* Computations: state, exceptions, and a bound on the poll cycles     *)
(* ------------------------------------------------------------------- *)
(* A computation ends with a value or with an exception, in a new
   state; None means that it does not end: a loop was cut off by its
   bound, or an await does not return. *)

Definition M (A : Type) : Type := State -> option ((Exn + A) * State).

Definition ret {A} (a : A) : M A := fun st => Some (inr a, st).

Definition raise {A} (e : Exn) : M A := fun st => Some (inl e, st).

Definition cut_off {A} : M A := fun _ => None.

Definition blocked {A} : M A := fun _ => None.

Definition bind {A B} (m : M A) (f : A -> M B) : M B := fun st =>
  match m st with
  | None => None
  | Some (inl e, st') => Some (inl e, st')
  | Some (inr a, st') => f a st'
  end.

(* try: m  except Exception as e: h e *)
Definition try_except {A} (m : M A) (h : Exn -> M A) : M A := fun st =>
  match m st with
  | None => None
  | Some (inl e, st') => h e st'
  | Some (inr a, st') => Some (inr a, st')
  end.

Definition gets {A} (f : State -> A) : M A := fun st => Some (inr (f st), st).

Definition modify (f : State -> State) : M unit := fun st => Some (inr tt, f st).

#[global] Instance M_ret : MRet M := @ret.
#[global] Instance M_bind : MBind M := fun A B f m => bind m f.

Definition logger (r : LogRecord) : M unit :=
  modify (fun st => set_log (log st ++ [r]) st).

(* time.time() *)
Definition time_time : M Z := gets now.

Definition seconds (n : Z) : Z := 1000 * n.

Section WithEnv.

Context `{Env}.

(* str(uuid.uuid4()) *)
Definition uuid4_str : M str := fun st =>
  Some (inr (uuid4 (draws st)), set_draws (S (draws st)) st).

(* await asyncio.sleep(d): the clock moves on by d and the lag, and
   the other processes have acted. *)
Definition asyncio_sleep (d : Z) : M unit :=
  modify (fun st =>
    let t := now st + d + Z.of_N (lag (now st) (world st)) in
    set_world (elapse t (world st)) (set_now t st)).

(* os.path.exists(path); os.stat raises TypeError on None. *)
Definition os_path_exists (path : option str) : M bool :=
  match path with
  | None => raise stat_of_None
  | Some p => gets (fun st => path_exists p (world st))
  end.

(* with open(path, 'w') as f: f.write(content) *)
Definition open_write (path : option str) (content : str) : M unit :=
  match path with
  | None => raise open_of_None
  | Some p => fun st =>
      match write_file p content (world st) with
      | Some w => Some (inr tt, set_world w st)
      | None => Some (inl (OSError (strerror p (world st))), st)
      end
  end.

(* with open(path, 'r') as f: f.read() *)
Definition open_read (path : option str) : M str :=
  match path with
  | None => raise open_of_None
  | Some p => fun st =>
      match read_file p (world st) with
      | Some c => Some (inr c, st)
      | None => Some (inl (OSError (strerror p (world st))), st)
      end
  end.

(* os.unlink(path) *)
Definition os_unlink (path : str) : M unit := fun st =>
  match unlink path (world st) with
  | Some w => Some (inr tt, set_world w st)
  | None => Some (inl (OSError (strerror path (world st))), st)
  end.

(* A method of the process that changes the machine or raises. *)
Definition on_process (f : World -> Exn + World) : M unit := fun st =>
  match f (world st) with
  | inr w => Some (inr tt, set_world w st)
  | inl e => Some (inl e, st)
  end.

(* self.sessions[key] = session, and the write-back of a session the
   method has changed. *)
Definition store (key : str) (session : PersistentClineSession) : M unit :=
  modify (fun st => set_sessions (<[key := session]> (sessions st)) st).

(* A truthy Optional[str]: neither None nor ''. *)
Definition truthy (x : option str) : bool :=
  match x with
  | Some (_ :: _) => true
  | _ => false
  end.

End WithEnv.

(* ------------------------------------------------------------------- *)
(* class PersistentClineSession, class SimpleClineService              *)
(* ------------------------------------------------------------------- *)

(* PersistentClineSession.__init__ *)
Definition new_session (session_id : str) (workspace_path : option str)
    (utcnow : Z) : PersistentClineSession :=
  {| session_id := session_id;
     workspace_path :=
       if truthy workspace_path then default [] workspace_path
       else lit "/home/newton/swe_bench_reproducer";
     created_at := utcnow;
     messages := [];
     status := initializing;
     cli_process := None;
     input_file := None;
     output_file := None;
     _last_response_id := None |}.

Definition project_root : str := lit "/home/newton/cline_hackathon".

(* max_wait = 300 and check_interval = 10, in seconds. *)
Definition max_wait : Z := seconds 300.
Definition check_interval : Z := seconds 10.

(* A loop that sleeps 2 s in each cycle and stops once max_wait has
   passed enters its body at most 150 times; the bound leaves room for
   the last test of its condition. *)
Definition poll_bound : nat := 151.

(* The dictionary send_message returns. *)
Record SendResult := {
  r_session_id : str;
  r_message_id : str;
  r_response : json;
  r_status : str
}.

(* What one scan of the lines of the output file ends with. *)
Inductive Scan :=
| Found (response_data : dict) (response_id : Z)
| Nothing
| Raised (e : Exn).

Section Service.

Context `{Env}.

(* The lines under `if session.cli_process:` in the progress report;
   the value says whether the loop is left by break. *)
Definition check_process (session : PersistentClineSession) : M bool :=
  match cli_process session with
  | Some process =>
      rc ← gets (fun st => Process_returncode process (world st));
      match rc with
      | Some code =>
          logger (ProcessExited code);;
          streams ← gets (fun st => communicate process (world st));
          match streams with
          | Pending => blocked
          | Streams stdout stderr =>
              match stdout with
              | Undecodable msg => raise (UnicodeDecodeError msg)
              | Text out =>
                  logger (ProcessStdout out);;
                  match stderr with
                  | Undecodable msg => raise (UnicodeDecodeError msg)
                  | Text err => logger (ProcessStderr err);; mret true
                  end
              end
          end
      | None => logger (ProcessRunning process);; mret false
      end
  | None => mret false
  end.

(* The lines under `# Check what's in the output file`. *)
Definition report_output (session : PersistentClineSession) : M unit :=
  ex ← os_path_exists (output_file session);
  if ex : bool then
    try_except
      (content ← open_read (output_file session);
       let content := strip content in
       if negb (eqb content []) then logger (OutputSoFar (take 200 content))
       else logger OutputEmpty)
      (fun _ => logger OutputUnreadable)
  else logger OutputMissing.

(* The lines under `# Check for ready signal`; the value says whether
   the method returns. *)
Definition check_ready (session : PersistentClineSession) (elapsed : Z) : M bool :=
  ex ← os_path_exists (output_file session);
  if ex : bool then
    try_except
      (content ← open_read (output_file session);
       let content := strip content in
       if contains (lit "SESSION_READY") content || contains (lit "READY") content
       then logger (SessionReady (session_id session) elapsed);; mret true
       else mret false)
      (fun _ => logger ReadyReadError;; mret false)
  else mret false.

(* The two lines after the loop. *)
Definition ready_timed_out (session : PersistentClineSession) : M unit :=
  logger (TimedOut (session_id session));;
  raise (TimeoutError (lit "Session " ++ session_id session
                       ++ lit " failed to become ready within 300 seconds")).

(* while time.time() - start_time < max_wait: ... *)
Fixpoint ready_loop (cycles : nat) (session : PersistentClineSession)
    (start_time last_log_time : Z) : M unit :=
  match cycles with
  | O => cut_off
  | S cycles' =>
      t ← time_time;
      if t - start_time <? max_wait then
        let elapsed := t - start_time in
        '(stop, last_log_time) ←
          (if t - last_log_time >=? check_interval then
             logger (StillWaiting (session_id session) elapsed);;
             stop ← check_process session;
             if stop : bool then mret (true, last_log_time)
             else report_output session;; mret (false, t)
           else mret (false, last_log_time));
        if stop : bool then ready_timed_out session
        else
          found ← check_ready session elapsed;
          if found : bool then mret tt
          else asyncio_sleep (seconds 2);;
               ready_loop cycles' session start_time last_log_time
      else ready_timed_out session
  end.

Definition _wait_for_session_ready_with_logs (session : PersistentClineSession)
    : M unit :=
  start_time ← time_time;
  logger (WaitingReady (session_id session));;
  logger (Monitoring (output_file session));;
  ready_loop poll_bound session start_time start_time.

Definition create_session (workspace_path : option str)
    : M PersistentClineSession :=
  session_id ← uuid4_str;
  utcnow ← time_time;
  let session := new_session session_id workspace_path utcnow in
  try_except
    (logger (Creating session_id);;
     logger (Workspace (Cline.workspace_path session));;
     temp ← gets (fun st =>
               mkdtemp (lit "cline_session_" ++ session_id ++ lit "_") (world st));
     match temp with
     | inl e => raise e
     | inr temp_dir =>
         modify (fun st =>
           set_world (set_dirs_of ({[temp_dir]} ∪ dirs (world st)) (world st)) st);;
         let input := path_join temp_dir (lit "input.txt") in
         let output := path_join temp_dir (lit "output.txt") in
         let session := set_files input output session in
         logger (SessionFiles temp_dir);;
         open_write (input_file session) [];;
         open_write (output_file session) [];;
         let env :=
           [ (lit "CUSTOM_WORKSPACE", Cline.workspace_path session);
             (lit "CLI_MESSAGE", lit "Starting persistent session...");
             (lit "INTERACTIVE_MODE", lit "true");
             (lit "SESSION_ID", session_id);
             (lit "SESSION_INPUT_FILE", input);
             (lit "SESSION_OUTPUT_FILE", output) ] in
         logger (EnvironmentConfigured session_id);;
         let cli_script_path := path_join project_root (lit "cli-with-persistence.sh") in
         logger (StartingCli cli_script_path);;
         started ← gets (fun st =>
           create_subprocess_exec [lit "bash"; cli_script_path] project_root env (world st));
         match started with
         | inl e => raise e
         | inr (process, w) =>
             modify (set_world w);;
             let session := set_cli_process process session in
             logger (CliStarted process);;
             _wait_for_session_ready_with_logs session;;
             let session := set_status ready session in
             store session_id session;;
             logger (Operational session_id);;
             mret session
         end
     end)
    (fun e =>
       logger (CreateFailed session_id e);;
       logger FullException;;
       (* session.status = "error": the object is in no registry *)
       raise e).

(* for line in reversed(lines): ..., given the lines in that order. *)
Fixpoint scan_lines (last_response_id : Z) (lines : list str) : Scan :=
  match lines with
  | [] => Nothing
  | line :: rest =>
      let line := strip line in
      if negb (eqb line []) && negb (eqb line (lit "SESSION_READY"))
         && startswith (lit "{") line
      then
        match json_loads line with
        | JSONDecodeError => scan_lines last_response_id rest
        | LoadsRaises e => Raised e
        | Loaded response_data =>
            if has_key (lit "response") response_data
               || has_key (lit "error") response_data
            then
              let response_id := get_default (lit "messageId") (JInt 0) response_data in
              match number response_id with
              | None => Raised (unordered response_id)
              | Some response_id =>
                  if response_id >? last_response_id
                  then Found response_data response_id
                  else scan_lines last_response_id rest
              end
            else scan_lines last_response_id rest
        end
      else scan_lines last_response_id rest
  end.

(* The body of the loop of _wait_for_response up to the sleep; Some
   is the return inside it. *)
Definition poll_response (session : PersistentClineSession)
    (last_response_id : Z) : M (option (dict * Z)) :=
  try_except
    (ex ← os_path_exists (output_file session);
     if ex : bool then
       content ← open_read (output_file session);
       let content := strip content in
       if negb (eqb content []) then
         match scan_lines last_response_id (rev (split nl content)) with
         | Found response_data response_id => mret (Some (response_data, response_id))
         | Nothing => mret None
         | Raised e => raise e
         end
       else mret None
     else mret None)
    (fun e => logger (ResponseReadError e);; mret None).

Fixpoint response_loop (cycles : nat) (session : PersistentClineSession)
    (start_time last_response_id : Z) : M (dict * PersistentClineSession) :=
  match cycles with
  | O => cut_off
  | S cycles' =>
      t ← time_time;
      if t - start_time <? max_wait then
        hit ← poll_response session last_response_id;
        match hit with
        | Some (response_data, response_id) =>
            mret (response_data, set_last_response_id response_id session)
        | None =>
            asyncio_sleep (seconds 2);;
            response_loop cycles' session start_time last_response_id
        end
      else raise (TimeoutError (lit "No response received within 300 seconds"))
  end.

(* The value is the reply together with the session as the method
   leaves it. *)
Definition _wait_for_response (session : PersistentClineSession)
    : M (dict * PersistentClineSession) :=
  start_time ← time_time;
  let last_response_id := default 0 (_last_response_id session) in
  response_loop poll_bound session start_time last_response_id.

(* session.status = v and the like, on the session of the registry. *)
Definition update_session (key : str)
    (f : PersistentClineSession -> PersistentClineSession) : M unit :=
  modify (fun st => set_sessions (alter f key (sessions st)) st).

Definition send_message (session_id message : str) : M SendResult :=
  registry ← gets sessions;
  match registry !! session_id with
  | None => raise (ValueError (lit "Session " ++ session_id ++ lit " not found"))
  | Some session =>
      if negb (bool_decide (status session = ready)) then
        raise (ValueError (lit "Session " ++ session_id ++ lit " is not ready (status: "
                           ++ status_str (status session) ++ lit ")"))
      else
        try_except
          (let session := set_status processing session in
           store session_id session;;
           id ← uuid4_str;
           utcnow ← time_time;
           let user_message :=
             {| m_id := id; m_type := user; m_content := JStr message;
                m_timestamp := utcnow; m_metadata := None |} in
           let session := append_message user_message session in
           store session_id session;;
           logger (Sending session_id (take 100 message));;
           open_write (input_file session) message;;
           '(response, session) ← _wait_for_response session;
           store session_id session;;
           id ← uuid4_str;
           utcnow ← time_time;
           let agent_message :=
             {| m_id := id; m_type := agent;
                m_content := get_default (lit "response") (JStr []) response;
                m_timestamp := utcnow;
                m_metadata := Some (get (lit "messageId") response) |} in
           let session := append_message agent_message session in
           let session := set_status ready session in
           store session_id session;;
           mret {| r_session_id := session_id;
                   r_message_id := m_id agent_message;
                   r_response := m_content agent_message;
                   r_status := lit "success" |})
          (fun e =>
             update_session session_id (set_status error);;
             logger (SendFailed session_id e);;
             raise e)
  end.

(* self.sessions.get(session_id) *)
Definition get_session (session_id : str) : M (option PersistentClineSession) :=
  gets (fun st => sessions st !! session_id).

(* list(self.sessions.values()) *)
Definition list_sessions : M (list PersistentClineSession) :=
  gets (fun st => (map_to_list (sessions st)).*2).

Definition script_path_of (session : PersistentClineSession) : str :=
  path_join project_root (lit "persistent_session_" ++ session_id session ++ lit ".sh").

(* if path and os.path.exists(path): os.unlink(path) *)
Definition unlink_if_exists (path : option str) : M unit :=
  if truthy path then
    ex ← os_path_exists path;
    if ex : bool then os_unlink (default [] path) else mret tt
  else mret tt.

Definition stop_session (session_id : str) : M bool :=
  registry ← gets sessions;
  match registry !! session_id with
  | None => mret false
  | Some session =>
      try_except
        ((if truthy (input_file session) then
            ex ← os_path_exists (input_file session);
            if ex : bool then open_write (input_file session) (lit "STOP_SESSION")
            else mret tt
          else mret tt);;
         match cli_process session with
         | Some process =>
             on_process (Process_terminate process);;
             asyncio_sleep (seconds 3);;
             polled ← (fun st =>
               Some (Process_poll process (world st), st)) : M (option Z);
             match polled with
             | None => on_process (Process_kill process)
             | Some _ => mret tt
             end
         | None => mret tt
         end;;
         unlink_if_exists (input_file session);;
         unlink_if_exists (output_file session);;
         unlink_if_exists (Some (script_path_of session));;
         (* session.status = "stopped"; del self.sessions[session_id] *)
         modify (fun st => set_sessions (delete session_id (sessions st)) st);;
         logger (Stopped session_id);;
         mret true)
        (fun e => logger (StopFailed session_id e);; mret false)
  end.

(* session.messages[-limit:] if limit else session.messages *)
Definition get_session_messages (session_id : str) (limit : Z) : M (list Message) :=
  registry ← gets sessions;
  match registry !! session_id with
  | None => raise (ValueError (lit "Session " ++ session_id ++ lit " not found"))
  | Some session =>
      let ms := messages session in
      if limit =? 0 then mret ms
      else if 0 <? limit then mret (drop (length ms - Z.to_nat limit) ms)
      else mret (drop (Z.to_nat (- limit)) ms)
  end.

End Service.

(* ------------------------------------------------------------------- *)
(* The output file over the poll cycles                                *)
(* ------------------------------------------------------------------- *)
(* Notions the statements about the two waits are phrased with; they
   are derived from the methods above and are not part of the source. *)

Section Timeline.

Context `{Env}.

(* The clock and the machine after k sleeps of 2 s that start at time
   t on machine w. *)
Fixpoint after_sleeps (k : nat) (t : Z) (w : World) : Z * World :=
  match k with
  | O => (t, w)
  | S k' =>
      let t' := t + seconds 2 + Z.of_N (lag t w) in
      after_sleeps k' t' (elapse t' w)
  end.

(* What one cycle of _wait_for_response finds on machine w. *)
Definition reply_at (session : PersistentClineSession) (last_response_id : Z)
    (w : World) : option (dict * Z) :=
  match output_file session with
  | None => None
  | Some path =>
      if path_exists path w then
        match read_file path w with
        | None => None
        | Some content =>
            if negb (eqb (strip content) []) then
              match scan_lines last_response_id (rev (split nl (strip content))) with
              | Found response_data response_id => Some (response_data, response_id)
              | _ => None
              end
            else None
        end
      else None
  end.

(* What a line of the output file is to the scan.  It holds a reply
   when it passes the guard of the scan, is a JSON object, and the
   object has a "response" or an "error" item; the scan passes over it
   when it fails the guard, is no JSON text, or is an object without
   these items; and it breaks the scan off when json.loads raises
   another exception on it. *)
Inductive Line :=
| Reply (response_data : dict)
| Skipped
| Breaks (e : Exn).

Definition reply_of (line : str) : Line :=
  let line := strip line in
  if negb (eqb line []) && negb (eqb line (lit "SESSION_READY"))
     && startswith (lit "{") line
  then
    match json_loads line with
    | Loaded response_data =>
        if has_key (lit "response") response_data
           || has_key (lit "error") response_data
        then Reply response_data else Skipped
    | JSONDecodeError => Skipped
    | LoadsRaises e => Breaks e
    end
  else Skipped.

(* Whether one cycle of _wait_for_session_ready_with_logs reads a
   readiness marker on machine w. *)
Definition ready_at (session : PersistentClineSession) (w : World) : bool :=
  match output_file session with
  | None => false
  | Some path =>
      match read_file path w with
      | None => false
      | Some content =>
          contains (lit "SESSION_READY") (strip content)
          || contains (lit "READY") (strip content)
      end
  end.

End Timeline.

(* The sequence number of a reply: the number its messageId stands
   for, 0 for a reply without one. *)
Definition sequence_number (response_data : dict) : option Z :=
  number (get_default (lit "messageId") (JInt 0) response_data).

(* The sequence numbers of the replies increase strictly from lo. *)
Fixpoint increasing_from (lo : Z) (replies : list dict) : Prop :=
  match replies with
  | [] => True
  | response_data :: rest =>
      exists n, sequence_number response_data = Some n /\ lo < n
                /\ increasing_from n rest
  end.

(* The state with more records in its log. *)
Definition logged (lg : list LogRecord) (st : State) : State :=
  set_log (log st ++ lg) st.

Section Runs.

Context `{Env}.

(* The state a sleep of d ms leaves. *)
Definition slept (d : Z) (st : State) : State :=
  let t := now st + d + Z.of_N (lag (now st) (world st)) in
  set_world (elapse t (world st)) (set_now t st).

(* The user message send_message appends in state st. *)
Definition user_message_of (message : str) (st : State) : Message :=
  {| m_id := uuid4 (draws st); m_type := user; m_content := JStr message;
     m_timestamp := now st; m_metadata := None |}.

(* The state in which send_message opens the input file. *)
Definition sending (session_id message : str) (session : PersistentClineSession)
    (st : State) : State :=
  {| sessions :=
       <[session_id := append_message (user_message_of message st)
                         (set_status processing session)]> (sessions st);
     world := world st; now := now st; draws := S (draws st);
     log := log st ++ [Sending session_id (take 100 message)] |}.

(* The agent message send_message appends for a reply, in the state
   the wait has left. *)
Definition agent_message_of (response : dict) (st : State) : Message :=
  {| m_id := uuid4 (draws st); m_type := agent;
     m_content := get_default (lit "response") (JStr []) response;
     m_timestamp := now st;
     m_metadata := Some (get (lit "messageId") response) |}.

(* The replies successive waits of one session return; a wait may
   start in any state of the service, and a wait that times out
   returns none. *)
Inductive consumes
  : PersistentClineSession -> list dict -> PersistentClineSession -> Prop :=
| consumes_nil session : consumes session [] session
| consumes_reply session st response_data session1 st1 rest session2 :
    _wait_for_response session st = Some (inr (response_data, session1), st1) ->
    consumes session1 rest session2 ->
    consumes session (response_data :: rest) session2
| consumes_timeout session st e st1 rest session2 :
    _wait_for_response session st = Some (inl e, st1) ->
    consumes session rest session2 ->
    consumes session rest session2.

(* The states the service reaches from an empty registry by calls of
   its methods, one at a time.  Between two calls the machine and the
   clock change.  A call that is cancelled while it sleeps, or that
   hangs in an await, ends with no exception that `except Exception`
   catches: create_session and stop_session then leave the registry as
   it was, whatever they have done to the machine, the log and the
   draws (reachable_frame), and send_message, which sleeps only in its
   wait, leaves the session as it is during the wait, in status
   "processing" with the user message appended (reachable_cancelled,
   followed by reachable_frame for the polls and sleeps of the wait). *)
Inductive reachable : State -> Prop :=
| reachable_start st : sessions st = ∅ -> reachable st
| reachable_frame st st' : reachable st -> sessions st' = sessions st -> reachable st'
| reachable_create st workspace_path r st' :
    reachable st -> create_session workspace_path st = Some (r, st') -> reachable st'
| reachable_send st session_id message r st' :
    reachable st -> send_message session_id message st = Some (r, st') -> reachable st'
| reachable_stop st session_id r st' :
    reachable st -> stop_session session_id st = Some (r, st') -> reachable st'
| reachable_cancelled st session_id message session input w :
    reachable st ->
    sessions st !! session_id = Some session ->
    status session = ready ->
    input_file session = Some input ->
    write_file input message (world st) = Some w ->
    reachable (set_world w (sending session_id message session st)).

End Runs.

End Cline.

(* ===================================================================== *)
(* src/backend/app/api/routes/cline.py                                   *)
(* ===================================================================== *)

Module Routes.

Import Cline.

(* fastapi.HTTPException *)
Record HTTPException := {
  status_code : Z;
  detail : str
}.

(* app.models.MessageResponse, without the timestamp it defaults. *)
Record MessageResponse := {
  session_id : str;
  message_id : str;
  response : str;
  status : str
}.

(* What pydantic makes of a value given for a field declared str: the
   string it stores, or the text of the ValidationError it raises, which
   is a ValueError.  A str is stored as it is; what becomes of another
   value depends on the version of the library. *)
Class Pydantic := {
  str_field : json -> str + str;
  str_field_str : forall s, str_field (JStr s) = inr s
}.

Section Route.

Context `{Env} `{Pydantic}.

(* POST /cline/sessions/{session_id}/messages.  The request has passed
   the validation of the framework.  Of the four fields of the
   response, session_id, message_id and status are given a str; the
   response is whatever the reply holds, and its ValidationError is
   caught by the first handler. *)
Definition send_message (session_id message : str) (st : State)
    : option ((HTTPException + MessageResponse) * State) :=
  match Cline.send_message session_id message st with
  | None => None
  | Some (inr result, st') =>
      match str_field (r_response result) with
      | inr response =>
          Some (inr {| session_id := r_session_id result;
                       message_id := r_message_id result;
                       response := response;
                       status := r_status result |}, st')
      | inl msg => Some (inl {| status_code := 404; detail := msg |}, st')
      end
  | Some (inl e, st') =>
      if is_ValueError e
      then Some (inl {| status_code := 404; detail := exn_str e |}, st')
      else Some (inl {| status_code := 500;
                        detail := lit "Failed to send message: " ++ exn_str e |},
                 set_log (log st' ++ [RouteSendFailed session_id e]) st')
  end.

End Route.

End Routes.

(* ===================================================================== *)
(* src/backend/app/api/routes/cline.py: the session endpoints            *)
(* ===================================================================== *)
(* The routes call the one service instance of the module.  They write
   to the log of the application after the service has written its
   records; the records of the routes are kept beside the state of the
   service. *)

Module SessionRoutes.

Import Cline.

(* app.models.SessionCreateRequest *)
Record SessionCreateRequest := {
  request_workspace_path : option str
}.

(* app.models.SessionResponse *)
Record SessionResponse := {
  session_id : str;
  workspace_path : str;
  created_at : Z;
  status : str;
  message_count : nat
}.

(* app.models.SessionListResponse *)
Record SessionListResponse := {
  sessions : list SessionResponse;
  total_count : nat
}.

(* app.models.StatusResponse *)
Record StatusResponse := {
  response_status : str;
  response_message : option str;
  response_session_id : option str
}.

(* The dictionary health_check returns. *)
Record Health := {
  health_status : str;
  active_sessions : nat;
  health_service : str
}.

(* One constructor for each logger.error of these routes. *)
Inductive LogRecord :=
| CreateFailed (e : Exn)
| ListFailed (e : Exn)
| GetFailed (session_id : str) (e : Exn)
| StopFailed (session_id : str) (e : Exn).

Record App := {
  service : State;
  route_log : list LogRecord
}.

Definition Answer (A : Type) : Type :=
  option ((Routes.HTTPException + A) * App).

(* The keyword arguments of SessionResponse(...), the same in three
   routes. *)
Definition session_response (session : PersistentClineSession) : SessionResponse :=
  {| session_id := Cline.session_id session;
     workspace_path := Cline.workspace_path session;
     created_at := Cline.created_at session;
     status := status_str (Cline.status session);
     message_count := length (messages session) |}.

(* except Exception as e: logger.error(...); raise HTTPException(500, ...) *)
Definition internal_error {A} (prefix : str) (record : Exn -> LogRecord) (e : Exn)
    (st : State) (app : App) : Answer A :=
  Some (inl {| Routes.status_code := 500; Routes.detail := prefix ++ exn_str e |},
        {| service := st; route_log := route_log app ++ [record e] |}).

Section Route.

Context `{Env}.

(* POST /cline/sessions; the body of the request is optional. *)
Definition create_session (request : option SessionCreateRequest) (app : App)
    : Answer SessionResponse :=
  let workspace_path :=
    match request with
    | Some r => request_workspace_path r
    | None => None
    end in
  match Cline.create_session workspace_path (service app) with
  | None => None
  | Some (inr session, st) =>
      Some (inr (session_response session),
            {| service := st; route_log := route_log app |})
  | Some (inl e, st) =>
      internal_error (lit "Failed to create session: ") CreateFailed e st app
  end.

(* GET /cline/sessions *)
Definition list_sessions (app : App) : Answer SessionListResponse :=
  match Cline.list_sessions (service app) with
  | None => None
  | Some (inr sessions, st) =>
      let session_responses := session_response <$> sessions in
      Some (inr {| sessions := session_responses;
                   total_count := length session_responses |},
            {| service := st; route_log := route_log app |})
  | Some (inl e, st) =>
      internal_error (lit "Failed to list sessions: ") ListFailed e st app
  end.

(* GET /cline/sessions/{session_id}; the HTTPException raised inside
   the try block is raised again by the first handler. *)
Definition get_session (session_id : str) (app : App) : Answer SessionResponse :=
  match Cline.get_session session_id (service app) with
  | None => None
  | Some (inr None, st) =>
      Some (inl {| Routes.status_code := 404;
                   Routes.detail := lit "Session " ++ session_id ++ lit " not found" |},
            {| service := st; route_log := route_log app |})
  | Some (inr (Some session), st) =>
      Some (inr (session_response session),
            {| service := st; route_log := route_log app |})
  | Some (inl e, st) =>
      internal_error (lit "Failed to get session: ") (GetFailed session_id) e st app
  end.

(* DELETE /cline/sessions/{session_id} *)
Definition stop_session (session_id : str) (app : App) : Answer StatusResponse :=
  match Cline.stop_session session_id (service app) with
  | None => None
  | Some (inr false, st) =>
      Some (inl {| Routes.status_code := 404;
                   Routes.detail := lit "Session " ++ session_id
                                    ++ lit " not found or already stopped" |},
            {| service := st; route_log := route_log app |})
  | Some (inr true, st) =>
      Some (inr {| response_status := lit "success";
                   response_message :=
                     Some (lit "Session " ++ session_id ++ lit " stopped successfully");
                   response_session_id := Some session_id |},
            {| service := st; route_log := route_log app |})
  | Some (inl e, st) =>
      internal_error (lit "Failed to stop session: ") (StopFailed session_id) e st app
  end.

(* GET /cline/health; len() of a dict does not raise. *)
Definition health_check (app : App) : Health :=
  {| health_status := lit "healthy";
     active_sessions := size (Cline.sessions (service app));
     health_service := lit "cline_automation" |}.

End Route.

End SessionRoutes.

(* ===================================================================== *)
(* src/coderabbit_api.py: the run of the CLI and the review endpoint     *)
(* ===================================================================== *)
(* The two functions are embedded as functions of what the host answers:
   the file system under the workspace path, the start of the CLI, the
   end of the wait for it and what decode() makes of its output.  Each
   function returns its outcome together with the records it writes to
   the log. *)

Module ReviewApi.

Import Review.

(* How await asyncio.wait_for(process.communicate(), timeout) ends. *)
Inductive Wait :=
(* TimeoutError; then process.kill() and await process.wait(): they
   return (None) or one of them raises e (Some (str e)). *)
| Expires (cleanup : option str)
(* communicate() raises e in time (str e). *)
| Fails (e : str)
(* communicate() returns in time: the return code, and what
   stdout.decode('utf-8') and stderr.decode('utf-8') make of the two
   values (the empty text for an empty value). *)
| Exits (returncode : Z) (stdout stderr : Cline.Decoded).

(* How asyncio.create_subprocess_exec("npm", "run", "coderabbit", ...)
   ends: it raises e, or the process runs and a wait with a timeout in
   seconds ends as wait_for says. *)
Inductive Spawn :=
| SpawnFails (e : str)
| Started (wait_for : Z -> Wait).

Class Host := {
  (* int(count_part) of the parser; None is its ValueError. *)
  int : str -> option Z;
  (* time.strftime("%Y-%m-%dT%H:%M:%SZ") at the call of the parser. *)
  strftime : str;
  (* Path(p).exists(), Path(p).is_dir() and str(Path(p).absolute()):
     the value, or str(e) of the OSError the call raises (a name that is
     too long, a current directory that is gone). *)
  Path_exists : str -> str + bool;
  Path_is_dir : str -> str + bool;
  Path_absolute : str -> str + str;
  (* The start of the CLI with CUSTOM_WORKSPACE set to the path given. *)
  npm_run_coderabbit : str -> Spawn
}.

Inductive LogRecord :=
(* run_coderabbit_cli *)
| Starting (workspace_path : str)
| CliCompleted (returncode : Z)
| CliFailed (stderr : str)
| CliError (e : str)
(* parse_coderabbit_output *)
| Parser (r : Review.LogRecord)
(* review_workspace *)
| ReviewStarting (workspace_path : str)
| ReviewCompleted (comment_count : nat)
| Unexpected (e : str).

Definition level (r : LogRecord) : Cline.Level :=
  match r with
  | CliFailed _ | CliError _ | Unexpected _ => Cline.ERROR
  | _ => Cline.INFO
  end.

(* class CodeRabbitRequest; timeout_minutes is Optional[int], 10 when
   the request does not give it. *)
Record CodeRabbitRequest := {
  workspace_path : str;
  timeout_minutes : option Z
}.

(* The dictionary run_coderabbit_cli returns. *)
Record CliResult := {
  result_success : bool;
  result_comments : list Comment;
  result_output : str;
  process_code : Z
}.

(* class CodeRabbitResponse, without duration_seconds and message: both
   are formatted from the clock. *)
Record CodeRabbitResponse := {
  success : bool;
  comments : list Comment;
  comment_count : nat;
  session_id : str
}.

Section Api.

Context `{Host}.

(* except Exception as e, the second handler of run_coderabbit_cli *)
Definition internal_error (e : str) (log : list LogRecord)
    : (Routes.HTTPException + CliResult) * list LogRecord :=
  (inl {| Routes.status_code := 500;
          Routes.detail := lit "Internal error running CodeRabbit: " ++ e |},
   log ++ [CliError e]).

Definition run_coderabbit_cli (workspace_path : str) (timeout_minutes : option Z)
    : (Routes.HTTPException + CliResult) * list LogRecord :=
  let log := [Starting workspace_path] in
  match npm_run_coderabbit workspace_path with
  | SpawnFails e => internal_error e log
  | Started wait_for =>
      match timeout_minutes with
      | None =>
          (* timeout_minutes * 60 *)
          internal_error
            (lit "unsupported operand type(s) for *: 'NoneType' and 'int'") log
      | Some minutes =>
          match wait_for (minutes * 60)%Z with
          | Expires None =>
              (inl {| Routes.status_code := 408;
                      Routes.detail := lit "CodeRabbit review timed out after "
                                       ++ lit (pretty minutes) ++ lit " minutes" |},
               log)
          | Expires (Some e) => internal_error e log
          | Fails e => internal_error e log
          | Exits returncode stdout stderr =>
              (* The two values are decoded before the return code is
                 looked at. *)
              match stdout with
              | Cline.Undecodable e => internal_error e log
              | Cline.Text stdout_str =>
                  match stderr with
                  | Cline.Undecodable e => internal_error e log
                  | Cline.Text stderr_str =>
                      let log := log ++ [CliCompleted returncode] in
                      if negb (returncode =? 0)%Z then
                        (inl {| Routes.status_code := 500;
                                Routes.detail := lit "CodeRabbit CLI failed: "
                                                 ++ take 500 stderr_str |},
                         log ++ [CliFailed stderr_str])
                      else
                        let '(comments, parser_log) :=
                          parse_coderabbit_output int strftime stdout_str in
                        (inr {| result_success := true;
                                result_comments := comments;
                                result_output := stdout_str;
                                process_code := returncode |},
                         log ++ map Parser parser_log)
                  end
              end
          end
      end
  end.

(* except Exception as e, the second handler of review_workspace *)
Definition unexpected (e : str) (log : list LogRecord)
    : (Routes.HTTPException + CodeRabbitResponse) * list LogRecord :=
  (inl {| Routes.status_code := 500;
          Routes.detail := lit "Internal server error: " ++ e |},
   log ++ [Unexpected e]).

(* POST /review.  The HTTPException of a check or of the run is raised
   again by the first handler; an OSError of a call on the path reaches
   the second one. *)
Definition review_workspace (request : CodeRabbitRequest)
    : (Routes.HTTPException + CodeRabbitResponse) * list LogRecord :=
  match Path_exists (workspace_path request) with
  | inl e => unexpected e []
  | inr false =>
      (inl {| Routes.status_code := 400;
              Routes.detail := lit "Workspace path does not exist: "
                               ++ workspace_path request |}, [])
  | inr true =>
      match Path_is_dir (workspace_path request) with
      | inl e => unexpected e []
      | inr false =>
          (inl {| Routes.status_code := 400;
                  Routes.detail := lit "Workspace path is not a directory: "
                                   ++ workspace_path request |}, [])
      | inr true =>
          let log := [ReviewStarting (workspace_path request)] in
          match Path_absolute (workspace_path request) with
          | inl e => unexpected e log
          | inr absolute =>
              match run_coderabbit_cli absolute (timeout_minutes request) with
              | (inl e, cli_log) => (inl e, log ++ cli_log)
              | (inr result, cli_log) =>
                  let comments := result_comments result in
                  (inr {| success := result_success result;
                          comments := comments;
                          comment_count := length comments;
                          session_id := lit "coderabbit-api-session" |},
                   log ++ cli_log ++ [ReviewCompleted (length comments)])
              end
          end
      end
  end.

End Api.

End ReviewApi.

(* ===================================================================== *)
(* Concrete runs                                                         *)
(* ===================================================================== *)
(* The inputs the statements below are tried on: a review output, and one
   session "s1" of the service with its two files and its process 7, on
   machines whose external process writes a fixed text to the output file
   whenever the service sleeps. *)

Module Examples.

Import Cline.
Local Open Scope Z_scope.

(* int() on a string of ASCII digits; other strings are not needed. *)
Fixpoint digits_value (acc : Z) (x : str) : option Z :=
  match x with
  | [] => Some acc
  | c :: x' =>
      if ((48 <=? c) && (c <=? 57))%N
      then digits_value (10 * acc + Z.of_N (c - 48)) x'
      else None
  end.

Definition digits_int (x : str) : option Z :=
  match x with
  | [] => None
  | _ => digits_value 0 x
  end.

(* Two extracted comments and the summary line. *)
Definition review_output : str :=
  Review.extracted_sep ++ lit "Consider renaming this variable..." ++ nl
  ++ lit "progress 50%" ++ nl
  ++ Review.extracted_sep ++ lit "Missing null check in the handler" ++ nl
  ++ Review.completed_marker ++ lit " 2 comments".

(* The same, with a first comment of nine characters. *)
Definition review_output_short : str :=
  Review.extracted_sep ++ lit "Fix typo." ++ nl
  ++ Review.extracted_sep ++ lit "Missing null check in the handler" ++ nl
  ++ Review.completed_marker ++ lit " 2 comments".

Definition quoted (x : str) : str := dq ++ x ++ dq.

(* {"response": "done", "messageId": 1} *)
Definition reply_line : str :=
  lit "{" ++ quoted (lit "response") ++ lit ": " ++ quoted (lit "done") ++ lit ", "
  ++ quoted (lit "messageId") ++ lit ": 1}".

Definition reply : dict :=
  [(lit "response", JStr (lit "done")); (lit "messageId", JInt 1)].

(* {"success": false, "error": "boom", "messageId": 1} *)
Definition error_line : str :=
  lit "{" ++ quoted (lit "success") ++ lit ": false, "
  ++ quoted (lit "error") ++ lit ": " ++ quoted (lit "boom") ++ lit ", "
  ++ quoted (lit "messageId") ++ lit ": 1}".

Definition error_reply : dict :=
  [(lit "success", JBool false); (lit "error", JStr (lit "boom"));
   (lit "messageId", JInt 1)].

(* {"success": false, "error": "boom"} *)
Definition plain_error_line : str :=
  lit "{" ++ quoted (lit "success") ++ lit ": false, "
  ++ quoted (lit "error") ++ lit ": " ++ quoted (lit "boom") ++ lit "}".

Definition plain_error_reply : dict :=
  [(lit "success", JBool false); (lit "error", JStr (lit "boom"))].

(* json.loads on the three lines above; no other line of the runs is a
   JSON text. *)
Definition loads (line : str) : Loads :=
  if bool_decide (line = reply_line) then Loaded reply
  else if bool_decide (line = error_line) then Loaded error_reply
  else if bool_decide (line = plain_error_line) then Loaded plain_error_reply
  else JSONDecodeError.

Definition temp_dir : str := lit "/tmp/cline_session_s1_x".
Definition input_path : str := lit "/tmp/cline_session_s1_x/input.txt".
Definition output_path : str := lit "/tmp/cline_session_s1_x/output.txt".

Definition running : Proc :=
  {| returncode := None; transport_closed := false;
     sigterm := false; sigkill := false |}.

Definition exited : Proc :=
  {| returncode := Some 1;
     transport_closed := true; sigterm := false; sigkill := false |}.

(* What the pipes of a process that has exited hold. *)
Definition exit_stdout : str := lit "boom".
Definition exit_stderr : str := lit "no display".

(* The text of the OSError for a path that cannot be opened. *)
Definition no_such_file (path : str) : str :=
  lit "[Errno 2] No such file or directory: '" ++ path ++ lit "'".

(* A machine whose external process leaves the given text in the
   output file during every sleep (None: it writes nothing), with
   sleeps that are never late; the pipes of a process that has exited
   are read at once. *)
Definition machine (writes : option str) : Env :=
  {| json_loads := loads;
     uuid4 := fun n => lit "uuid-" ++ [(48 + N.of_nat n)%N];
     mkdtemp := fun _ _ => inr temp_dir;
     create_subprocess_exec := fun _ _ _ w =>
       inr (7%N, set_procs_of (<[7%N := running]> (procs w)) w);
     communicate := fun _ _ => Streams (Text exit_stdout) (Text exit_stderr);
     strerror := fun path _ => no_such_file path;
     elapse := fun _ w =>
       match writes with
       | Some content => set_files_of (<[output_path := content]> (files w)) w
       | None => w
       end;
     lag := fun _ _ => 0%N |}.

(* A pydantic that takes nothing but a str for a field declared str;
   of the text of its error, the first line. *)
Definition strict : Routes.Pydantic :=
  {| Routes.str_field := fun v =>
       match v with
       | JStr s => inr s
       | _ => inl (lit "1 validation error for MessageResponse")
       end;
     Routes.str_field_str := fun s => eq_refl |}.

Definition session1 (st : Status) : PersistentClineSession :=
  {| session_id := lit "s1"; workspace_path := lit "/work"; created_at := 0;
     messages := []; status := st; cli_process := Some 7%N;
     input_file := Some input_path; output_file := Some output_path;
     _last_response_id := None |}.

Definition world1 (output : str) (p : Proc) : World :=
  {| files := {[ input_path := []; output_path := output ]};
     dirs := {[ temp_dir ]};
     procs := {[ 7%N := p ]} |}.

(* The service with session "s1" in the given status, at time t. *)
Definition state1 (st : Status) (output : str) (p : Proc) (t : Z) : State :=
  {| sessions := {[ lit "s1" := session1 st ]}; world := world1 output p; now := t;
     draws := 0; log := [] |}.

Definition ready_text : str := lit "SESSION_READY" ++ nl.
Definition replied_text : str := lit "SESSION_READY" ++ nl ++ reply_line ++ nl.
Definition failed_text : str := lit "SESSION_READY" ++ nl ++ error_line ++ nl.
Definition plain_failed_text : str := lit "SESSION_READY" ++ nl ++ plain_error_line ++ nl.

(* The service before any call, on a machine without files. *)
Definition state0 : State :=
  {| sessions := ∅; world := {| files := ∅; dirs := ∅; procs := ∅ |}; now := 0;
     draws := 0; log := [] |}.

(* The state create_session leaves when called in state0 on a machine
   whose process writes the readiness marker. *)
Definition created : option ((Exn + PersistentClineSession) * State) :=
  @create_session (machine (Some ready_text)) None state0.

Definition state_created : State :=
  match created with
  | Some (_, st) => st
  | None => state0
  end.

End Examples.

(* More inputs: a reply whose messageId is a string, the states two
   calls of send_message leave, and hosts of the review endpoint. *)

Module MoreExamples.

Import Cline Examples.
Local Open Scope Z_scope.

(* {"response": "done", "messageId": "7"} *)
Definition text_id_line : str :=
  lit "{" ++ quoted (lit "response") ++ lit ": " ++ quoted (lit "done") ++ lit ", "
  ++ quoted (lit "messageId") ++ lit ": " ++ quoted (lit "7") ++ lit "}".

Definition text_id_reply : dict :=
  [(lit "response", JStr (lit "done")); (lit "messageId", JStr (lit "7"))].

(* The machine of Examples that writes nothing, with a json.loads that
   knows the line above as well. *)
Definition machine_text_id : Env :=
  {| json_loads := fun line =>
       if bool_decide (line = text_id_line) then Loaded text_id_reply else loads line;
     uuid4 := @uuid4 (machine None);
     mkdtemp := @mkdtemp (machine None);
     create_subprocess_exec := @create_subprocess_exec (machine None);
     communicate := @communicate (machine None);
     strerror := @strerror (machine None);
     elapse := @elapse (machine None);
     lag := @lag (machine None) |}.


(* The state a send to s1 leaves when the process answers during the
   first sleep, and the one it leaves when the process never answers. *)
Definition state_replied : State :=
  match @send_message (machine (Some replied_text)) (lit "s1") (lit "hello")
          (state1 ready ready_text running 0) with
  | Some (_, st) => st
  | None => state0
  end.

Definition state_failed : State :=
  match @send_message (machine None) (lit "s1") (lit "hello")
          (state1 ready ready_text running 0) with
  | Some (_, st) => st
  | None => state0
  end.

(* The two messages of that exchange and the session s1 after it. *)
Definition hello_message : Message :=
  {| m_id := lit "uuid-0"; m_type := user; m_content := JStr (lit "hello");
     m_timestamp := 0; m_metadata := None |}.

Definition done_message : Message :=
  {| m_id := lit "uuid-1"; m_type := agent; m_content := JStr (lit "done");
     m_timestamp := seconds 2; m_metadata := Some (Some (JInt 1)) |}.

Definition done_result : SendResult :=
  {| r_session_id := lit "s1"; r_message_id := lit "uuid-1";
     r_response := JStr (lit "done"); r_status := lit "success" |}.

Definition session1_replied : PersistentClineSession :=
  {| session_id := lit "s1"; workspace_path := lit "/work"; created_at := 0;
     messages := [hello_message; done_message]; status := ready;
     cli_process := Some 7%N;
     input_file := Some input_path; output_file := Some output_path;
     _last_response_id := Some 1 |}.







(* The result of the service for a send to s1 on that machine, the state
   the send route leaves, and the error it raises. *)
Definition number_result : SendResult :=
  {| r_session_id := lit "s1"; r_message_id := lit "uuid-1";
     r_response := JInt 5; r_status := lit "success" |}.




(* The application before any request, and after the request that has
   created the session of state_created. *)
Definition app0 : SessionRoutes.App :=
  {| SessionRoutes.service := state0; SessionRoutes.route_log := [] |}.

Definition app_created : SessionRoutes.App :=
  {| SessionRoutes.service := state_created; SessionRoutes.route_log := [] |}.

Definition created_response : SessionRoutes.SessionResponse :=
  {| SessionRoutes.session_id := lit "uuid-0";
     SessionRoutes.workspace_path := lit "/home/newton/swe_bench_reproducer";
     SessionRoutes.created_at := 0;
     SessionRoutes.status := lit "ready";
     SessionRoutes.message_count := 0 |}.

(* The session create_session registers in state_created. *)
Definition session_created : PersistentClineSession :=
  set_status ready
    (set_cli_process 7%N
       (set_files input_path output_path (new_session (lit "uuid-0") None 0))).

(* An output file in which a reply is followed by an error record
   without messageId, and one in which it is followed by the reply
   whose messageId is a string. *)
Definition stale_text : str :=
  lit "SESSION_READY" ++ nl ++ reply_line ++ nl ++ plain_error_line ++ nl.

Definition text_id_text : str :=
  lit "SESSION_READY" ++ nl ++ reply_line ++ nl ++ text_id_line ++ nl.

(* The state of state_created after a send to its session that was
   cancelled during its wait. *)
Definition state_cancelled : State :=
  match write_file input_path (lit "hello") (world state_created) with
  | Some w =>
      set_world w (@sending (machine (Some ready_text)) (lit "uuid-0") (lit "hello")
                     session_created state_created)
  | None => state0
  end.

(* The state create_session leaves when called in state0 on the
   machine whose process never writes. *)
Definition state_create_failed : State :=
  match @create_session (machine None) None state0 with
  | Some (_, st) => st
  | None => state0
  end.

(* A host on which "/work" is the one directory and the wait for the
   CLI ends as given. *)
Definition host (wait : ReviewApi.Wait) : ReviewApi.Host :=
  {| ReviewApi.int := digits_int;
     ReviewApi.strftime := lit "2025-01-01T00:00:00Z";
     ReviewApi.Path_exists := fun p => inr (bool_decide (p = lit "/work"));
     ReviewApi.Path_is_dir := fun p => inr (bool_decide (p = lit "/work"));
     ReviewApi.Path_absolute := fun p => inr p;
     ReviewApi.npm_run_coderabbit := fun _ => ReviewApi.Started (fun _ => wait) |}.

Definition review_request : ReviewApi.CodeRabbitRequest :=
  {| ReviewApi.workspace_path := lit "/work"; ReviewApi.timeout_minutes := Some 10 |}.

(* The response to review_request when the CLI prints review_output
   and exits with code 0. *)
Definition review_response : ReviewApi.CodeRabbitResponse :=
  {| ReviewApi.success := true;
     ReviewApi.comments :=
       [Review.extracted_comment (lit "Consider renaming this variable")
          (lit "2025-01-01T00:00:00Z");
        Review.extracted_comment (lit "Missing null check in the handler")
          (lit "2025-01-01T00:00:00Z")];
     ReviewApi.comment_count := 2;
     ReviewApi.session_id := lit "coderabbit-api-session" |}.

(* The error for review_request when the CLI exits with code 1. *)
Definition review_error : Routes.HTTPException :=
  {| Routes.status_code := 500;
     Routes.detail := lit "CodeRabbit CLI failed: npm ERR! missing script" |}.

(* str(e) of the UnicodeDecodeError for a standard output that starts
   with the byte 0xff, and the error for review_request when the CLI
   has printed such an output. *)
Definition invalid_start_byte : str :=
  lit "'utf-8' codec can't decode byte 0xff in position 0: invalid start byte".

Definition decode_error : Routes.HTTPException :=
  {| Routes.status_code := 500;
     Routes.detail := lit "Internal error running CodeRabbit: " ++ invalid_start_byte |}.

(* A host on which the test of the path raises OSError, and the error
   for review_request on it. *)
Definition name_too_long : str := lit "[Errno 36] File name too long: '/work'".

Definition host_name_too_long : ReviewApi.Host :=
  {| ReviewApi.int := digits_int;
     ReviewApi.strftime := lit "2025-01-01T00:00:00Z";
     ReviewApi.Path_exists := fun _ => inl name_too_long;
     ReviewApi.Path_is_dir := fun _ => inl name_too_long;
     ReviewApi.Path_absolute := fun p => inr p;
     ReviewApi.npm_run_coderabbit := fun _ => ReviewApi.SpawnFails [] |}.

Definition path_error : Routes.HTTPException :=
  {| Routes.status_code := 500;
     Routes.detail := lit "Internal server error: " ++ name_too_long |}.

End MoreExamples.

(* ===================================================================== *)
(* The string and path functions on small inputs                         *)
(* ===================================================================== *)

Module PyStrProps.

Import Cline.

Example split_on_a_word :
  split (lit "ab") (lit "xabyabab") = [lit "x"; lit "y"; []; []].
Proof. vm_compute. reflexivity. Qed.

Example split_into_lines :
  split nl (lit "a" ++ nl ++ lit "b" ++ nl) = [lit "a"; lit "b"; []].
Proof. vm_compute. reflexivity. Qed.

Example strip_both_ends : strip (lit "  a b " ++ nl) = lit "a b".
Proof. vm_compute. reflexivity. Qed.

Example replace_dots : replace (lit "...") [] (lit "a....b...") = lit "a.b".
Proof. vm_compute. reflexivity. Qed.

Example ready_within_session_ready : contains (lit "READY") (lit "SESSION_READY") = true.
Proof. vm_compute. reflexivity. Qed.

Example dirname_of_a_file : dirname (lit "/tmp/x/input.txt") = lit "/tmp/x".
Proof. vm_compute. reflexivity. Qed.

Example dirname_of_a_name : dirname (lit "input.txt") = [].
Proof. vm_compute. reflexivity. Qed.

Example join_directory_and_name :
  path_join (lit "/tmp/x") (lit "input.txt") = lit "/tmp/x/input.txt".
Proof. vm_compute. reflexivity. Qed.

Example text_of_an_extracted_line :
  Review.comment_text_of
    (Review.extracted_sep ++ lit "Consider renaming this variable...")
  = Some (lit "Consider renaming this variable").
Proof. vm_compute. reflexivity. Qed.

Example count_of_a_summary_line :
  Review.count_part_of (Review.completed_marker ++ lit " 2 comments") = Some (lit "2").
Proof. vm_compute. reflexivity. Qed.

End PyStrProps.

(* ===================================================================== *)
(* Properties of the review parser                                       *)
(* ===================================================================== *)

Module ReviewProps.

Import Review.

Section Props.

(* int(count_part), as in the parser. *)
Variable int : str -> option Z.

Lemma scan_comments ts (lines : list str) comments log :
  fst (scan int ts lines comments log)
  = comments ++ map (fun t => extracted_comment t ts) (omap accepted lines).
Proof.
  revert comments log.
  induction lines as [|line rest IH]; intros comments log; simpl.
  - by rewrite app_nil_r.
  - unfold accepted at 1.
    destruct (contains extracted_marker line).
    + destruct (comment_text_of line) as [t|]; [|by apply IH].
      destruct (negb (eqb t []) && (10 <? length t)%nat); [|by apply IH].
      rewrite IH. simpl. by rewrite <- app_assoc.
    + destruct (contains completed_marker line && contains (lit "comments") line);
        [|by apply IH].
      destruct (count_part_of line) as [c|]; [|by apply IH].
      destruct (int c); by apply IH.
Qed.

Lemma omap_accepted_marked (lines : list str) :
  omap accepted lines
  = omap accepted (filter (fun l => contains extracted_marker l = true) lines).
Proof.
  induction lines as [|line rest IH]; [done|].
  destruct (decide (contains extracted_marker line = true)) as [Hm|Hm].
  - rewrite filter_cons_True by done. cbn [omap list_omap]. fold (omap accepted rest).
    by rewrite IH.
  - rewrite filter_cons_False by done. rewrite <- IH. cbn [omap list_omap].
    unfold accepted at 1. by destruct (contains extracted_marker line).
Qed.

Lemma parse_comments ts output :
  fst (parse_coderabbit_output int ts output)
  = match omap accepted (split nl output) with
    | [] => [placeholder ts]
    | texts => map (fun t => extracted_comment t ts) texts
    end.
Proof.
  unfold parse_coderabbit_output.
  pose proof (scan_comments ts (split nl output) [] []) as Hs.
  destruct (scan int ts (split nl output) [] []) as [comments log].
  simpl in Hs. subst comments.
  destruct (omap accepted (split nl output)); simpl; done.
Qed.

Lemma accepted_long line t :
  contains extracted_marker line = true ->
  comment_text_of line = Some t -> (10 < length t)%nat -> accepted line = Some t.
Proof.
  intros Hm Ht Hl. unfold accepted. rewrite Hm, Ht.
  destruct t as [|c t]; [simpl in Hl; lia|].
  replace (10 <? length (c :: t))%nat with true; [done|].
  symmetry. by apply Nat.ltb_lt.
Qed.

(** C9, as amended.  When exactly two lines of the output contain the
    extracted-comment marker and each carries, after the marker and a
    space, a text of more than ten characters (once "..." is removed and
    the text stripped), the parser returns exactly these two comments,
    whatever the other lines say: a summary line reaches the log only.
    When no line contains the marker, it returns exactly the one
    placeholder comment. *)
Theorem parse_two_extracted ts output :
  let marked := filter (fun l => contains extracted_marker l = true) (split nl output) in
  (forall a b ta tb,
      marked = [a; b] ->
      comment_text_of a = Some ta -> (10 < length ta)%nat ->
      comment_text_of b = Some tb -> (10 < length tb)%nat ->
      fst (parse_coderabbit_output int ts output)
      = [extracted_comment ta ts; extracted_comment tb ts])
  /\ (marked = [] -> fst (parse_coderabbit_output int ts output) = [placeholder ts]).
Proof.
  intros marked. split.
  - intros a b ta tb Hm Ha Hla Hb Hlb.
    rewrite parse_comments, omap_accepted_marked. fold marked. rewrite Hm.
    assert (contains extracted_marker a = true /\ contains extracted_marker b = true)
      as [Hca Hcb].
    { assert (Forall (fun l => contains extracted_marker l = true) marked) as HF
        by (apply Forall_forall; intros x Hx; by apply list_elem_of_filter in Hx as [? _]).
      rewrite Hm in HF. inversion HF as [|? ? ? HF']; subst. inversion HF'; subst. done. }
    simpl. rewrite (accepted_long a ta), (accepted_long b tb); done.
  - intros Hm. rewrite parse_comments, omap_accepted_marked. fold marked. by rewrite Hm.
Qed.

End Props.

End ReviewProps.

(* ===================================================================== *)
(* The shape of the parser's result                                      *)
(* ===================================================================== *)

Module StripProps.

(* ------------------------------------------------------------------- *)
(* strip                                                               *)
(* ------------------------------------------------------------------- *)

Lemma lstrip_fixed (c : N) (x : str) : isspace c = false -> lstrip (c :: x) = c :: x.
Proof. intros Hc. cbn [lstrip]. by rewrite Hc. Qed.

Lemma lstrip_head (x : str) :
  lstrip x = [] \/ exists c rest, lstrip x = c :: rest /\ isspace c = false.
Proof.
  induction x as [|c x IH]; [by left|]. cbn [lstrip].
  destruct (isspace c) eqn:Hc; [done|]. right. by exists c, x.
Qed.

Lemma lstrip_idemp (x : str) : lstrip (lstrip x) = lstrip x.
Proof.
  destruct (lstrip_head x) as [->|(c & rest & -> & Hc)]; [done|]. by apply lstrip_fixed.
Qed.

(* lstrip removes a run of white space. *)
Lemma lstrip_decomp (x : str) :
  exists spaces, x = spaces ++ lstrip x /\ Forall (fun c => isspace c = true) spaces.
Proof.
  induction x as [|c x (spaces & Hx & Hs)]; [by exists []|]. cbn [lstrip].
  destruct (isspace c) eqn:Hc.
  - exists (c :: spaces). split; [by rewrite Hx at 1|]. by constructor.
  - by exists [].
Qed.

Lemma rstrip_idemp (x : str) : rstrip (rstrip x) = rstrip x.
Proof. unfold rstrip. by rewrite rev_involutive, lstrip_idemp. Qed.

(* rstrip keeps a first character that is no white space. *)
Lemma rstrip_head (c : N) (x : str) :
  isspace c = false -> exists rest, rstrip (c :: x) = c :: rest.
Proof.
  intros Hc. unfold rstrip.
  destruct (lstrip_decomp (rev (c :: x))) as (spaces & Hx & Hs).
  assert (c :: x = rev (lstrip (rev (c :: x))) ++ rev spaces) as Hy.
  { rewrite <- rev_app_distr, <- Hx. by rewrite rev_involutive. }
  destruct (rev (lstrip (rev (c :: x)))) as [|c' rest].
  - exfalso. simpl in Hy.
    assert (c ∈ rev spaces) as Hin by (rewrite <- Hy; apply elem_of_cons; by left).
    apply list_elem_of_In, in_rev, list_elem_of_In in Hin.
    rewrite Forall_forall in Hs. specialize (Hs c Hin). congruence.
  - simpl in Hy. injection Hy as <- _. by exists rest.
Qed.

Lemma strip_idemp (x : str) : strip (strip x) = strip x.
Proof.
  unfold strip.
  destruct (lstrip_head x) as [->|(c & rest & -> & Hc)]; [done|].
  destruct (rstrip_head c rest Hc) as [rest' Hr].
  rewrite Hr, (lstrip_fixed c rest' Hc), <- Hr. apply rstrip_idemp.
Qed.

End StripProps.

Module ParserProps.

Import Review ReviewProps StripProps.

Section Props.

(* int(count_part), as in the parser. *)
Variable int : str -> option Z.

Lemma accepted_inv line t :
  accepted line = Some t ->
  contains extracted_marker line = true
  /\ (10 < length t)%nat /\ strip t = t.
Proof.
  unfold accepted. destruct (contains extracted_marker line); [|done].
  unfold comment_text_of.
  destruct (split extracted_sep line !! 1%nat) as [part|]; [|done].
  destruct (negb (eqb (strip (replace (lit "...") [] part)) [])
            && (10 <? length (strip (replace (lit "...") [] part)))%nat) eqn:Hg; [|done].
  intros [= <-]. apply andb_true_iff in Hg as [_ Hlen]. apply Nat.ltb_lt in Hlen.
  split; [done|]. split; [done|]. apply strip_idemp.
Qed.

Lemma parse_comments_nonempty ts output :
  (1 <= length (fst (parse_coderabbit_output int ts output)))%nat.
Proof.
  rewrite parse_comments.
  destruct (omap accepted (split nl output)); simpl; lia.
Qed.

Lemma omap_accepted_length (lines : list str) :
  (length (omap accepted lines)
   <= length (filter (fun l => contains extracted_marker l = true) lines))%nat.
Proof.
  induction lines as [|line rest IH]; [done|].
  cbn [omap list_omap]. fold (omap accepted rest).
  destruct (accepted line) as [t|] eqn:Ha.
  - apply accepted_inv in Ha as (Hm & _). rewrite filter_cons_True by done.
    simpl. lia.
  - destruct (decide (contains extracted_marker line = true)).
    + rewrite filter_cons_True by done. simpl. lia.
    + by rewrite filter_cons_False.
Qed.

(** X17.  The parser never returns an empty list, and it never mixes
    the placeholder with extracted comments.  For every output, either
    the result is the placeholder alone (user "CodeRabbit", range
    "Overall", file "Workspace"), or it holds extracted comments only:
    each has user "CodeRabbit", range and file "Unknown", the time stamp
    of the call, and a text of more than 10 characters without white
    space at either end; and there are at most as many of them as the
    output has lines with the marker. *)
Theorem parse_result_shape ts output :
  fst (parse_coderabbit_output int ts output) <> []
  /\ (fst (parse_coderabbit_output int ts output) = [placeholder ts]
      \/ (Forall (fun c => user c = lit "CodeRabbit" /\ range c = lit "Unknown"
                           /\ filePath c = lit "Unknown" /\ timestamp c = ts
                           /\ (10 < length (text c))%nat /\ strip (text c) = text c)
                 (fst (parse_coderabbit_output int ts output))
          /\ (length (fst (parse_coderabbit_output int ts output))
              <= length (filter (fun l => contains extracted_marker l = true)
                                (split nl output)))%nat)).
Proof.
  rewrite parse_comments.
  pose proof (omap_accepted_length (split nl output)) as Hlen.
  assert (Forall (fun t => (10 < length t)%nat /\ strip t = t)
                 (omap accepted (split nl output))) as Htexts.
  { apply Forall_forall. intros t Ht. apply list_elem_of_omap in Ht as (line & _ & Ha).
    apply accepted_inv in Ha as (_ & ? & ?). done. }
  destruct (omap accepted (split nl output)) as [|t texts]; [split; [done|by left]|].
  split; [done|]. right. split.
  - apply Forall_fmap. eapply Forall_impl; [exact Htexts|].
    intros t' [? ?]. simpl. done.
  - by rewrite length_map.
Qed.

End Props.

End ParserProps.

(* ===================================================================== *)
(* Properties of the session service                                     *)
(* ===================================================================== *)

Module ClineProps.

Import Cline.
Local Open Scope Z_scope.

Ltac unfold_M :=
  unfold mbind, M_bind, mret, M_ret, bind, ret, raise, try_except, gets, modify,
    logger, time_time, cut_off in *.

Lemma set_log_nil st : set_log (log st ++ []) st = st.
Proof. destruct st. unfold set_log. simpl. by rewrite app_nil_r. Qed.

Lemma set_log_app st l1 l2 :
  set_log (log (set_log (log st ++ l1) st) ++ l2) (set_log (log st ++ l1) st)
  = set_log (log st ++ (l1 ++ l2)) st.
Proof. unfold set_log. simpl. by rewrite app_assoc. Qed.

Section Props.

Context `{Env}.

(* ------------------------------------------------------------------- *)
(* Logs and sleeps                                                     *)
(* ------------------------------------------------------------------- *)

Lemma logged_nil st : logged [] st = st.
Proof. apply set_log_nil. Qed.

Lemma logged_logged l1 l2 st : logged l2 (logged l1 st) = logged (l1 ++ l2) st.
Proof. apply set_log_app. Qed.

Ltac log_eq :=
  unfold logged, set_log; simpl; rewrite <- ?app_assoc; simpl; try done.

Lemma logger_eq r st : logger r st = Some (inr tt, logged [r] st).
Proof. done. Qed.

Lemma asyncio_sleep_eq d st : asyncio_sleep d st = Some (inr tt, slept d st).
Proof. done. Qed.

(* ------------------------------------------------------------------- *)
(* The scan of the output file                                         *)
(* ------------------------------------------------------------------- *)

Lemma scan_lines_found last (lines : list str) d n :
  scan_lines last lines = Found d n ->
  (has_key (lit "response") d || has_key (lit "error") d = true)
  /\ sequence_number d = Some n /\ last < n
  /\ exists line, line ∈ lines /\ reply_of line = Reply d.
Proof.
  induction lines as [|line rest IH]; cbn [scan_lines]; [done|].
  assert (scan_lines last rest = Found d n ->
          (has_key (lit "response") d || has_key (lit "error") d = true)
          /\ sequence_number d = Some n /\ last < n
          /\ exists l, l ∈ line :: rest /\ reply_of l = Reply d) as Hrest.
  { intros Hr. destruct (IH Hr) as (? & ? & ? & l & ? & ?).
    repeat split; try done. exists l. split; [apply elem_of_cons; by right|done]. }
  unfold reply_of.
  destruct (negb (eqb (strip line) []) && negb (eqb (strip line) (lit "SESSION_READY"))
            && startswith (lit "{") (strip line)) eqn:Hg; [|by apply Hrest].
  destruct (json_loads (strip line)) as [d'| |e] eqn:Hj; [|by apply Hrest|done].
  destruct (has_key (lit "response") d' || has_key (lit "error") d') eqn:Hk;
    [|by apply Hrest].
  cbv zeta.
  destruct (number (get_default (lit "messageId") (JInt 0) d')) as [n'|] eqn:Hn; [|done].
  destruct (n' >? last) eqn:Hgt; [|by apply Hrest].
  intros Hs. inversion Hs; subst d' n'. repeat split; try done.
  - lia.
  - exists line. split; [apply elem_of_cons; by left|]. unfold reply_of. by rewrite Hg, Hj, Hk.
Qed.

Lemma scan_lines_skip last (skipped rest : list str) :
  Forall (fun l => reply_of l = Skipped) skipped ->
  scan_lines last (skipped ++ rest) = scan_lines last rest.
Proof.
  induction 1 as [|l ls Hl _ IH]; [done|].
  cbn [app scan_lines]. unfold reply_of in Hl.
  destruct (negb (eqb (strip l) []) && negb (eqb (strip l) (lit "SESSION_READY"))
            && startswith (lit "{") (strip l)); [|done].
  destruct (json_loads (strip l)) as [d| |e]; [|done|done].
  by destruct (has_key (lit "response") d || has_key (lit "error") d).
Qed.

Lemma scan_lines_single last (before after : list str) line d n :
  reply_of line = Reply d ->
  Forall (fun l => reply_of l = Skipped) after ->
  sequence_number d = Some n -> last < n ->
  scan_lines last (rev (before ++ line :: after)) = Found d n.
Proof.
  intros Hl Ha Hn Hlt.
  rewrite rev_app_distr. cbn [rev]. rewrite <- app_assoc.
  rewrite scan_lines_skip by (by apply Forall_rev).
  cbn [app scan_lines]. unfold reply_of in Hl.
  destruct (negb (eqb (strip line) []) && negb (eqb (strip line) (lit "SESSION_READY"))
            && startswith (lit "{") (strip line)); [|done].
  destruct (json_loads (strip line)) as [d'| |e]; [|done|done].
  destruct (has_key (lit "response") d' || has_key (lit "error") d'); [|done].
  injection Hl as ->. unfold sequence_number in Hn. cbv zeta. rewrite Hn.
  by replace (n >? last) with true by (symmetry; apply Z.gtb_lt; lia).
Qed.

Lemma reply_of_empty : reply_of [] = Skipped.
Proof. done. Qed.

Lemma read_file_exists path w content :
  read_file path w = Some content -> path_exists path w = true.
Proof.
  unfold read_file, path_exists. intros ->.
  by rewrite bool_decide_eq_true_2.
Qed.

Lemma reply_at_found session last w d n :
  reply_at session last w = Some (d, n) ->
  (has_key (lit "response") d || has_key (lit "error") d = true)
  /\ sequence_number d = Some n /\ last < n.
Proof.
  unfold reply_at.
  destruct (output_file session) as [path|]; [|done].
  destruct (path_exists path w); [|done].
  destruct (read_file path w) as [content|]; [|done].
  destruct (negb (eqb (strip content) [])); [|done].
  destruct (scan_lines last (rev (split nl (strip content)))) eqn:Hs; try done.
  intros [= <- <-]. apply scan_lines_found in Hs as (? & ? & ? & _). done.
Qed.


(* ------------------------------------------------------------------- *)
(* _wait_for_response                                                  *)
(* ------------------------------------------------------------------- *)

Lemma poll_response_spec session last st :
  exists lg, poll_response session last st
             = Some (inr (reply_at session last (world st)), set_log (log st ++ lg) st).
Proof.
  unfold poll_response, reply_at, os_path_exists, open_read.
  destruct (output_file session) as [path|]; unfold_M; simpl.
  - destruct (path_exists path (world st)); simpl.
    + destruct (read_file path (world st)) as [content|]; simpl.
      * destruct (negb (eqb (strip content) [])); simpl.
        -- destruct (scan_lines last (rev (split nl (strip content)))); simpl.
           ++ exists []. by rewrite set_log_nil.
           ++ exists []. by rewrite set_log_nil.
           ++ by eexists [_].
        -- exists []. by rewrite set_log_nil.
      * by eexists [_].
    + exists []. by rewrite set_log_nil.
  - by eexists [_].
Qed.

Lemma response_loop_step cycles session start last st :
  exists lg,
    response_loop (S cycles) session start last st
    = if now st - start <? max_wait then
        match reply_at session last (world st) with
        | Some (d, n) =>
            Some (inr (d, set_last_response_id n session), set_log (log st ++ lg) st)
        | None =>
            response_loop cycles session start last
              (slept (seconds 2) (set_log (log st ++ lg) st))
        end
      else Some (inl (TimeoutError (lit "No response received within 300 seconds")), st).
Proof.
  destruct (poll_response_spec session last st) as [lg Hp].
  exists lg. cbn [response_loop]. unfold_M. simpl.
  destruct (now st - start <? max_wait); [|done].
  rewrite Hp. by destruct (reply_at session last (world st)) as [[d n]|].
Qed.

Lemma response_loop_frame cycles session start last st r st' :
  response_loop cycles session start last st = Some (r, st') ->
  sessions st' = sessions st /\ draws st' = draws st.
Proof.
  revert st. induction cycles as [|c IH]; intros st; [done|].
  destruct (response_loop_step c session start last st) as [lg ->].
  destruct (now st - start <? max_wait).
  - destruct (reply_at session last (world st)) as [[d n]|].
    + intros [= <- <-]. done.
    + intros Hr. apply IH in Hr. done.
  - intros [= <- <-]. done.
Qed.

Lemma response_loop_sound cycles session start last st d session' st' :
  response_loop cycles session start last st = Some (inr (d, session'), st') ->
  exists n, reply_at session last (world st') = Some (d, n)
            /\ session' = set_last_response_id n session
            /\ now st' - start < max_wait.
Proof.
  revert st. induction cycles as [|c IH]; intros st; [done|].
  destruct (response_loop_step c session start last st) as [lg ->].
  destruct (now st - start <? max_wait) eqn:Ht.
  - destruct (reply_at session last (world st)) as [[d0 n]|] eqn:Hr.
    + intros [= <- <- <-]. exists n. simpl. repeat split; try done. lia.
    + intros Hl. by apply IH in Hl.
  - done.
Qed.

Lemma response_loop_total cycles session start last st :
  (1 <= cycles)%nat ->
  max_wait - (now st - start) <= seconds 2 * (Z.of_nat cycles - 1) ->
  exists r st', response_loop cycles session start last st = Some (r, st').
Proof.
  revert st. induction cycles as [|c IH]; intros st Hc Hb; [lia|].
  destruct (response_loop_step c session start last st) as [lg ->].
  destruct (now st - start <? max_wait) eqn:Ht; [|by eexists _, _].
  destruct (reply_at session last (world st)) as [[d n]|]; [by eexists _, _|].
  apply Z.ltb_lt in Ht.
  apply IH.
  - unfold seconds in *. lia.
  - unfold slept. simpl. unfold seconds in *. lia.
Qed.



Lemma wait_for_response_eq session st :
  _wait_for_response session st
  = response_loop poll_bound session (now st) (default 0 (_last_response_id session)) st.
Proof. done. Qed.

Lemma wait_for_response_total session st :
  exists r st', _wait_for_response session st = Some (r, st').
Proof.
  rewrite wait_for_response_eq. apply response_loop_total.
  - unfold poll_bound. lia.
  - unfold poll_bound, max_wait, seconds. lia.
Qed.

Lemma wait_for_response_accepts session st d session' st' :
  _wait_for_response session st = Some (inr (d, session'), st') ->
  (has_key (lit "response") d || has_key (lit "error") d = true)
  /\ exists n, sequence_number d = Some n
               /\ default 0 (_last_response_id session) < n
               /\ session' = set_last_response_id n session.
Proof.
  rewrite wait_for_response_eq. intros Hl.
  apply response_loop_sound in Hl as (n & Hr & -> & _).
  apply reply_at_found in Hr as (? & ? & ?). split; [done|]. by exists n.
Qed.

(** C1.  A wait returns a record only if it has a "response" or an
    "error" item and its sequence number is strictly greater than the
    last one consumed, and it then stores that number in the session; so
    over any run of waits of one session the sequence numbers of the
    replies returned increase strictly, from the number last consumed. *)
Theorem responses_consumed_in_order :
  (forall session st d session' st',
      _wait_for_response session st = Some (inr (d, session'), st') ->
      (has_key (lit "response") d || has_key (lit "error") d = true)
      /\ exists n, sequence_number d = Some n
                   /\ default 0 (_last_response_id session) < n
                   /\ _last_response_id session' = Some n)
  /\ (forall session replies session',
         consumes session replies session' ->
         increasing_from (default 0 (_last_response_id session)) replies
         /\ Forall (fun d => has_key (lit "response") d || has_key (lit "error") d = true)
                   replies).
Proof.
  split.
  - intros session st d session' st' Hw.
    apply wait_for_response_accepts in Hw as (? & n & ? & ? & ->).
    split; [done|]. by exists n.
  - intros session replies session' Hc.
    induction Hc as [session|session st d session1 st1 rest session2 Hw _ [IH1 IH2]
                    |session st e st1 rest session2 _ _ IH]; [done| |done].
    apply wait_for_response_accepts in Hw as (? & n & ? & ? & ->).
    split; [|by constructor]. exists n. repeat split; done.
Qed.

(* ------------------------------------------------------------------- *)
(* send_message                                                        *)
(* ------------------------------------------------------------------- *)

Lemma send_message_rejects session_id message st session :
  sessions st !! session_id = Some session ->
  status session <> ready ->
  send_message session_id message st
  = Some (inl (ValueError (lit "Session " ++ session_id ++ lit " is not ready (status: "
                           ++ status_str (status session) ++ lit ")")), st).
Proof.
  intros Hs Hr. unfold send_message. unfold_M. simpl. rewrite Hs.
  rewrite bool_decide_eq_false_2 by done. done.
Qed.

Lemma send_message_not_found session_id message st :
  sessions st !! session_id = None ->
  send_message session_id message st
  = Some (inl (ValueError (lit "Session " ++ session_id ++ lit " not found")), st).
Proof.
  intros Hs. unfold send_message. unfold_M. simpl. by rewrite Hs.
Qed.

Lemma send_message_ready session_id message st session :
  sessions st !! session_id = Some session ->
  status session = ready ->
  let session1 := append_message (user_message_of message st)
                    (set_status processing session) in
  let st1 := sending session_id message session st in
  send_message session_id message st
  = try_except
      (open_write (input_file session1) message;;
       '(response, session) ← _wait_for_response session1;
       store session_id session;;
       id ← uuid4_str;
       utcnow ← time_time;
       let agent_message :=
         {| m_id := id; m_type := agent;
            m_content := get_default (lit "response") (JStr []) response;
            m_timestamp := utcnow;
            m_metadata := Some (get (lit "messageId") response) |} in
       let session := append_message agent_message session in
       let session := set_status ready session in
       store session_id session;;
       mret {| r_session_id := session_id;
               r_message_id := m_id agent_message;
               r_response := m_content agent_message;
               r_status := lit "success" |})
      (fun e =>
         update_session session_id (set_status error);;
         logger (SendFailed session_id e);;
         raise e) st1.
Proof.
  intros Hs Hr. unfold send_message. 
  unfold mbind at 1. unfold M_bind at 1. unfold bind at 1. unfold gets at 1.
  rewrite Hs. rewrite bool_decide_eq_true_2 by done. simpl negb. cbv iota.
  unfold try_except. unfold store at 1 2. unfold uuid4_str at 1. unfold logger at 1.
  unfold time_time at 1. unfold_M. simpl.
  unfold sending. simpl. rewrite insert_insert_eq. done.
Qed.


Lemma send_message_failed session_id message st session e st' :
  sessions st !! session_id = Some session ->
  status session = ready ->
  send_message session_id message st = Some (inl e, st') ->
  sessions st'
  = <[session_id := set_status error
                      (append_message (user_message_of message st)
                         (set_status processing session))]> (sessions st).
Proof.
  intros Hs Hr. rewrite (send_message_ready _ _ _ _ Hs Hr). cbv zeta.
  set (session1 := append_message _ _).
  unfold try_except.
  unfold mbind at 1. unfold M_bind at 1. unfold bind at 1.
  assert (forall st3 : State,
            sessions st3 = sessions (sending session_id message session st) ->
            ((update_session session_id (set_status error);;
              logger (SendFailed session_id e);; raise e) : M SendResult) st3
            = Some (inl e, st') ->
            sessions st'
            = <[session_id := set_status error session1]> (sessions st)) as Hhandler.
  { intros st3 H3. unfold update_session. unfold_M. simpl. intros [= <-]. simpl.
    rewrite H3. unfold sending. simpl. by rewrite alter_insert_eq. }
  destruct (open_write (input_file session1) message
              (sending session_id message session st)) as [[[e1|[]] st2]|] eqn:Hw; [| |done].
  - (* the write raises *)
    intros Hh. assert (e1 = e) as ->.
    { revert Hh. unfold update_session. unfold_M. simpl. by intros [= ->]. }
    apply (Hhandler st2); [|done].
    revert Hw. unfold open_write. destruct (input_file session1); unfold_M.
    + destruct (write_file _ _ _); by intros [= <- <-].
    + by intros [= <- <-].
  - (* the write is done *)
    assert (sessions st2 = sessions (sending session_id message session st)) as H2.
    { revert Hw. unfold open_write. destruct (input_file session1); unfold_M; [|done].
      destruct (write_file _ _ _); by intros [= <-]. }
    unfold mbind at 1. unfold M_bind at 1. unfold bind at 1.
    destruct (_wait_for_response session1 st2) as [[[e1|[d session2]] st3]|] eqn:Hwait;
      [| |done].
    + intros Hh. assert (e1 = e) as ->.
      { revert Hh. unfold update_session. unfold_M. simpl. by intros [= ->]. }
      apply (Hhandler st3); [|done].
      rewrite wait_for_response_eq in Hwait.
      apply response_loop_frame in Hwait as [-> _]. done.
    + unfold store, uuid4_str. unfold_M. simpl. done.
Qed.

Lemma send_message_done session_id message st session res st' :
  sessions st !! session_id = Some session ->
  status session = ready ->
  send_message session_id message st = Some (inr res, st') ->
  exists d n st2,
    sessions st'
    = <[session_id := set_status ready
                        (append_message (agent_message_of d st2)
                           (set_last_response_id n
                              (append_message (user_message_of message st)
                                 (set_status processing session))))]> (sessions st)
    /\ res = {| r_session_id := session_id;
                r_message_id := uuid4 (draws st2);
                r_response := get_default (lit "response") (JStr []) d;
                r_status := lit "success" |}
    /\ (has_key (lit "response") d || has_key (lit "error") d = true).
Proof.
  intros Hs Hr. rewrite (send_message_ready _ _ _ _ Hs Hr). cbv zeta.
  set (session1 := append_message _ _).
  unfold try_except.
  unfold mbind at 1. unfold M_bind at 1. unfold bind at 1.
  destruct (open_write (input_file session1) message
              (sending session_id message session st)) as [[[e1|[]] st2]|] eqn:Hw;
    [by unfold update_session; unfold_M| |done].
  assert (sessions st2 = sessions (sending session_id message session st)) as H2.
  { revert Hw. unfold open_write. destruct (input_file session1); unfold_M; [|done].
    destruct (write_file _ _ _); by intros [= <-]. }
  unfold mbind at 1. unfold M_bind at 1. unfold bind at 1.
  destruct (_wait_for_response session1 st2) as [[[e1|[d session2]] st3]|] eqn:Hwait;
    [by unfold update_session; unfold_M| |done].
  rewrite wait_for_response_eq in Hwait.
  pose proof (response_loop_frame _ _ _ _ _ _ _ Hwait) as [H3 _].
  apply response_loop_sound in Hwait as (n & Hreply & -> & _).
  apply reply_at_found in Hreply as (Hkeys & _ & _).
  unfold store, uuid4_str. unfold_M. simpl. intros [= <- <-].
  exists d, n, st3. simpl. rewrite H3, H2. unfold sending. simpl.
  rewrite !insert_insert_eq. done.
Qed.

Lemma send_message_registry session_id message st r st' :
  send_message session_id message st = Some (r, st') ->
  sessions st' = sessions st
  \/ exists session session',
       sessions st !! session_id = Some session
       /\ sessions st' = <[session_id := session']> (sessions st)
       /\ cli_process session' = cli_process session.
Proof.
  destruct (sessions st !! session_id) as [session|] eqn:Hs.
  - destruct (decide (status session = ready)) as [Hr|Hr].
    + destruct r as [e|res]; intros Hsend; right; exists session.
      * eexists. split; [done|]. split; [by eapply send_message_failed|]. done.
      * destruct (send_message_done _ _ _ _ _ _ Hs Hr Hsend) as (d & n & st2 & -> & _).
        eexists. split; [done|]. split; [done|]. done.
    + rewrite (send_message_rejects _ _ _ _ Hs Hr). intros [= <- <-]. by left.
  - rewrite (send_message_not_found _ _ _ Hs). intros [= <- <-]. by left.
Qed.

(** C5.  On a session whose status is not "ready", send_message raises
    ValueError and leaves the state as it was: no file is written and
    the session keeps its messages. *)
Theorem send_message_not_ready_no_write session_id message st session :
  sessions st !! session_id = Some session ->
  status session <> ready ->
  exists msg st',
    send_message session_id message st = Some (inl (ValueError msg), st')
    /\ st' = st
    /\ (forall path, read_file path (world st') = read_file path (world st))
    /\ sessions st' !! session_id = Some session.
Proof.
  intros Hs Hr. eexists _, _. split; [by apply send_message_rejects|]. done.
Qed.

(** C10.  When send_message on a ready session ends with an exception,
    the session of the registry holds its former messages followed by
    the user message alone, and its status is "error": the append is not
    undone and no agent message follows. *)
Theorem failed_send_keeps_user_message session_id message st session e st' :
  sessions st !! session_id = Some session ->
  status session = ready ->
  send_message session_id message st = Some (inl e, st') ->
  exists session',
    sessions st' !! session_id = Some session'
    /\ messages session' = messages session ++ [user_message_of message st]
    /\ status session' = error.
Proof.
  intros Hs Hr Hsend.
  rewrite (send_message_failed _ _ _ _ _ _ Hs Hr Hsend).
  eexists. split; [apply lookup_insert_eq|]. done.
Qed.


(* ------------------------------------------------------------------- *)
(* _wait_for_session_ready_with_logs                                   *)
(* ------------------------------------------------------------------- *)

Lemma check_process_eq session st :
  check_process session st
  = match cli_process session with
    | None => Some (inr false, st)
    | Some process =>
        match Process_returncode process (world st) with
        | None => Some (inr false, logged [ProcessRunning process] st)
        | Some code =>
            match communicate process (world st) with
            | Pending => None
            | Streams (Undecodable msg) _ =>
                Some (inl (UnicodeDecodeError msg), logged [ProcessExited code] st)
            | Streams (Text out) (Undecodable msg) =>
                Some (inl (UnicodeDecodeError msg),
                      logged [ProcessExited code; ProcessStdout out] st)
            | Streams (Text out) (Text err) =>
                Some (inr true,
                      logged [ProcessExited code; ProcessStdout out;
                              ProcessStderr err] st)
            end
        end
    end.
Proof.
  unfold check_process.
  destruct (cli_process session) as [p|]; [|done].
  unfold_M. unfold blocked. simpl.
  destruct (Process_returncode p (world st)) as [code|]; simpl; [|done].
  destruct (communicate p (world st)) as [|[out|msg] [err|msg']]; simpl;
    try done; log_eq.
Qed.

Lemma report_output_spec session st :
  exists lg r, report_output session st = Some (r, logged lg st)
    /\ (forall e, r = inl e -> e = stat_of_None /\ output_file session = None).
Proof.
  unfold report_output, os_path_exists, open_read.
  destruct (output_file session) as [path|]; unfold_M; simpl.
  - destruct (path_exists path (world st)); simpl.
    + destruct (read_file path (world st)) as [content|]; simpl.
      * destruct (negb (eqb (strip content) [])); by eexists [_], _.
      * by eexists [_], _.
    + by eexists [_], _.
  - exists [], (inl stat_of_None). rewrite logged_nil. split; [done|].
    by intros e [= <-].
Qed.

Lemma check_ready_spec session elapsed st :
  exists lg r, check_ready session elapsed st = Some (r, logged lg st)
    /\ match r with
       | inr b => b = ready_at session (world st)
       | inl e => e = stat_of_None /\ output_file session = None
       end.
Proof.
  unfold check_ready, ready_at, os_path_exists, open_read.
  destruct (output_file session) as [path|]; unfold_M; simpl.
  - destruct (read_file path (world st)) as [content|] eqn:Hf; simpl.
    + rewrite (read_file_exists _ _ _ Hf). rewrite Hf.
      destruct (contains (lit "SESSION_READY") (strip content)
                || contains (lit "READY") (strip content)) eqn:Hc; simpl.
      * by eexists [_], _.
      * exists [], (inr false). by rewrite logged_nil.
    + destruct (path_exists path (world st)); simpl.
      * rewrite Hf. by eexists [_], _.
      * exists [], (inr false). by rewrite logged_nil.
  - exists [], (inl stat_of_None). by rewrite logged_nil.
Qed.

Lemma ready_timed_out_eq session st :
  ready_timed_out session st
  = Some (inl (TimeoutError (lit "Session " ++ session_id session
                             ++ lit " failed to become ready within 300 seconds")),
          logged [TimedOut (session_id session)] st).
Proof. done. Qed.

(* One cycle of the readiness wait: how it ends, or the state in which
   the next cycle starts. *)
Lemma ready_loop_step c session start last_log st :
  exists lg,
    (ready_loop (S c) session start last_log st
     = Some (inl (TimeoutError (lit "Session " ++ session_id session
                                ++ lit " failed to become ready within 300 seconds")),
             logged lg st)
     /\ (max_wait <= now st - start
         \/ (now st - start < max_wait /\ check_interval <= now st - last_log
             /\ exists process code out err,
                  cli_process session = Some process
                  /\ Process_returncode process (world st) = Some code
                  /\ communicate process (world st) = Streams (Text out) (Text err))))
    \/ (exists msg,
          ready_loop (S c) session start last_log st
          = Some (inl (UnicodeDecodeError msg), logged lg st)
          /\ now st - start < max_wait /\ check_interval <= now st - last_log
          /\ exists process code stdout stderr,
               cli_process session = Some process
               /\ Process_returncode process (world st) = Some code
               /\ communicate process (world st) = Streams stdout stderr
               /\ (stdout = Undecodable msg \/ stderr = Undecodable msg))
    \/ (ready_loop (S c) session start last_log st
        = Some (inl stat_of_None, logged lg st)
        /\ output_file session = None /\ now st - start < max_wait)
    \/ (ready_loop (S c) session start last_log st = Some (inr tt, logged lg st)
        /\ ready_at session (world st) = true /\ now st - start < max_wait)
    \/ (exists last',
          ready_loop (S c) session start last_log st
          = ready_loop c session start last' (slept (seconds 2) (logged lg st))
          /\ now st - start < max_wait
          /\ (last' = last_log
              \/ (last' = now st /\ check_interval <= now st - last_log)))
    \/ (ready_loop (S c) session start last_log st = None
        /\ now st - start < max_wait /\ check_interval <= now st - last_log
        /\ exists process code,
             cli_process session = Some process
             /\ Process_returncode process (world st) = Some code
             /\ communicate process (world st) = Pending).
Proof.
  remember (ready_loop (S c) session start last_log st) as R eqn:HR.
  cbn [ready_loop] in HR.
  unfold mbind at 1 in HR. unfold M_bind at 1 in HR. unfold bind at 1 in HR.
  unfold time_time at 1 in HR. unfold gets at 1 in HR. cbv beta iota in HR.
  destruct (now st - start <? max_wait) eqn:Ht.
  2:{ apply Z.ltb_ge in Ht. exists [TimedOut (session_id session)]. left.
      split; [by rewrite HR|by left]. }
  apply Z.ltb_lt in Ht.
  assert (forall last' lg1,
            (last' = last_log \/ (last' = now st /\ check_interval <= now st - last_log)) ->
            R = (found ← check_ready session (now st - start);
                 if found : bool then mret tt
                 else asyncio_sleep (seconds 2);;
                      ready_loop c session start last') (logged lg1 st) ->
            exists lg,
              (R = Some (inl stat_of_None, logged lg st)
               /\ output_file session = None /\ now st - start < max_wait)
              \/ (R = Some (inr tt, logged lg st)
                  /\ ready_at session (world st) = true /\ now st - start < max_wait)
              \/ (exists last'',
                    R = ready_loop c session start last''
                          (slept (seconds 2) (logged lg st))
                    /\ now st - start < max_wait
                    /\ (last'' = last_log
                        \/ (last'' = now st /\ check_interval <= now st - last_log))))
    as Hcheck.
  { intros last' lg1 Hl HR1.
    destruct (check_ready_spec session (now st - start) (logged lg1 st))
      as (lg2 & r & Hc & Hr).
    unfold mbind at 1 in HR1. unfold M_bind at 1 in HR1. unfold bind at 1 in HR1.
    rewrite Hc, logged_logged in HR1. change (world (logged lg1 st)) with (world st) in Hr.
    exists (lg1 ++ lg2). destruct r as [e|[]].
    - left. destruct Hr as [-> Ho]. done.
    - right. left. done.
    - right. right. exists last'. done. }
  unfold mbind at 1 in HR. unfold M_bind at 1 in HR. unfold bind at 1 in HR.
  destruct (now st - last_log >=? check_interval) eqn:Hi.
  - (* the progress report *)
    apply Z.geb_le in Hi.
    unfold mbind at 1 in HR. unfold M_bind at 1 in HR. unfold bind at 1 in HR.
    rewrite logger_eq in HR.
    unfold mbind at 1 in HR. unfold M_bind at 1 in HR. unfold bind at 1 in HR.
    rewrite check_process_eq in HR.
    change (world (logged [StillWaiting (session_id session) (now st - start)] st))
      with (world st) in HR.
    assert (forall lg1,
              R = match (report_output session;; mret (false, now st)) (logged lg1 st) with
                  | Some (inl e, st') => Some (inl e, st')
                  | Some (inr a, st') =>
                      match a with
                      | (true, _) => ready_timed_out session
                      | (false, last_log_time) =>
                          found ← check_ready session (now st - start);
                          if found : bool then mret tt
                          else asyncio_sleep (seconds 2);;
                               ready_loop c session start last_log_time
                      end st'
                  | None => None
                  end ->
              exists lg,
                (R = Some (inl stat_of_None, logged lg st)
                 /\ output_file session = None /\ now st - start < max_wait)
                \/ (R = Some (inr tt, logged lg st)
                    /\ ready_at session (world st) = true /\ now st - start < max_wait)
                \/ (exists last'',
                      R = ready_loop c session start last''
                            (slept (seconds 2) (logged lg st))
                      /\ now st - start < max_wait
                      /\ (last'' = last_log
                          \/ (last'' = now st /\ check_interval <= now st - last_log))))
      as Hreport.
    { intros lg1 HR1.
      destruct (report_output_spec session (logged lg1 st)) as (lg2 & r & Hro & He).
      unfold mbind at 1 in HR1. unfold M_bind at 1 in HR1. unfold bind at 1 in HR1.
      rewrite Hro, logged_logged in HR1. destruct r as [e|[]].
      - destruct (He e eq_refl) as [-> Ho]. exists (lg1 ++ lg2). left. done.
      - simpl in HR1. apply (Hcheck (now st) (lg1 ++ lg2)); [right; done|exact HR1]. }
    destruct (cli_process session) as [p|] eqn:Hp.
    + destruct (Process_returncode p (world st)) as [code|] eqn:Hrc.
      * destruct (communicate p (world st)) as [|[out|msg] [err|msg']] eqn:Hcm.
        -- exists []. do 5 right. split; [done|]. split; [done|]. split; [done|].
           by exists p, code.
        -- rewrite logged_logged in HR. cbv beta iota in HR.
           unfold mret at 1 in HR. unfold M_ret at 1 in HR. unfold ret at 1 in HR.
           cbv beta iota in HR.
           rewrite ready_timed_out_eq, logged_logged in HR.
           eexists. left. split; [by rewrite HR|]. right. split; [done|].
           split; [done|]. by exists p, code, out, err.
        -- rewrite logged_logged in HR. eexists. right. left. exists msg'.
           split; [by rewrite HR|]. split; [done|]. split; [done|].
           exists p, code, (Text out), (Undecodable msg'). by auto.
        -- rewrite logged_logged in HR. eexists. right. left. exists msg.
           split; [by rewrite HR|]. split; [done|]. split; [done|].
           exists p, code, (Undecodable msg), (Text err). by auto.
        -- rewrite logged_logged in HR. eexists. right. left. exists msg.
           split; [by rewrite HR|]. split; [done|]. split; [done|].
           exists p, code, (Undecodable msg), (Undecodable msg'). by auto.
      * rewrite logged_logged in HR.
        destruct (Hreport _ HR) as (lg & Hres). exists lg. do 2 right.
        destruct Hres as [Hres|[Hres|Hres]]; [by left|by right; left|by right; right; left].
    + destruct (Hreport _ HR) as (lg & Hres). exists lg. do 2 right.
        destruct Hres as [Hres|[Hres|Hres]]; [by left|by right; left|by right; right; left].
  - unfold mret at 1 in HR. unfold M_ret at 1 in HR. unfold ret at 1 in HR.
    cbv beta iota in HR.
    rewrite <- (logged_nil st) in HR at 2.
    destruct (Hcheck last_log [] (or_introl eq_refl) HR) as (lg & Hres).
    exists lg. do 2 right.
        destruct Hres as [Hres|[Hres|Hres]]; [by left|by right; left|by right; right; left].
Qed.

Lemma ready_loop_sound cycles session start last_log st r st' :
  ready_loop cycles session start last_log st = Some (r, st') ->
  sessions st' = sessions st /\ draws st' = draws st
  /\ (r = inr tt -> ready_at session (world st') = true /\ now st' - start < max_wait).
Proof.
  revert last_log st. induction cycles as [|c IH]; intros last_log st; [done|].
  destruct (ready_loop_step c session start last_log st)
    as (lg & [[-> _]|[(msg & -> & _)|[[-> _]|[[-> [Hr Ht]]|[(last' & -> & Ht & _)
                                                            |[-> _]]]]]]).
  - intros [= <- <-]. done.
  - intros [= <- <-]. done.
  - intros [= <- <-]. done.
  - intros [= <- <-]. done.
  - intros Hl. apply IH in Hl. done.
  - done.
Qed.

(* The wait ends on a machine on which the pipes of a process that has
   exited can be read to their end. *)
Lemma ready_loop_total cycles session start last_log st :
  (forall p w, communicate p w <> Pending) ->
  (1 <= cycles)%nat ->
  max_wait - (now st - start) <= seconds 2 * (Z.of_nat cycles - 1) ->
  exists r st', ready_loop cycles session start last_log st = Some (r, st').
Proof.
  intros Hreturns.
  revert last_log st. induction cycles as [|c IH]; intros last_log st Hc Hb; [lia|].
  destruct (ready_loop_step c session start last_log st)
    as (lg & [[-> _]|[(msg & -> & _)|[[-> _]|[[-> _]|[(last' & -> & Ht & _)
                                                      |(_ & _ & _ & p & code & _ & _ & Hp)]]]]]);
    [by eexists _, _ ..| |by destruct (Hreturns _ _ Hp)].
  apply IH.
  - unfold seconds in *. lia.
  - unfold slept. simpl. unfold seconds in *. lia.
Qed.

Lemma wait_for_session_ready_eq session st :
  _wait_for_session_ready_with_logs session st
  = ready_loop poll_bound session (now st) (now st)
      (logged [WaitingReady (session_id session);
               Monitoring (output_file session)] st).
Proof.
  unfold _wait_for_session_ready_with_logs. unfold_M. unfold logged, set_log. simpl.
  by rewrite <- app_assoc.
Qed.

Lemma wait_for_session_ready_sound session st r st' :
  _wait_for_session_ready_with_logs session st = Some (r, st') ->
  sessions st' = sessions st /\ draws st' = draws st
  /\ (r = inr tt -> ready_at session (world st') = true
                    /\ now st' - now st < max_wait).
Proof.
  rewrite wait_for_session_ready_eq. intros Hl.
  apply ready_loop_sound in Hl. done.
Qed.

Lemma wait_for_session_ready_total session st :
  (forall p w, communicate p w <> Pending) ->
  exists r st', _wait_for_session_ready_with_logs session st = Some (r, st').
Proof.
  intros Hreturns. rewrite wait_for_session_ready_eq.
  apply ready_loop_total; [done| |].
  - unfold poll_bound. lia.
  - simpl. unfold poll_bound, max_wait, seconds. lia.
Qed.


(* At a cycle that writes the progress report, a process that has
   exited ends the wait. *)
Lemma ready_loop_exit cycles session start last_log st process code out err :
  cli_process session = Some process ->
  Process_returncode process (world st) = Some code ->
  communicate process (world st) = Streams (Text out) (Text err) ->
  now st - start < max_wait ->
  check_interval <= now st - last_log ->
  ready_loop (S cycles) session start last_log st
  = Some (inl (TimeoutError (lit "Session " ++ session_id session
                             ++ lit " failed to become ready within 300 seconds")),
          logged [StillWaiting (session_id session) (now st - start);
                  ProcessExited code;
                  ProcessStdout out;
                  ProcessStderr err;
                  TimedOut (session_id session)] st).
Proof.
  intros Hp Hrc Hcm Ht Hi. cbn [ready_loop].
  assert ((now st - start <? max_wait) = true) as Hb1 by (by apply Z.ltb_lt).
  assert ((now st - last_log >=? check_interval) = true) as Hb2
    by (apply Z.geb_le; lia).
  unfold check_process. rewrite Hp. unfold_M. simpl.
  rewrite Hb1, Hb2. simpl. rewrite Hrc. simpl. rewrite Hcm. simpl.
  unfold ready_timed_out. unfold_M.
  log_eq.
Qed.


Lemma ready_loop_no_report cycles session start last_log st :
  now st - start < max_wait ->
  now st - last_log < check_interval ->
  ready_loop (S cycles) session start last_log st
  = (found ← check_ready session (now st - start);
     if found : bool then mret tt
     else asyncio_sleep (seconds 2);;
          ready_loop cycles session start last_log) st.
Proof.
  intros Ht Hi. cbn [ready_loop].
  assert ((now st - start <? max_wait) = true) as Hb1 by (by apply Z.ltb_lt).
  assert ((now st - last_log >=? check_interval) = false) as Hb2
    by (rewrite Z.geb_leb; apply Z.leb_gt; lia).
  unfold mbind at 1. unfold M_bind at 1. unfold bind at 1.
  unfold time_time at 1. unfold gets at 1. cbv beta iota.
  rewrite Hb1, Hb2. reflexivity.
Qed.


(** C7, as amended.  In a cycle of the readiness wait that starts before
    the deadline: if 10 s or more have passed since the last progress
    report, the process has exited, and the read of its two pipes
    returns text that decodes, the wait ends in this very cycle by
    raising, with the exit code, stdout and stderr of the process
    written to the log and not to the exception; if less than 10 s have
    passed, the cycle is the ready check and the sleep alone, and the
    process is not looked at. *)
Theorem exited_process_ends_wait_at_report cycles session start last_log st :
  now st - start < max_wait ->
  (check_interval <= now st - last_log ->
   forall process code out err,
     cli_process session = Some process ->
     Process_returncode process (world st) = Some code ->
     communicate process (world st) = Streams (Text out) (Text err) ->
     ready_loop (S cycles) session start last_log st
     = Some (inl (TimeoutError (lit "Session " ++ session_id session
                                ++ lit " failed to become ready within 300 seconds")),
             logged [StillWaiting (session_id session) (now st - start);
                     ProcessExited code;
                     ProcessStdout out;
                     ProcessStderr err;
                     TimedOut (session_id session)] st))
  /\ (now st - last_log < check_interval ->
      ready_loop (S cycles) session start last_log st
      = (found ← check_ready session (now st - start);
         if found : bool then mret tt
         else asyncio_sleep (seconds 2);;
              ready_loop cycles session start last_log) st).
Proof.
  intros Ht. split.
  - intros Hi process code out err Hp Hrc Hcm. by apply (ready_loop_exit _ _ _ _ _ process).
  - intros Hi. by apply ready_loop_no_report.
Qed.

(* ------------------------------------------------------------------- *)
(* create_session                                                      *)
(* ------------------------------------------------------------------- *)

Lemma same_registry_same_answers st st1 :
  sessions st1 = sessions st ->
  sessions st1 = sessions st
  /\ (forall id, fst <$> get_session id st1 = fst <$> get_session id st)
  /\ fst <$> list_sessions st1 = fst <$> list_sessions st.
Proof.
  intros Hs. split; [done|]. unfold get_session, list_sessions. unfold_M.
  simpl. rewrite Hs. done.
Qed.

Lemma create_session_outcome workspace_path st r st' :
  create_session workspace_path st = Some (r, st') ->
  match r with
  | inr session =>
      sessions st' = <[session_id session := session]> (sessions st)
      /\ status session = ready
      /\ is_Some (cli_process session)
      /\ ready_at session (world st') = true
      /\ now st' - now st < max_wait
  | inl _ => sessions st' = sessions st
  end.
Proof.
  unfold create_session, uuid4_str, open_write. unfold_M. simpl.
  destruct (mkdtemp _ (world st)) as [e|temp_dir]; simpl; [by intros [= <- <-]|].
  destruct (write_file _ [] _) as [w1|]; simpl; [|by intros [= <- <-]].
  destruct (write_file _ [] _) as [w2|]; simpl; [|by intros [= <- <-]].
  destruct (create_subprocess_exec _ _ _ _) as [e|[process w3]]; simpl;
    [by intros [= <- <-]|].
  match goal with
  | |- context [_wait_for_session_ready_with_logs ?s ?st1] =>
      destruct (_wait_for_session_ready_with_logs s st1) as [[r1 st2]|] eqn:Hw;
      [|done];
      apply wait_for_session_ready_sound in Hw; destruct Hw as (Hs & _ & Hr)
  end.
  destruct r1 as [e|[]]; simpl.
  - by intros [= <- <-].
  - intros [= <- <-]. simpl. rewrite Hs. simpl.
    destruct (Hr eq_refl) as [Hready Hnow]. done.
Qed.



(* ------------------------------------------------------------------- *)
(* stop_session                                                        *)
(* ------------------------------------------------------------------- *)

Lemma stop_session_fails_with_process session_id st session process :
  sessions st !! session_id = Some session ->
  cli_process session = Some process ->
  exists e st',
    stop_session session_id st = Some (inr false, st')
    /\ sessions st' = sessions st
    /\ last (log st') = Some (StopFailed session_id e).
Proof.
  intros Hs Hp. unfold stop_session.
  unfold mbind at 1. unfold M_bind at 1. unfold bind at 1. unfold gets at 1.
  rewrite Hs, Hp. unfold try_except.
  unfold mbind at 1. unfold M_bind at 1. unfold bind at 1.
  assert (exists r st1,
            (if truthy (input_file session)
             then ex ← os_path_exists (input_file session);
                  if ex : bool
                  then open_write (input_file session) (lit "STOP_SESSION")
                  else mret ()
             else mret ()) st = Some (r, st1)
            /\ sessions st1 = sessions st) as (r & st1 & -> & H1).
  { destruct (truthy (input_file session)); [|by eexists _, _].
    unfold os_path_exists, open_write.
    destruct (input_file session) as [path|]; unfold_M; simpl; [|by eexists _, _].
    destruct (path_exists path (world st)); simpl; [|by eexists _, _].
    destruct (write_file path _ (world st)); by eexists _, _. }
  destruct r as [e|[]].
  { exists e. eexists. split; [reflexivity|]. simpl. split; [done|].
    by rewrite last_snoc. }
  unfold mbind at 1. unfold M_bind at 1. unfold bind at 1.
  unfold mbind at 1. unfold M_bind at 1. unfold bind at 1.
  unfold on_process at 1, Process_terminate.
  destruct (transport_closed (proc_of process (world st1))).
  { eexists _, _. split; [reflexivity|]. simpl. split; [done|]. by rewrite last_snoc. }
  unfold mbind at 1. unfold M_bind at 1. unfold bind at 1. rewrite asyncio_sleep_eq.
  unfold mbind at 1. unfold M_bind at 1. unfold bind at 1. unfold Process_poll.
  eexists _, _. split; [reflexivity|]. simpl. split; [done|]. by rewrite last_snoc.
Qed.

Lemma stop_session_unknown session_id st :
  sessions st !! session_id = None ->
  stop_session session_id st = Some (inr false, st).
Proof. intros Hs. unfold stop_session. unfold_M. simpl. by rewrite Hs. Qed.

(* Without a process to end, and with no files, the session is torn
   down. *)
Lemma stop_session_without_process session_id st session :
  sessions st !! session_id = Some session ->
  cli_process session = None ->
  input_file session = None ->
  output_file session = None ->
  path_exists (script_path_of session) (world st) = false ->
  stop_session session_id st
  = Some (inr true,
          logged [Stopped session_id]
                 (set_sessions (delete session_id (sessions st)) st)).
Proof.
  intros Hs Hp Hi Ho Hscript. unfold stop_session, unlink_if_exists.
  unfold mbind at 1. unfold M_bind at 1. unfold bind at 1. unfold gets at 1.
  rewrite Hs, Hp, Hi, Ho. unfold os_path_exists. unfold_M. simpl.
  rewrite Hscript. done.
Qed.

Lemma reachable_sessions_have_process st :
  reachable st ->
  forall session_id session,
    sessions st !! session_id = Some session -> is_Some (cli_process session).
Proof.
  induction 1 as [st Hempty|st st' _ IH Hsame|st workspace_path r st' _ IH Hc
                 |st sid message r st' _ IH Hsend|st sid r st' _ IH Hstop
                 |st sid message target input w _ IH Ht Hready Hi Hw];
    intros session_id session Hs.
  - rewrite Hempty in Hs. by rewrite lookup_empty in Hs.
  - rewrite Hsame in Hs. by apply (IH session_id).
  - pose proof (create_session_outcome _ _ _ _ Hc) as Hr.
    destruct r as [e|new].
    + rewrite Hr in Hs. by apply (IH session_id).
    + destruct Hr as (Hr & _ & Hp & _). rewrite Hr in Hs.
      destruct (decide (Cline.session_id new = session_id)) as [<-|Hne].
      * rewrite lookup_insert_eq in Hs. by injection Hs as <-.
      * rewrite lookup_insert_ne in Hs by done. by apply (IH session_id).
  - destruct (send_message_registry _ _ _ _ _ Hsend)
      as [Heq|(old & new & Hold & Heq & Hp)]; rewrite Heq in Hs.
    + by apply (IH session_id).
    + destruct (decide (sid = session_id)) as [<-|Hne].
      * rewrite lookup_insert_eq in Hs. injection Hs as <-. rewrite Hp.
        by apply (IH sid).
      * rewrite lookup_insert_ne in Hs by done. by apply (IH session_id).
  - destruct (sessions st !! sid) as [target|] eqn:Ht.
    + destruct (IH sid target Ht) as [process Hp].
      destruct (stop_session_fails_with_process sid st target process Ht Hp)
        as (e & st0 & Hstop0 & Heq & _).
      rewrite Hstop in Hstop0. injection Hstop0 as -> ->.
      rewrite Heq in Hs. by apply (IH session_id).
    + rewrite (stop_session_unknown _ _ Ht) in Hstop. injection Hstop as <- <-.
      by apply (IH session_id).
  - simpl in Hs. destruct (decide (sid = session_id)) as [<-|Hne].
    + rewrite lookup_insert_eq in Hs. injection Hs as <-. simpl.
      by apply (IH sid).
    + rewrite lookup_insert_ne in Hs by done. by apply (IH session_id).
Qed.

(** C4, what the code does.  In every state the service reaches from an
    empty registry, stop_session returns False and leaves the registry
    as it was, for a registered id as for an unknown one: every session
    create_session registers has a process handle, and an exception of
    the process branch (AttributeError of poll, or ProcessLookupError of
    terminate once the process has exited and its pipes are closed)
    reaches the handler. *)
Theorem stop_session_never_removes st session_id :
  reachable st ->
  exists st',
    stop_session session_id st = Some (inr false, st')
    /\ sessions st' = sessions st
    /\ (forall id, fst <$> get_session id st' = fst <$> get_session id st)
    /\ fst <$> list_sessions st' = fst <$> list_sessions st.
Proof.
  intros Hreach.
  destruct (sessions st !! session_id) as [session|] eqn:Hs.
  - destruct (reachable_sessions_have_process st Hreach session_id session Hs)
      as [process Hp].
    destruct (stop_session_fails_with_process session_id st session process Hs Hp)
      as (e & st' & Hstop & Heq & _).
    exists st'. split; [done|]. by apply same_registry_same_answers.
  - exists st. split; [by apply stop_session_unknown|]. by apply same_registry_same_answers.
Qed.

End Props.

End ClineProps.

(* ===================================================================== *)
(* The history of a session and the registry                             *)
(* ===================================================================== *)

Module HistoryProps.

Import Cline ClineProps.
Local Open Scope Z_scope.

Section Props.

Context `{Env}.

(* ------------------------------------------------------------------- *)
(* get_session_messages                                                *)
(* ------------------------------------------------------------------- *)

Lemma get_session_messages_eq session_id limit st session :
  sessions st !! session_id = Some session ->
  get_session_messages session_id limit st
  = Some (inr (if limit =? 0 then messages session
               else if 0 <? limit
                    then drop (length (messages session) - Z.to_nat limit) (messages session)
                    else drop (Z.to_nat (- limit)) (messages session)), st).
Proof.
  intros Hs. unfold get_session_messages. unfold_M. simpl. rewrite Hs.
  destruct (limit =? 0); [done|]. by destruct (0 <? limit).
Qed.

(** X1.  For a registered session get_session_messages returns a final
    segment of the history and changes nothing: with limit 0 the whole
    history, with a positive limit the last limit messages (all of them
    when there are fewer), and with a negative limit, which the slice
    reads as a start index, everything but the oldest -limit messages. *)
Theorem get_session_messages_window session_id limit st session :
  sessions st !! session_id = Some session ->
  exists older recent,
    get_session_messages session_id limit st = Some (inr recent, st)
    /\ messages session = older ++ recent
    /\ length recent
       = if limit =? 0 then length (messages session)
         else if 0 <? limit then Nat.min (Z.to_nat limit) (length (messages session))
         else (length (messages session) - Z.to_nat (- limit))%nat.
Proof.
  intros Hs. rewrite (get_session_messages_eq _ _ _ _ Hs).
  destruct (limit =? 0) eqn:H0.
  - exists [], (messages session). done.
  - destruct (0 <? limit) eqn:Hpos.
    + exists (take (length (messages session) - Z.to_nat limit) (messages session)).
      eexists. split; [reflexivity|]. split; [by rewrite take_drop|].
      rewrite length_drop. lia.
    + exists (take (Z.to_nat (- limit)) (messages session)).
      eexists. split; [reflexivity|]. split; [by rewrite take_drop|].
      by rewrite length_drop.
Qed.

(* What a call of send_message does to the registry: nothing when it
   rejects the request, and otherwise it replaces the session of the id
   by one that differs in its history, status and last sequence number
   only. *)
Lemma send_message_effect session_id message st r st' :
  send_message session_id message st = Some (r, st') ->
  (sessions st' = sessions st
   /\ (sessions st !! session_id = None
       \/ exists session, sessions st !! session_id = Some session
                          /\ status session <> ready)
   /\ exists msg, r = inl (ValueError msg))
  \/ exists session session' more,
       sessions st !! session_id = Some session
       /\ status session = ready
       /\ sessions st' = <[session_id := session']> (sessions st)
       /\ Cline.session_id session' = Cline.session_id session
       /\ workspace_path session' = workspace_path session
       /\ created_at session' = created_at session
       /\ cli_process session' = cli_process session
       /\ input_file session' = input_file session
       /\ output_file session' = output_file session
       /\ messages session' = messages session ++ more
       /\ match r with
          | inl _ => more = [user_message_of message st] /\ status session' = error
          | inr res =>
              exists a, more = [user_message_of message st; a]
                        /\ status session' = ready
                        /\ m_type a = agent
                        /\ m_id a = r_message_id res
                        /\ m_content a = r_response res
                        /\ r_session_id res = session_id
                        /\ r_status res = lit "success"
          end.
Proof.
  destruct (sessions st !! session_id) as [session|] eqn:Hs.
  - destruct (decide (status session = ready)) as [Hr|Hr].
    + intros Hsend. right. exists session.
      destruct r as [e|res].
      * eexists _, _. split; [done|]. split; [done|].
        split; [by eapply send_message_failed|]. simpl. done.
      * destruct (send_message_done _ _ _ _ _ _ Hs Hr Hsend) as (d & n & st2 & -> & -> & _).
        eexists _, _. split; [done|]. split; [done|]. split; [done|]. simpl.
        rewrite <- app_assoc. repeat split; try done.
        eexists. split; [reflexivity|]. done.
    + rewrite (send_message_rejects _ _ _ _ Hs Hr). intros [= <- <-]. left.
      split; [done|]. split; [right; by exists session|]. by eexists.
  - rewrite (send_message_not_found _ _ _ Hs). intros [= <- <-]. left.
    split; [done|]. split; [by left|]. by eexists.
Qed.

(** X2.  send_message never removes a session or a message: whatever
    its outcome, every session of the registry is still registered under
    its id afterwards, with its former history as an initial segment of
    the new one and with the same id, workspace, creation time, process
    and files; a session other than the one addressed is not changed at
    all, and no session is added. *)
Theorem send_message_keeps_history session_id message st r st' :
  send_message session_id message st = Some (r, st') ->
  (forall id session,
      sessions st !! id = Some session ->
      exists session' more,
        sessions st' !! id = Some session'
        /\ messages session' = messages session ++ more
        /\ Cline.session_id session' = Cline.session_id session
        /\ workspace_path session' = workspace_path session
        /\ created_at session' = created_at session
        /\ cli_process session' = cli_process session
        /\ input_file session' = input_file session
        /\ output_file session' = output_file session
        /\ (id <> session_id -> session' = session))
  /\ (forall id, sessions st !! id = None -> sessions st' !! id = None).
Proof.
  intros Hsend.
  destruct (send_message_effect _ _ _ _ _ Hsend)
    as [(Heq & _)|(target & target' & more & Ht & _ & Heq & Hid & Hw & Hc & Hp & Hi & Ho
                   & Hm & _)]; rewrite Heq.
  - split; [|done]. intros id session Hs. exists session, []. rewrite app_nil_r. done.
  - split.
    + intros id session Hs. destruct (decide (id = session_id)) as [->|Hne].
      * rewrite Ht in Hs. injection Hs as <-. exists target', more.
        rewrite lookup_insert_eq. done.
      * exists session, []. rewrite lookup_insert_ne by done. rewrite app_nil_r. done.
    + intros id Hs. rewrite lookup_insert_ne; [done|]. intros ->. congruence.
Qed.

(** X3.  After a successful send_message the last two messages of the
    history are the exchange itself: get_session_messages with limit 2
    returns the user message that holds the text sent, followed by the
    agent message whose id and content are the ones send_message
    returned. *)
Theorem sent_exchange_ends_history session_id message st res st' :
  send_message session_id message st = Some (inr res, st') ->
  exists u a,
    get_session_messages session_id 2 st' = Some (inr [u; a], st')
    /\ m_type u = user /\ m_content u = JStr message
    /\ m_type a = agent /\ m_id a = r_message_id res /\ m_content a = r_response res.
Proof.
  intros Hsend.
  destruct (send_message_effect _ _ _ _ _ Hsend)
    as [(_ & _ & msg & Hr)|(target & target' & more & Ht & _ & Heq & _ & _ & _ & _ & _ & _
                            & Hm & a & -> & _ & Ha1 & Ha2 & Ha3 & _)]; [done|].
  exists (user_message_of message st), a.
  rewrite (get_session_messages_eq session_id 2 st' target')
    by (rewrite Heq; apply lookup_insert_eq).
  split; [|done]. cbn [Z.eqb Z.ltb Z.compare]. cbv iota.
  rewrite Hm, length_app. cbn [length].
  replace (length (messages target) + 2 - Z.to_nat 2)%nat
    with (length (messages target) + 0)%nat by lia.
  by rewrite drop_app_length'.
Qed.

(** X4.  A failed send leaves the session unusable: once send_message on
    a ready session has ended with an exception, every further
    send_message to that id is rejected with ValueError "... is not
    ready (status: error)" and changes nothing, whatever the machine
    has done in between. *)
Theorem send_after_failed_send_rejected session_id message st session e st' :
  sessions st !! session_id = Some session ->
  status session = ready ->
  send_message session_id message st = Some (inl e, st') ->
  forall message2 w t,
    send_message session_id message2 (set_world w (set_now t st'))
    = Some (inl (ValueError (lit "Session " ++ session_id
                             ++ lit " is not ready (status: error)")),
            set_world w (set_now t st')).
Proof.
  intros Hs Hr Hsend message2 w t.
  pose proof (send_message_failed _ _ _ _ _ _ Hs Hr Hsend) as Heq.
  rewrite (send_message_rejects session_id message2 _
             (set_status error (append_message (user_message_of message st)
                                  (set_status processing session)))).
  - done.
  - simpl. rewrite Heq. apply lookup_insert_eq.
  - done.
Qed.

(* ------------------------------------------------------------------- *)
(* The sessions of the reachable states                                *)
(* ------------------------------------------------------------------- *)

Lemma create_session_shape workspace_path st session st' :
  create_session workspace_path st = Some (inr session, st') ->
  exists temp_dir process,
    session
    = set_status ready
        (set_cli_process process
           (set_files (path_join temp_dir (lit "input.txt"))
                      (path_join temp_dir (lit "output.txt"))
                      (new_session (uuid4 (draws st)) workspace_path (now st))))
    /\ mkdtemp (lit "cline_session_" ++ uuid4 (draws st) ++ lit "_") (world st)
       = inr temp_dir
    /\ sessions st' = <[uuid4 (draws st) := session]> (sessions st)
    /\ draws st' = S (draws st).
Proof.
  unfold create_session, uuid4_str, open_write. unfold_M. simpl.
  destruct (mkdtemp _ (world st)) as [e|temp_dir] eqn:Ht; simpl; [done|].
  destruct (write_file _ [] _) as [w1|]; simpl; [|done].
  destruct (write_file _ [] _) as [w2|]; simpl; [|done].
  destruct (create_subprocess_exec _ _ _ _) as [e|[process w3]]; simpl; [done|].
  match goal with
  | |- context [_wait_for_session_ready_with_logs ?s ?st1] =>
      destruct (_wait_for_session_ready_with_logs s st1) as [[r st2]|] eqn:Hw;
      [|done];
      apply wait_for_session_ready_sound in Hw; destruct Hw as (Hs & Hd & _)
  end.
  destruct r as [e|[]]; simpl; [done|].
  intros [= <- <-]. exists temp_dir, process. simpl. rewrite Hs, Hd. done.
Qed.

Lemma new_session_workspace session_id workspace_path utcnow :
  Cline.workspace_path (new_session session_id workspace_path utcnow) <> [].
Proof.
  unfold new_session. simpl. destruct workspace_path as [[|c x]|]; simpl; try done.
Qed.

Lemma reachable_sessions_shape st :
  reachable st ->
  forall id session,
    sessions st !! id = Some session ->
    Cline.session_id session = id
    /\ (status session = ready \/ status session = error
        \/ status session = processing)
    /\ is_Some (input_file session) /\ is_Some (output_file session)
    /\ workspace_path session <> [].
Proof.
  induction 1 as [st Hempty|st st' _ IH Hsame|st workspace_path r st' _ IH Hc
                 |st sid message r st' _ IH Hsend|st sid r st' Hreach IH Hstop
                 |st sid message target input w _ IH Ht Hready Hi Hw];
    intros id session Hs.
  - rewrite Hempty in Hs. by rewrite lookup_empty in Hs.
  - rewrite Hsame in Hs. by apply IH.
  - destruct r as [e|new].
    + pose proof (create_session_outcome _ _ _ _ Hc) as Hr.
      simpl in Hr. rewrite Hr in Hs. by apply IH.
    + destruct (create_session_shape _ _ _ _ Hc) as (temp_dir & process & -> & _ & Heq & _).
      rewrite Heq in Hs.
      destruct (decide (uuid4 (draws st) = id)) as [<-|Hne].
      * rewrite lookup_insert_eq in Hs. injection Hs as <-. simpl.
        split; [done|]. split; [by left|]. split; [by eexists|]. split; [by eexists|].
        apply (new_session_workspace [] workspace_path 0).
      * rewrite lookup_insert_ne in Hs by done. by apply IH.
  - destruct (send_message_effect _ _ _ _ _ Hsend)
      as [(Heq & _)|(target & target' & more & Ht & _ & Heq & Hid & Hw & _ & _ & Hi & Ho
                     & _ & Hr)]; rewrite Heq in Hs.
    + by apply IH.
    + destruct (decide (sid = id)) as [<-|Hne].
      * rewrite lookup_insert_eq in Hs. injection Hs as <-.
        destruct (IH sid target Ht) as (? & _ & ? & ? & ?).
        rewrite Hid, Hi, Ho, Hw. split; [done|]. split; [|done].
        destruct r as [e|res]; [right; left; by destruct Hr|left].
        destruct Hr as (a & _ & ? & _). done.
      * rewrite lookup_insert_ne in Hs by done. by apply IH.
  - destruct (sessions st !! sid) as [target|] eqn:Ht.
    + destruct (reachable_sessions_have_process st Hreach sid target Ht) as [process Hp].
      destruct (stop_session_fails_with_process sid st target process Ht Hp)
        as (e & st0 & Hstop0 & Heq & _).
      rewrite Hstop in Hstop0. injection Hstop0 as -> ->.
      rewrite Heq in Hs. by apply IH.
    + rewrite (stop_session_unknown _ _ Ht) in Hstop. injection Hstop as <- <-.
      by apply IH.
  - simpl in Hs. destruct (decide (sid = id)) as [<-|Hne].
    + rewrite lookup_insert_eq in Hs. injection Hs as <-. simpl.
      destruct (IH sid target Ht) as (? & _ & ? & ? & ?).
      split; [done|]. split; [by right; right|]. done.
    + rewrite lookup_insert_ne in Hs by done. by apply IH.
Qed.

(** X5.  In every state the service reaches from an empty registry, by
    calls of create_session, send_message and stop_session that run to
    their end or are cancelled at one of their awaits, each session is
    registered under its own id, its status is "ready", "error" or
    "processing" (the statuses "initializing" and "stopped" are never
    seen in the registry; "processing" is what a send leaves that was
    cancelled during its wait, which no handler of send_message
    catches), it has a process handle, an input file and an output
    file, and its workspace path is not empty. *)
Theorem registered_sessions_invariant st id session :
  reachable st ->
  sessions st !! id = Some session ->
  Cline.session_id session = id
  /\ (status session = ready \/ status session = error
      \/ status session = processing)
  /\ is_Some (cli_process session)
  /\ is_Some (input_file session) /\ is_Some (output_file session)
  /\ workspace_path session <> [].
Proof.
  intros Hreach Hs.
  destruct (reachable_sessions_shape st Hreach id session Hs) as (Hid & Hst & Hi & Ho & Hw).
  pose proof (reachable_sessions_have_process st Hreach id session Hs) as Hp.
  repeat split; assumption.
Qed.

End Props.

End HistoryProps.

(* ===================================================================== *)
(* The outcome of the wait for a response                                *)
(* ===================================================================== *)

Module WaitProps.

Import Cline ClineProps.
Local Open Scope Z_scope.

Section Props.

Context `{Env}.

(* ------------------------------------------------------------------- *)
(* The polls of _wait_for_response                                     *)
(* ------------------------------------------------------------------- *)

(* The loop polls the machine as it is after 0, 1, 2, ... sleeps and is
   left in two ways only. *)
Lemma response_loop_trace cycles session start last st r st' :
  response_loop cycles session start last st = Some (r, st') ->
  exists k,
    (now st', world st') = after_sleeps k (now st) (world st)
    /\ (forall j, (j < k)%nat ->
          reply_at session last (after_sleeps j (now st) (world st)).2 = None)
    /\ match r with
       | inl e =>
           e = TimeoutError (lit "No response received within 300 seconds")
           /\ max_wait <= now st' - start
       | inr (d, session') =>
           exists n, reply_at session last (world st') = Some (d, n)
                     /\ session' = set_last_response_id n session
                     /\ now st' - start < max_wait
       end.
Proof.
  revert st. induction cycles as [|c IH]; intros st; [done|].
  destruct (response_loop_step c session start last st) as [lg ->].
  destruct (now st - start <? max_wait) eqn:Ht.
  - apply Z.ltb_lt in Ht.
    destruct (reply_at session last (world st)) as [[d n]|] eqn:Hr.
    + intros [= <- <-]. exists 0%nat. simpl. split; [done|]. split; [lia|].
      exists n. done.
    + intros Hl. apply IH in Hl as (k & Hk & Hq & Hres).
      exists (S k). cbn [after_sleeps]. split; [exact Hk|]. split; [|exact Hres].
      intros [|j] Hj; [exact Hr|]. cbn [after_sleeps]. apply Hq. lia.
  - apply Z.ltb_ge in Ht. intros [= <- <-]. exists 0%nat. simpl.
    split; [done|]. split; [lia|]. done.
Qed.

(** X6.  _wait_for_response always ends, and in one of two ways: it
    returns a reply that one of its polls has found in the output file,
    strictly less than 300 s after its start, or it raises TimeoutError
    "No response received within 300 seconds", 300 s or more after its
    start.  No other exception leaves it: a missing or unreadable file,
    a line that is not JSON and a messageId that cannot be compared are
    all swallowed by the poll.  The polls see the machine as it is
    after 0, 1, 2, ... sleeps of 2 s, and the registry is not
    touched. *)
Theorem wait_for_response_outcome session st :
  exists r st' k,
    _wait_for_response session st = Some (r, st')
    /\ sessions st' = sessions st
    /\ (now st', world st') = after_sleeps k (now st) (world st)
    /\ match r with
       | inl e =>
           e = TimeoutError (lit "No response received within 300 seconds")
           /\ max_wait <= now st' - now st
       | inr (d, session') =>
           exists n,
             reply_at session (default 0 (_last_response_id session)) (world st')
             = Some (d, n)
             /\ session' = set_last_response_id n session
             /\ now st' - now st < max_wait
       end.
Proof.
  destruct (wait_for_response_total session st) as (r & st' & Hw).
  pose proof Hw as Hl. rewrite wait_for_response_eq in Hl.
  destruct (response_loop_frame _ _ _ _ _ _ _ Hl) as [Hs _].
  destruct (response_loop_trace _ _ _ _ _ _ _ Hl) as (k & Hk & _ & Hres).
  exists r, st', k. done.
Qed.

(* ------------------------------------------------------------------- *)
(* The exceptions of send_message                                      *)
(* ------------------------------------------------------------------- *)



End Props.

End WaitProps.

(* ===================================================================== *)
(* The readiness marker and the scan of the output file                  *)
(* ===================================================================== *)

Module ScanProps.

Import Cline ClineProps.
Local Open Scope Z_scope.

(* ------------------------------------------------------------------- *)
(* Substrings                                                          *)
(* ------------------------------------------------------------------- *)

Lemma startswith_app (p x : str) : startswith p (p ++ x) = true.
Proof.
  induction p as [|a p IH]; [done|]. simpl. by rewrite N.eqb_refl.
Qed.

Lemma startswith_inv (p x : str) :
  startswith p x = true -> exists rest, x = p ++ rest.
Proof.
  revert x. induction p as [|a p IH]; intros x; [by exists x|].
  destruct x as [|b x]; [done|]. simpl. intros Hs.
  apply andb_true_iff in Hs as [Hab Hs]. apply N.eqb_eq in Hab as ->.
  destruct (IH x Hs) as [rest ->]. by exists rest.
Qed.

Lemma contains_inv (p x : str) :
  contains p x = true -> exists before rest, x = before ++ p ++ rest.
Proof.
  induction x as [|c x IH].
  - simpl. rewrite orb_false_r. intros Hs. apply startswith_inv in Hs as [rest ->].
    by exists [], rest.
  - cbn [contains]. intros Hc. apply orb_true_iff in Hc as [Hs|Hc].
    + apply startswith_inv in Hs as [rest ->]. by exists [], rest.
    + destruct (IH Hc) as (before & rest & ->). by exists (c :: before), rest.
Qed.

Lemma contains_startswith (p x : str) : startswith p x = true -> contains p x = true.
Proof. intros Hs. destruct x; cbn [contains]; by rewrite Hs. Qed.

Lemma contains_app (p before rest : str) : contains p (before ++ p ++ rest) = true.
Proof.
  induction before as [|c before IH].
  - cbn [app]. apply contains_startswith, startswith_app.
  - cbn [app contains]. rewrite IH. by rewrite orb_true_r.
Qed.

Lemma contains_trans (p q x : str) :
  contains p q = true -> contains q x = true -> contains p x = true.
Proof.
  intros Hp Hq.
  apply contains_inv in Hp as (b1 & r1 & ->).
  apply contains_inv in Hq as (b2 & r2 & ->).
  replace (b2 ++ (b1 ++ p ++ r1) ++ r2) with ((b2 ++ b1) ++ p ++ (r1 ++ r2))
    by (by rewrite <- !app_assoc).
  apply contains_app.
Qed.

Section Props.

Context `{Env}.

(** X8.  The readiness test accepts any output that contains "READY":
    the first alternative of the test, "SESSION_READY", never decides,
    since a text that contains it contains "READY" as well.  So a cycle
    of the readiness wait reads a marker exactly when the stripped
    content of the output file contains "READY" somewhere, be it inside
    another word or inside a line of another kind. *)
Theorem ready_marker_is_any_READY session w :
  ready_at session w
  = match output_file session with
    | None => false
    | Some path =>
        match read_file path w with
        | None => false
        | Some content => contains (lit "READY") (strip content)
        end
    end.
Proof.
  unfold ready_at. destruct (output_file session) as [path|]; [|done].
  destruct (read_file path w) as [content|]; [|done].
  destruct (contains (lit "SESSION_READY") (strip content)) eqn:Hc; [|done].
  simpl. symmetry. apply (contains_trans _ (lit "SESSION_READY")); [|done].
  vm_compute. reflexivity.
Qed.

(* ------------------------------------------------------------------- *)
(* The scan of the output file, newest line first                      *)
(* ------------------------------------------------------------------- *)

(* A line the scan passes over: a line json.loads is not called on, one
   it rejects with JSONDecodeError, a record that is no reply, or a
   reply whose sequence number is not greater than the last one
   consumed. *)
Lemma scan_lines_skip_stale last (skipped rest : list str) :
  Forall (fun l => match reply_of l with
                   | Skipped => True
                   | Reply d => exists n, sequence_number d = Some n /\ n <= last
                   | Breaks _ => False
                   end) skipped ->
  scan_lines last (skipped ++ rest) = scan_lines last rest.
Proof.
  induction 1 as [|l ls Hl _ IH]; [done|].
  cbn [app scan_lines]. cbv zeta. unfold reply_of in Hl. cbv zeta in Hl.
  destruct (negb (eqb (strip l) []) && negb (eqb (strip l) (lit "SESSION_READY"))
            && startswith (lit "{") (strip l)); [|done].
  destruct (json_loads (strip l)) as [d| |e]; [|done|done].
  destruct (has_key (lit "response") d || has_key (lit "error") d); [|done].
  destruct Hl as (n & Hn & Hle). unfold sequence_number in Hn. rewrite Hn.
  by replace (n >? last) with false by (rewrite Z.gtb_ltb; symmetry; apply Z.ltb_ge; lia).
Qed.

Lemma poll_response_content session last st output content :
  output_file session = Some output ->
  read_file output (world st) = Some content ->
  strip content <> [] ->
  poll_response session last st
  = match scan_lines last (rev (split nl (strip content))) with
    | Found response_data response_id => Some (inr (Some (response_data, response_id)), st)
    | Nothing => Some (inr None, st)
    | Raised e => Some (inr None, logged [ResponseReadError e] st)
    end.
Proof.
  intros Ho Hread Hne. unfold poll_response, os_path_exists, open_read.
  rewrite Ho. unfold_M. simpl. rewrite (read_file_exists _ _ _ Hread), Hread.
  assert (negb (eqb (strip content) []) = true) as ->.
  { unfold eqb. by rewrite bool_decide_eq_false_2. }
  by destruct (scan_lines last (rev (split nl (strip content)))).
Qed.

Lemma split_lines_nonempty content (before after : list str) line d :
  split nl (strip content) = before ++ line :: after ->
  reply_of line = Reply d ->
  strip content <> [].
Proof.
  intros Hsplit Hl Hc. rewrite Hc in Hsplit. destruct before as [|b bs].
  - injection Hsplit as <- _. by rewrite reply_of_empty in Hl.
  - injection Hsplit as _ Hbs. by destruct bs.
Qed.

(** X9.  The newest reply decides a poll.  When the last line of the
    output file that holds a reply with a fresh sequence number is
    followed only by lines the scan passes over (lines json.loads is not
    called on, lines it rejects with JSONDecodeError, records that are
    no reply, and replies whose sequence number is not greater than the
    last one consumed; no line on which json.loads raises another
    exception), the poll returns that reply, whatever the lines before
    it hold: older replies are passed over, also those that were never
    returned. *)
Theorem newest_fresh_reply_wins session last st output content before line after d n :
  output_file session = Some output ->
  read_file output (world st) = Some content ->
  split nl (strip content) = before ++ line :: after ->
  reply_of line = Reply d ->
  sequence_number d = Some n -> last < n ->
  Forall (fun l => match reply_of l with
                   | Skipped => True
                   | Reply d' => exists m, sequence_number d' = Some m /\ m <= last
                   | Breaks _ => False
                   end) after ->
  poll_response session last st = Some (inr (Some (d, n)), st).
Proof.
  intros Ho Hread Hsplit Hl Hn Hlt Hafter.
  rewrite (poll_response_content _ _ _ _ _ Ho Hread)
    by (by eapply split_lines_nonempty).
  rewrite Hsplit, rev_app_distr. cbn [rev]. rewrite <- app_assoc.
  rewrite scan_lines_skip_stale by (by apply Forall_rev).
  pose proof (scan_lines_single last before [] line d n Hl (List.Forall_nil _) Hn Hlt) as Hs.
  rewrite rev_app_distr in Hs. cbn [rev app] in Hs. cbn [app]. by rewrite Hs.
Qed.

(** X10.  A reply whose messageId cannot be compared with a number (a
    string, null, a list or an object) blocks the poll: when the last
    line of the output file that holds a reply is such a line, and the
    lines after it are lines json.loads is not called on, lines it
    rejects with JSONDecodeError or records that are no reply, the
    comparison raises TypeError, the poll logs a warning and finds
    nothing, although lines before it may hold replies with fresh
    sequence numbers. *)
Theorem unorderable_id_blocks_poll session last st output content before line after d :
  output_file session = Some output ->
  read_file output (world st) = Some content ->
  split nl (strip content) = before ++ line :: after ->
  reply_of line = Reply d ->
  sequence_number d = None ->
  Forall (fun l => reply_of l = Skipped) after ->
  (exists msg,
     poll_response session last st
     = Some (inr None, logged [ResponseReadError (TypeError msg)] st))
  /\ reply_at session last (world st) = None.
Proof.
  intros Ho Hread Hsplit Hl Hn Hafter.
  assert (exists msg, scan_lines last (rev (split nl (strip content)))
                      = Raised (TypeError msg)) as [msg Hs].
  { rewrite Hsplit, rev_app_distr. cbn [rev]. rewrite <- app_assoc.
    rewrite scan_lines_skip by (by apply Forall_rev).
    cbn [app scan_lines]. cbv zeta. unfold reply_of in Hl. cbv zeta in Hl.
    destruct (negb (eqb (strip line) []) && negb (eqb (strip line) (lit "SESSION_READY"))
              && startswith (lit "{") (strip line)); [|done].
    destruct (json_loads (strip line)) as [d'| |e]; [|done|done].
    destruct (has_key (lit "response") d' || has_key (lit "error") d'); [|done].
    injection Hl as ->. unfold sequence_number in Hn. rewrite Hn.
    by eexists. }
  split.
  - exists msg.
    rewrite (poll_response_content _ _ _ _ _ Ho Hread)
      by (by eapply split_lines_nonempty).
    by rewrite Hs.
  - unfold reply_at. rewrite Ho, (read_file_exists _ _ _ Hread), Hread.
    destruct (negb (eqb (strip content) [])); [|done]. by rewrite Hs.
Qed.

End Props.

End ScanProps.

(* ===================================================================== *)
(* What a failed stop leaves behind                                      *)
(* ===================================================================== *)

Module StopProps.

Import Cline ClineProps.
Local Open Scope Z_scope.

Section Props.

Context `{Env}.

Lemma write_file_existing path content w w' :
  path_exists path w = true ->
  write_file path content w = Some w' ->
  dirs w' = dirs w /\ procs w' = procs w
  /\ files w' = <[path := content]> (files w)
  /\ is_Some (files w !! path).
Proof.
  unfold write_file, path_exists. intros Hex.
  destruct (bool_decide (path ∈ dirs w)) eqn:Hd; [done|].
  rewrite orb_false_r in Hex. apply bool_decide_eq_true_1 in Hex.
  destruct (bool_decide (dirname path = []) || bool_decide (dirname path ∈ dirs w));
    [|done].
  intros [= <-]. done.
Qed.

(** X11.  A stop that fails cleans nothing up.  For a session with a
    process handle, stop_session returns False and, of its own doing,
    changes at most the content of the input file (to "STOP_SESSION")
    and delivers at most SIGTERM to the process: up to what the machine
    does during the 3 s sleep, every file and directory that existed
    still exists, no file other than the input file has changed, no
    process has received SIGKILL, and the registry is as before. *)
Theorem failed_stop_deletes_nothing session_id st session process :
  sessions st !! session_id = Some session ->
  cli_process session = Some process ->
  exists st' w,
    stop_session session_id st = Some (inr false, st')
    /\ sessions st' = sessions st
    /\ (world st' = w \/ world st' = elapse (now st') w)
    /\ dirs w = dirs (world st)
    /\ (forall path, is_Some (files w !! path) <-> is_Some (files (world st) !! path))
    /\ (forall path, input_file session <> Some path ->
          files w !! path = files (world st) !! path)
    /\ (forall q, sigkill (proc_of q w) = sigkill (proc_of q (world st))).
Proof.
  intros Hs Hp. unfold stop_session.
  unfold mbind at 1. unfold M_bind at 1. unfold bind at 1. unfold gets at 1.
  rewrite Hs, Hp. unfold try_except.
  unfold mbind at 1. unfold M_bind at 1. unfold bind at 1.
  assert (exists r w1,
            (if truthy (input_file session)
             then ex ← os_path_exists (input_file session);
                  if ex : bool
                  then open_write (input_file session) (lit "STOP_SESSION")
                  else mret ()
             else mret ()) st = Some (r, set_world w1 st)
            /\ dirs w1 = dirs (world st) /\ procs w1 = procs (world st)
            /\ (forall path, is_Some (files w1 !! path)
                             <-> is_Some (files (world st) !! path))
            /\ (forall path, input_file session <> Some path ->
                  files w1 !! path = files (world st) !! path))
    as (r & w1 & -> & Hd1 & Hp1 & Hf1 & Hg1).
  { assert (set_world (world st) st = st) as Hsame by (by destruct st).
    destruct (truthy (input_file session));
      [|exists (inr tt), (world st); by rewrite Hsame].
    unfold os_path_exists, open_write.
    destruct (input_file session) as [path|]; unfold_M; simpl;
      [|exists (inl stat_of_None), (world st); by rewrite Hsame].
    destruct (path_exists path (world st)) eqn:Hex; simpl;
      [|exists (inr tt), (world st); by rewrite Hsame].
    destruct (write_file path _ (world st)) as [w1|] eqn:Hw;
      [|exists (inl (OSError (strerror path (world st)))), (world st);
        by rewrite Hsame].
    destruct (write_file_existing _ _ _ _ Hex Hw) as (Hd & Hpr & Hf & Hsome).
    exists (inr tt), w1. split; [done|]. split; [done|]. split; [done|]. split.
    - intros p. rewrite Hf. destruct (decide (path = p)) as [<-|Hne].
      + rewrite lookup_insert_eq. split; [done|by eexists].
      + by rewrite lookup_insert_ne.
    - intros p Hne. rewrite Hf. rewrite lookup_insert_ne; [done|]. congruence. }
  assert (forall q, sigkill (proc_of q w1) = sigkill (proc_of q (world st))) as Hk1
    by (intros q; unfold proc_of; by rewrite Hp1).
  destruct r as [e|[]].
  { eexists _, w1. split; [reflexivity|]. simpl. split; [done|]. split; [by left|]. done. }
  unfold mbind at 1. unfold M_bind at 1. unfold bind at 1.
  unfold mbind at 1. unfold M_bind at 1. unfold bind at 1.
  unfold on_process at 1, Process_terminate. cbn [world set_world].
  destruct (transport_closed (proc_of process w1)).
  { eexists _, w1. split; [reflexivity|]. simpl. split; [done|]. split; [by left|]. done. }
  unfold mbind at 1. unfold M_bind at 1. unfold bind at 1. rewrite asyncio_sleep_eq.
  unfold mbind at 1. unfold M_bind at 1. unfold bind at 1. unfold Process_poll.
  eexists _, _. split; [reflexivity|]. simpl. split; [done|].
  split; [right; reflexivity|]. simpl. split; [done|]. split; [done|]. split; [done|].
  intros q. rewrite <- Hk1. unfold proc_of at 1. simpl.
  destruct (decide (process = q)) as [<-|Hne].
  - by rewrite lookup_insert_eq.
  - by rewrite lookup_insert_ne.
Qed.

End Props.

End StopProps.

(* ===================================================================== *)
(* The outcome of the readiness wait and of create_session               *)
(* ===================================================================== *)

Module ReadyProps.

Import Cline ClineProps.
Local Open Scope Z_scope.

Section Props.

Context `{Env}.

Lemma ready_loop_outcome cycles session start last_log st output r st' :
  output_file session = Some output ->
  start <= last_log ->
  ready_loop cycles session start last_log st = Some (r, st') ->
  match r with
  | inr _ => ready_at session (world st') = true /\ now st' - start < max_wait
  | inl e =>
      (e = TimeoutError (lit "Session " ++ session_id session
                         ++ lit " failed to become ready within 300 seconds")
       /\ (max_wait <= now st' - start
           \/ (check_interval <= now st' - start
               /\ exists process code out err,
                    cli_process session = Some process
                    /\ Process_returncode process (world st') = Some code
                    /\ communicate process (world st')
                       = Streams (Text out) (Text err))))
      \/ (exists msg,
            e = UnicodeDecodeError msg
            /\ check_interval <= now st' - start /\ now st' - start < max_wait
            /\ exists process code stdout stderr,
                 cli_process session = Some process
                 /\ Process_returncode process (world st') = Some code
                 /\ communicate process (world st') = Streams stdout stderr
                 /\ (stdout = Undecodable msg \/ stderr = Undecodable msg))
  end.
Proof.
  intros Ho. revert last_log st. induction cycles as [|c IH]; intros last_log st Hl; [done|].
  destruct (ready_loop_step c session start last_log st)
    as (lg & [[-> Hwhy]|[(msg & -> & Ht & Hi & Hwhy)|[(_ & Hnone & _)|[[-> [Hr Ht]]
             |[(last' & -> & Ht & Hlast)|[-> _]]]]]]).
  - intros [= <- <-]. left. split; [done|]. simpl.
    destruct Hwhy as [?|(? & ? & ?)]; [by left|right]. split; [lia|done].
  - intros [= <- <-]. right. exists msg. simpl. split; [done|]. split; [lia|]. done.
  - congruence.
  - intros [= <- <-]. done.
  - apply IH. destruct Hlast as [->|[-> ?]]; [done|].
    unfold check_interval, seconds in *. lia.
  - done.
Qed.

Lemma wait_for_session_ready_outcome session st output r st' :
  output_file session = Some output ->
  _wait_for_session_ready_with_logs session st = Some (r, st') ->
  match r with
  | inr _ => ready_at session (world st') = true /\ now st' - now st < max_wait
  | inl e =>
      (e = TimeoutError (lit "Session " ++ session_id session
                         ++ lit " failed to become ready within 300 seconds")
       /\ (max_wait <= now st' - now st
           \/ (check_interval <= now st' - now st
               /\ exists process code out err,
                    cli_process session = Some process
                    /\ Process_returncode process (world st') = Some code
                    /\ communicate process (world st')
                       = Streams (Text out) (Text err))))
      \/ (exists msg,
            e = UnicodeDecodeError msg
            /\ check_interval <= now st' - now st /\ now st' - now st < max_wait
            /\ exists process code stdout stderr,
                 cli_process session = Some process
                 /\ Process_returncode process (world st') = Some code
                 /\ communicate process (world st') = Streams stdout stderr
                 /\ (stdout = Undecodable msg \/ stderr = Undecodable msg))
  end.
Proof.
  intros Ho Hw. rewrite wait_for_session_ready_eq in Hw.
  by apply (ready_loop_outcome _ _ _ _ _ output) in Hw.
Qed.

(** X20.  How the readiness wait ends.  For a session with an output
    file, on a machine on which the read of the pipes of a process that
    has exited returns, _wait_for_session_ready_with_logs ends and
    leaves the registry alone.  It returns only when a cycle, less than
    300 s after the start, has read a marker in the output file.
    Otherwise it raises: TimeoutError "Session <id> failed to become
    ready within 300 seconds" when 300 s or more have passed, or, with
    the same message, 10 s or more after the start in a cycle that found
    the process exited and read text from both of its pipes; and
    UnicodeDecodeError, 10 s or more after the start and before the
    deadline, in a cycle that found the process exited and could not
    decode what one of its pipes held.  No other exception leaves it. *)
Theorem ready_wait_outcome session st output :
  output_file session = Some output ->
  (forall p w, communicate p w <> Pending) ->
  exists r st',
    _wait_for_session_ready_with_logs session st = Some (r, st')
    /\ sessions st' = sessions st
    /\ match r with
       | inr _ => ready_at session (world st') = true /\ now st' - now st < max_wait
       | inl e =>
           (e = TimeoutError (lit "Session " ++ session_id session
                              ++ lit " failed to become ready within 300 seconds")
            /\ (max_wait <= now st' - now st
                \/ (check_interval <= now st' - now st
                    /\ exists process code out err,
                         cli_process session = Some process
                         /\ Process_returncode process (world st') = Some code
                         /\ communicate process (world st')
                            = Streams (Text out) (Text err))))
           \/ (exists msg,
                 e = UnicodeDecodeError msg
                 /\ check_interval <= now st' - now st /\ now st' - now st < max_wait
                 /\ exists process code stdout stderr,
                      cli_process session = Some process
                      /\ Process_returncode process (world st') = Some code
                      /\ communicate process (world st') = Streams stdout stderr
                      /\ (stdout = Undecodable msg \/ stderr = Undecodable msg))
       end.
Proof.
  intros Ho Hreturns.
  destruct (wait_for_session_ready_total session st Hreturns) as (r & st' & Hw).
  exists r, st'. split; [exact Hw|].
  split; [by destruct (wait_for_session_ready_sound _ _ _ _ Hw) as (? & _)|].
  by apply (wait_for_session_ready_outcome session st output).
Qed.

(** X21.  How create_session fails.  When create_session raises, the
    registry is as before and the exception is one of these: at the time
    of the call, the exception mkdtemp raised, the OSError of opening
    one of the two files, or the exception create_subprocess_exec raised
    for the command "bash <project root>/cli-with-persistence.sh" (an
    OSError, or for instance the ValueError for an environment value
    with a NUL character); the TimeoutError of the readiness wait,
    "Session <id> failed to become ready within 300 seconds" with the id
    drawn for the session, 300 s or more after the call, or, when a
    progress report has found the process exited, already 10 s or more
    after it; or the UnicodeDecodeError of a progress report, 10 s or
    more after the call, that found the process exited and could not
    decode its output. *)
Theorem create_session_failures workspace_path st e st' :
  create_session workspace_path st = Some (inl e, st') ->
  sessions st' = sessions st
  /\ ((now st' = now st
       /\ (mkdtemp (lit "cline_session_" ++ uuid4 (draws st) ++ lit "_") (world st)
           = inl e
           \/ (exists path w, e = OSError (strerror path w))
           \/ (exists env w,
                 create_subprocess_exec
                   [lit "bash"; path_join project_root (lit "cli-with-persistence.sh")]
                   project_root env w = inl e)))
      \/ (e = TimeoutError (lit "Session " ++ uuid4 (draws st)
                            ++ lit " failed to become ready within 300 seconds")
          /\ (max_wait <= now st' - now st
              \/ (check_interval <= now st' - now st
                  /\ exists process code,
                       Process_returncode process (world st') = Some code)))
      \/ (exists msg,
            e = UnicodeDecodeError msg
            /\ check_interval <= now st' - now st
            /\ exists process code,
                 Process_returncode process (world st') = Some code)).
Proof.
  unfold create_session, uuid4_str, open_write. unfold_M. simpl.
  destruct (mkdtemp _ (world st)) as [e0|temp_dir] eqn:Ht; simpl;
    [intros [= <- <-]; split; [done|left; split; [done|by left]]|].
  destruct (write_file _ [] _) as [w1|]; simpl;
    [|intros [= <- <-]; split; [done|left; split; [done|right; left; by eexists _, _]]].
  destruct (write_file _ [] _) as [w2|]; simpl;
    [|intros [= <- <-]; split; [done|left; split; [done|right; left; by eexists _, _]]].
  destruct (create_subprocess_exec _ _ _ _) as [e0|[process w3]] eqn:Hstart; simpl;
    [intros [= <- <-]; split; [done|left; split; [done|right; right; by eexists _, _]]|].
  match goal with
  | |- context [_wait_for_session_ready_with_logs ?s ?st1] =>
      destruct (_wait_for_session_ready_with_logs s st1) as [[r st2]|] eqn:Hw;
      [|done];
      pose proof (wait_for_session_ready_outcome s st1 _ r st2 eq_refl Hw) as Hout;
      apply wait_for_session_ready_sound in Hw; destruct Hw as (Hs & _ & _)
  end.
  destruct r as [e'|[]]; simpl; [|done].
  intros [= <- <-]. simpl. split; [by rewrite Hs|]. right.
  simpl in Hout.
  destruct Hout as [(-> & Hwhy)|(msg & -> & Hi & _ & p & code & so & se & _ & Hrc & _)].
  - left. split; [done|].
    destruct Hwhy as [?|(? & p & code & _ & _ & _ & ? & _)]; [by left|right].
    split; [done|]. by exists p, code.
  - right. exists msg. split; [done|]. split; [done|]. by exists p, code.
Qed.

End Props.

End ReadyProps.

(* ===================================================================== *)
(* Properties of the send route                                          *)
(* ===================================================================== *)

Module RoutesProps.

Import Cline.

Section Props.

Context `{Env} `{Routes.Pydantic}.

Lemma details_differ (session_id : str) (status : Status) :
  lit "Session " ++ session_id ++ lit " not found"
  <> lit "Session " ++ session_id ++ lit " is not ready (status: "
     ++ status_str status ++ lit ")".
Proof.
  intros Heq. apply app_inv_head in Heq. apply app_inv_head in Heq.
  vm_compute in Heq. discriminate Heq.
Qed.

(** C8, as amended.  The route answers a request for an unknown session
    and a request for a session that is not ready with the same status
    code, 404, and leaves the state as it was; the two answers differ in
    their detail text only. *)
Theorem send_route_not_found_not_ready session_id message st :
  (sessions st !! session_id = None ->
   Routes.send_message session_id message st
   = Some (inl {| Routes.status_code := 404;
                  Routes.detail := lit "Session " ++ session_id ++ lit " not found" |},
           st))
  /\ (forall session,
        sessions st !! session_id = Some session ->
        Cline.status session <> ready ->
        Routes.send_message session_id message st
        = Some (inl {| Routes.status_code := 404;
                       Routes.detail :=
                         lit "Session " ++ session_id ++ lit " is not ready (status: "
                         ++ status_str (Cline.status session) ++ lit ")" |},
                st)
        /\ lit "Session " ++ session_id ++ lit " not found"
           <> lit "Session " ++ session_id ++ lit " is not ready (status: "
              ++ status_str (Cline.status session) ++ lit ")").
Proof.
  split.
  - intros Hs. unfold Routes.send_message.
    by rewrite (ClineProps.send_message_not_found _ _ _ Hs).
  - intros session Hs Hr. split; [|apply details_differ].
    unfold Routes.send_message.
    by rewrite (ClineProps.send_message_rejects _ _ _ _ Hs Hr).
Qed.

End Props.

End RoutesProps.

(* ===================================================================== *)
(* Properties of the session endpoints                                   *)
(* ===================================================================== *)

Module SessionRoutesProps.

Import Cline ClineProps.
Local Open Scope Z_scope.

Section Props.

Context `{Env} `{Routes.Pydantic}.

Lemma get_session_route_eq session_id app :
  SessionRoutes.get_session session_id app
  = Some (match sessions (SessionRoutes.service app) !! session_id with
          | Some session => inr (SessionRoutes.session_response session)
          | None =>
              inl {| Routes.status_code := 404;
                     Routes.detail := lit "Session " ++ session_id ++ lit " not found" |}
          end, app).
Proof.
  unfold SessionRoutes.get_session, get_session. unfold_M.
  destruct app as [st lg]. simpl. by destruct (sessions st !! session_id).
Qed.

(** X12.  In every state the service reaches from an empty registry,
    the DELETE route answers 404 "Session <id> not found or already
    stopped" for every id, registered or not, and the registry is as
    before: through the API a session cannot be stopped. *)
Theorem stop_route_always_404 session_id app :
  reachable (SessionRoutes.service app) ->
  exists app',
    SessionRoutes.stop_session session_id app
    = Some (inl {| Routes.status_code := 404;
                   Routes.detail := lit "Session " ++ session_id
                                    ++ lit " not found or already stopped" |}, app')
    /\ sessions (SessionRoutes.service app') = sessions (SessionRoutes.service app)
    /\ SessionRoutes.route_log app' = SessionRoutes.route_log app
    /\ SessionRoutes.get_session session_id app'
       = match SessionRoutes.get_session session_id app with
         | Some (r, _) => Some (r, app')
         | None => None
         end.
Proof.
  intros Hreach. unfold SessionRoutes.stop_session.
  assert (exists st', stop_session session_id (SessionRoutes.service app)
                      = Some (inr false, st')
                      /\ sessions st' = sessions (SessionRoutes.service app))
    as (st' & -> & Heq).
  { destruct (sessions (SessionRoutes.service app) !! session_id) as [session|] eqn:Hs.
    - destruct (reachable_sessions_have_process _ Hreach session_id session Hs)
        as [process Hp].
      destruct (stop_session_fails_with_process session_id _ session process Hs Hp)
        as (e & st' & Hstop & Heq & _).
      by exists st'.
    - eexists. split; [by apply stop_session_unknown|]. done. }
  eexists. split; [reflexivity|]. simpl. split; [done|]. split; [done|].
  rewrite !get_session_route_eq. simpl. by rewrite Heq.
Qed.

(** X13.  The GET route shows what a send has done to the session.  For
    a ready session with n messages: after a send_message that
    succeeded the route reports status "ready" and n + 2 messages, after
    one that failed it reports status "error" and n + 1 messages; id,
    workspace and creation time are the same as before. *)
Theorem get_route_after_send session_id message st session r st' lg :
  sessions st !! session_id = Some session ->
  status session = ready ->
  send_message session_id message st = Some (r, st') ->
  SessionRoutes.get_session session_id
    {| SessionRoutes.service := st'; SessionRoutes.route_log := lg |}
  = Some (inr {| SessionRoutes.session_id := Cline.session_id session;
                 SessionRoutes.workspace_path := workspace_path session;
                 SessionRoutes.created_at := created_at session;
                 SessionRoutes.status :=
                   match r with inl _ => lit "error" | inr _ => lit "ready" end;
                 SessionRoutes.message_count :=
                   match r with
                   | inl _ => length (messages session) + 1
                   | inr _ => length (messages session) + 2
                   end |},
          {| SessionRoutes.service := st'; SessionRoutes.route_log := lg |}).
Proof.
  intros Hs Hr Hsend. rewrite get_session_route_eq. simpl.
  destruct (HistoryProps.send_message_effect _ _ _ _ _ Hsend)
    as [(_ & [Hn|(s & Hs' & Hnr)] & _)
       |(target & target' & more & Ht & _ & Heq & Hid & Hw & Hc & _ & _ & _ & Hm & Hres)].
  - congruence.
  - rewrite Hs in Hs'. injection Hs' as <-. done.
  - rewrite Hs in Ht. injection Ht as <-.
    rewrite Heq, lookup_insert_eq. unfold SessionRoutes.session_response.
    rewrite Hid, Hw, Hc, Hm, length_app.
    destruct r as [e|res].
    + destruct Hres as [-> ->]. done.
    + destruct Hres as (a & -> & -> & _). done.
Qed.

(** X14.  The list route, the get route and the health check agree.
    The list route never fails and changes nothing; its total_count is
    the number of registered ids, which is also the active_sessions of
    the health check; and a session response is in the list exactly when
    the get route returns it for some id. *)
Theorem list_route_agrees_with_get app :
  exists resp,
    SessionRoutes.list_sessions app = Some (inr resp, app)
    /\ SessionRoutes.total_count resp = length (SessionRoutes.sessions resp)
    /\ SessionRoutes.total_count resp = size (sessions (SessionRoutes.service app))
    /\ SessionRoutes.total_count resp
       = SessionRoutes.active_sessions (SessionRoutes.health_check app)
    /\ (forall r, r ∈ SessionRoutes.sessions resp
                  <-> exists id, SessionRoutes.get_session id app = Some (inr r, app)).
Proof.
  unfold SessionRoutes.list_sessions, list_sessions. unfold_M.
  destruct app as [st lg]. simpl. eexists. split; [reflexivity|]. simpl.
  split; [done|].
  assert (length (SessionRoutes.session_response <$> (map_to_list (sessions st)).*2)
          = size (sessions st)) as Hlen
    by (by rewrite !length_fmap, length_map_to_list).
  split; [done|]. split; [done|].
  intros r. rewrite list_elem_of_fmap. split.
  - intros (session & -> & Hin). apply list_elem_of_fmap in Hin as ([id s] & -> & Hin).
    apply elem_of_map_to_list in Hin. exists id.
    rewrite get_session_route_eq. simpl. by rewrite Hin.
  - intros (id & Hget). rewrite get_session_route_eq in Hget. simpl in Hget.
    destruct (sessions st !! id) as [session|] eqn:Hs; [|done].
    injection Hget as <-. exists session. split; [done|].
    apply list_elem_of_fmap. exists (id, session). split; [done|].
    by apply elem_of_map_to_list.
Qed.


(** X16.  A session the create route has answered with can be fetched.
    When the create route returns a session response, the response has
    status "ready" and message_count 0, its workspace is the one of the
    request, or "/home/newton/swe_bench_reproducer" when the request
    has no body, no workspace or an empty one, and the get route returns
    the very same response for its id; when the create route fails, it
    fails with 500 and the registry is as before. *)
Theorem created_session_can_be_fetched request app out app' :
  SessionRoutes.create_session request app = Some (out, app') ->
  match out with
  | inr resp =>
      SessionRoutes.status resp = lit "ready"
      /\ SessionRoutes.message_count resp = 0%nat
      /\ SessionRoutes.workspace_path resp
         = match request with
           | Some {| SessionRoutes.request_workspace_path := Some (c :: path) |} =>
               c :: path
           | _ => lit "/home/newton/swe_bench_reproducer"
           end
      /\ SessionRoutes.get_session (SessionRoutes.session_id resp) app'
         = Some (inr resp, app')
  | inl err =>
      Routes.status_code err = 500
      /\ sessions (SessionRoutes.service app') = sessions (SessionRoutes.service app)
  end.
Proof.
  unfold SessionRoutes.create_session.
  set (workspace_path := match request with
                         | Some r => SessionRoutes.request_workspace_path r
                         | None => None
                         end).
  destruct (create_session workspace_path (SessionRoutes.service app))
    as [[[e|session] st1]|] eqn:Hc; [| |done].
  - pose proof (create_session_outcome _ _ _ _ Hc) as Hr.
    intros [= <- <-]. done.
  - destruct (HistoryProps.create_session_shape _ _ _ _ Hc)
      as (temp_dir & process & -> & _ & Heq & _).
    intros [= <- <-]. split; [done|]. split; [done|]. split.
    + subst workspace_path. destruct request as [[[[|c path]|]]|]; done.
    + rewrite get_session_route_eq. simpl. rewrite Heq.
      change (Cline.session_id _) with (uuid4 (draws (SessionRoutes.service app))).
      by rewrite lookup_insert_eq.
Qed.

End Props.

End SessionRoutesProps.

(* ===================================================================== *)
(* Properties of the review endpoint                                     *)
(* ===================================================================== *)

Module ReviewApiProps.

Import Review ReviewApi ParserProps.
Local Open Scope Z_scope.

Section Props.

Context `{Host}.

Lemma run_coderabbit_cli_returns workspace timeout result log :
  run_coderabbit_cli workspace timeout = (inr result, log) ->
  exists wait_for minutes stdout_str stderr_str,
    npm_run_coderabbit workspace = Started wait_for
    /\ timeout = Some minutes
    /\ wait_for (minutes * 60)
       = Exits 0 (Cline.Text stdout_str) (Cline.Text stderr_str)
    /\ result = {| result_success := true;
                   result_comments :=
                     fst (parse_coderabbit_output int strftime stdout_str);
                   result_output := stdout_str;
                   process_code := 0 |}.
Proof.
  unfold run_coderabbit_cli, internal_error.
  destruct (npm_run_coderabbit workspace) as [e|wait_for] eqn:Hs; [done|].
  destruct timeout as [minutes|]; [|done].
  destruct (wait_for (minutes * 60)) as [[e|]|e|returncode [out|e] [err|e']] eqn:Hw;
    try done.
  destruct (returncode =? 0) eqn:Hrc; [|done]. apply Z.eqb_eq in Hrc as ->.
  destruct (parse_coderabbit_output int strftime out) as [comments parser_log] eqn:Hp.
  simpl. intros [= <- <-]. exists wait_for, minutes, out, err. by rewrite Hp.
Qed.

(* The errors of run_coderabbit_cli. *)
Lemma run_coderabbit_cli_raises workspace timeout e log :
  run_coderabbit_cli workspace timeout = (inl e, log) ->
  (Routes.status_code e = 408 \/ Routes.status_code e = 500)
  /\ (Routes.status_code e = 408
      <-> exists wait_for minutes,
            npm_run_coderabbit workspace = Started wait_for
            /\ timeout = Some minutes
            /\ wait_for (minutes * 60) = Expires None)
  /\ (forall wait_for minutes returncode stdout stderr,
        npm_run_coderabbit workspace = Started wait_for ->
        timeout = Some minutes ->
        wait_for (minutes * 60) = Exits returncode stdout stderr ->
        match stdout, stderr with
        | Cline.Text _, Cline.Text stderr_str =>
            returncode <> 0
            /\ e = {| Routes.status_code := 500;
                      Routes.detail := lit "CodeRabbit CLI failed: "
                                       ++ take 500 stderr_str |}
            /\ (length (Routes.detail e) <= 523)%nat
        | Cline.Undecodable msg, _ | Cline.Text _, Cline.Undecodable msg =>
            e = {| Routes.status_code := 500;
                   Routes.detail := lit "Internal error running CodeRabbit: " ++ msg |}
        end).
Proof.
  assert (forall x : str,
            (length (lit "CodeRabbit CLI failed: " ++ take 500 x) <= 523)%nat) as Hbound.
  { intros x. rewrite length_app, length_take.
    change (length (lit "CodeRabbit CLI failed: ")) with 23%nat. lia. }
  unfold run_coderabbit_cli, internal_error.
  destruct (npm_run_coderabbit _) as [se|wait_for].
  { intros [= <- <-]. simpl. split; [by right|]. split; [|done].
    split; [done|]. by intros (? & ? & ? & _). }
  destruct timeout as [minutes|].
  2:{ intros [= <- <-]. simpl. split; [by right|]. split; [|done].
      split; [done|]. by intros (? & ? & _ & ? & _). }
  destruct (wait_for (minutes * 60)) as [[ce|]|ce|returncode [out|msg] [err|msg']] eqn:Hw.
  - intros [= <- <-]. simpl. split; [by right|]. split.
    + split; [done|]. intros (w & m & [= <-] & [= <-] & Hw'). congruence.
    + intros w m rc so se [= <-] [= <-] Hw'. congruence.
  - intros [= <- <-]. simpl. split; [by left|]. split.
    + split; [|done]. intros _. by exists wait_for, minutes.
    + intros w m rc so se [= <-] [= <-] Hw'. congruence.
  - intros [= <- <-]. simpl. split; [by right|]. split.
    + split; [done|]. intros (w & m & [= <-] & [= <-] & Hw'). congruence.
    + intros w m rc so se [= <-] [= <-] Hw'. congruence.
  - destruct (returncode =? 0) eqn:Hrc; simpl.
    { by destruct (parse_coderabbit_output int strftime out). }
    apply Z.eqb_neq in Hrc.
    intros [= <- <-]. simpl. split; [by right|]. split.
    + split; [done|]. intros (w & m & [= <-] & [= <-] & Hw'). congruence.
    + intros w m rc so se [= <-] [= <-] Hw'. rewrite Hw in Hw'.
      injection Hw' as <- <- <-. split; [exact Hrc|]. split; [reflexivity|].
      apply Hbound.
  - intros [= <- <-]. simpl. split; [by right|]. split.
    + split; [done|]. intros (w & m & [= <-] & [= <-] & Hw'). congruence.
    + intros w m rc so se [= <-] [= <-] Hw'. rewrite Hw in Hw'.
      by injection Hw' as <- <- <-.
  - intros [= <- <-]. simpl. split; [by right|]. split.
    + split; [done|]. intros (w & m & [= <-] & [= <-] & Hw'). congruence.
    + intros w m rc so se [= <-] [= <-] Hw'. rewrite Hw in Hw'.
      by injection Hw' as <- <- <-.
  - intros [= <- <-]. simpl. split; [by right|]. split.
    + split; [done|]. intros (w & m & [= <-] & [= <-] & Hw'). congruence.
    + intros w m rc so se [= <-] [= <-] Hw'. rewrite Hw in Hw'.
      by injection Hw' as <- <- <-.
Qed.

(** X18.  A review that is answered holds at least one comment.  When
    review_workspace returns a response, the workspace path exists and
    is a directory, the CLI was started, ended in time and exited with
    code 0, and both of its streams were decoded; the response has
    success true, its comments are the ones the parser reads from the
    standard output of the CLI, its comment_count is their number, and
    this number is at least 1, also when the CLI has printed nothing. *)
Theorem review_answer_has_a_comment request response log :
  review_workspace request = (inr response, log) ->
  Path_exists (workspace_path request) = inr true
  /\ Path_is_dir (workspace_path request) = inr true
  /\ success response = true
  /\ comment_count response = length (comments response)
  /\ (1 <= comment_count response)%nat
  /\ session_id response = lit "coderabbit-api-session"
  /\ exists absolute wait_for minutes stdout_str stderr_str,
       Path_absolute (workspace_path request) = inr absolute
       /\ npm_run_coderabbit absolute = Started wait_for
       /\ timeout_minutes request = Some minutes
       /\ wait_for (minutes * 60)
          = Exits 0 (Cline.Text stdout_str) (Cline.Text stderr_str)
       /\ comments response = fst (parse_coderabbit_output int strftime stdout_str).
Proof.
  unfold review_workspace, unexpected.
  destruct (Path_exists (workspace_path request)) as [e|[]]; [done| |done].
  destruct (Path_is_dir (workspace_path request)) as [e|[]]; [done| |done]. simpl.
  destruct (Path_absolute (workspace_path request)) as [e|absolute]; [done|].
  destruct (run_coderabbit_cli _ _) as [[e|result] cli_log] eqn:Hrun; [done|].
  apply run_coderabbit_cli_returns in Hrun
    as (wait_for & minutes & out & err & Hs & Ht & Hw & ->).
  intros [= <- <-]. simpl. repeat split; try done.
  - apply parse_comments_nonempty.
  - by exists absolute, wait_for, minutes, out, err.
Qed.

(** X19.  The errors of the review endpoint.  When review_workspace
    raises, the status code is 400, 408 or 500: 400 exactly when the
    workspace path does not exist, or exists and is no directory; 408
    exactly when the path has passed these checks, the CLI was started
    and the wait expired with the process killed.  An OSError of the
    test of the path is answered with 500 "Internal server error: ...".
    A CLI that has ended in time is answered with 500: "Internal error
    running CodeRabbit: ..." when one of its streams does not decode,
    whatever its exit code; and, when both decode and the exit code is
    other than 0, a detail that holds at most the first 500 characters
    of its standard error, whatever comments its standard output
    holds. *)
Theorem review_error_codes request e log :
  review_workspace request = (inl e, log) ->
  (Routes.status_code e = 400 \/ Routes.status_code e = 408
   \/ Routes.status_code e = 500)
  /\ (Routes.status_code e = 400
      <-> Path_exists (workspace_path request) = inr false
          \/ (Path_exists (workspace_path request) = inr true
              /\ Path_is_dir (workspace_path request) = inr false))
  /\ (Routes.status_code e = 408
      <-> Path_exists (workspace_path request) = inr true
          /\ Path_is_dir (workspace_path request) = inr true
          /\ exists absolute wait_for minutes,
               Path_absolute (workspace_path request) = inr absolute
               /\ npm_run_coderabbit absolute = Started wait_for
               /\ timeout_minutes request = Some minutes
               /\ wait_for (minutes * 60) = Expires None)
  /\ (forall msg,
        Path_exists (workspace_path request) = inl msg
        \/ (Path_exists (workspace_path request) = inr true
            /\ Path_is_dir (workspace_path request) = inl msg) ->
        e = {| Routes.status_code := 500;
               Routes.detail := lit "Internal server error: " ++ msg |})
  /\ (forall absolute wait_for minutes returncode stdout stderr,
        Path_exists (workspace_path request) = inr true ->
        Path_is_dir (workspace_path request) = inr true ->
        Path_absolute (workspace_path request) = inr absolute ->
        npm_run_coderabbit absolute = Started wait_for ->
        timeout_minutes request = Some minutes ->
        wait_for (minutes * 60) = Exits returncode stdout stderr ->
        match stdout, stderr with
        | Cline.Text _, Cline.Text stderr_str =>
            returncode <> 0
            /\ e = {| Routes.status_code := 500;
                      Routes.detail := lit "CodeRabbit CLI failed: "
                                       ++ take 500 stderr_str |}
            /\ (length (Routes.detail e) <= 523)%nat
        | Cline.Undecodable msg, _ | Cline.Text _, Cline.Undecodable msg =>
            e = {| Routes.status_code := 500;
                   Routes.detail := lit "Internal error running CodeRabbit: " ++ msg |}
        end).
Proof.
  unfold review_workspace, unexpected.
  destruct (Path_exists (workspace_path request)) as [msg|[]] eqn:Hex; simpl.
  - intros [= <- <-]. simpl. split; [by right; right|].
    split; [split; [done|by intros [?|[? _]]]|].
    split; [split; [done|by intros (? & _)]|].
    split; [|done]. by intros msg' [[= <-]|[? _]].
  - destruct (Path_is_dir (workspace_path request)) as [msg|[]] eqn:Hdir; simpl.
    + intros [= <- <-]. simpl. split; [by right; right|].
      split; [split; [done|by intros [?|[_ ?]]]|].
      split; [split; [done|by intros (_ & ? & _)]|].
      split; [|done]. by intros msg' [?|[_ [= <-]]].
    + destruct (Path_absolute (workspace_path request)) as [msg|absolute] eqn:Habs.
      { intros [= <- <-]. simpl. split; [by right; right|].
        split; [split; [done|by intros [?|[_ ?]]]|].
        split; [split; [done|by intros (_ & _ & ? & ? & ? & ? & _)]|].
        split; [by intros msg' [?|[_ ?]]|done]. }
      destruct (run_coderabbit_cli _ _) as [[e0|result] cli_log] eqn:Hrun; [|done].
      intros [= <- <-].
      destruct (run_coderabbit_cli_raises _ _ _ _ Hrun) as (Hcode & H408 & Hexit).
      split; [destruct Hcode; by auto|].
      split; [split; [intros He; destruct Hcode; congruence|by intros [?|[_ ?]]]|].
      split.
      { rewrite H408. split.
        - intros (w & m & ? & ? & ?). split; [done|]. split; [done|].
          by exists absolute, w, m.
        - intros (_ & _ & a & w & m & [= <-] & ? & ? & ?). by exists w, m. }
      split; [by intros msg' [?|[_ ?]]|].
      intros a w m rc so se _ _ [= <-]. apply Hexit.
    + intros [= <- <-]. simpl. split; [by left|].
      split; [split; [by right|done]|].
      split; [split; [done|by intros (_ & ? & _)]|].
      split; [|done]. by intros msg' [?|[_ ?]].
  - intros [= <- <-]. simpl. split; [by left|].
    split; [split; [by left|done]|].
    split; [split; [done|by intros (? & _)]|].
    split; [|done]. by intros msg' [?|[? _]].
Qed.

End Props.

End ReviewApiProps.

(* ===================================================================== *)
(* The statements on the concrete runs                                   *)
(* ===================================================================== *)

Module Runs.

Import Cline Examples ClineProps.
Local Open Scope Z_scope.

(* The output file holds the marker and one reply with messageId 1; the
   session has consumed nothing yet. *)
Lemma responses_consumed_in_order_witness :
  ((has_key (lit "response") reply || has_key (lit "error") reply = true)
   /\ exists n, sequence_number reply = Some n
                /\ default 0 (_last_response_id (session1 ready)) < n
                /\ _last_response_id (set_last_response_id 1 (session1 ready)) = Some n)
  /\ (increasing_from (default 0 (_last_response_id (session1 ready))) [reply]
      /\ Forall (fun d => has_key (lit "response") d || has_key (lit "error") d = true)
                [reply]).
Proof.
  assert (@_wait_for_response (machine None) (session1 ready)
            (state1 ready replied_text running 0)
          = Some (inr (reply, set_last_response_id 1 (session1 ready)),
                  state1 ready replied_text running 0)) as Hw
    by (vm_compute; reflexivity).
  split.
  - exact (proj1 (@responses_consumed_in_order (machine None)) _ _ _ _ _ Hw).
  - apply (proj2 (@responses_consumed_in_order (machine None))
                 (session1 ready) [reply] (set_last_response_id 1 (session1 ready))).
    eapply consumes_reply; [exact Hw|apply consumes_nil].
Defined.

(** C2, what the code does.  A reply that carries an error item and a
    fresh sequence number is returned by send_message as a success with
    an empty response, and the session is ready again; a reply that
    carries an error item and no sequence number is never consumed, and
    send_message ends with the timeout of the wait. *)
Theorem error_reply_returned_as_success :
  (has_key (lit "error") error_reply = true
   /\ exists st',
        @send_message (machine (Some failed_text)) (lit "s1") (lit "hello")
          (state1 ready ready_text running 0)
        = Some (inr {| r_session_id := lit "s1"; r_message_id := lit "uuid-1";
                       r_response := JStr []; r_status := lit "success" |}, st')
        /\ status <$> sessions st' !! lit "s1" = Some ready
        /\ map m_content <$> (messages <$> sessions st' !! lit "s1")
           = Some [JStr (lit "hello"); JStr []])
  /\ (has_key (lit "error") plain_error_reply = true
      /\ exists st',
           @send_message (machine (Some plain_failed_text)) (lit "s1") (lit "hello")
             (state1 ready ready_text running 0)
           = Some (inl (TimeoutError (lit "No response received within 300 seconds")), st')
           /\ now st' = seconds 300).
Proof.
  split.
  - split; [reflexivity|].
    eexists. split; [vm_compute; reflexivity|].
    split; vm_compute; reflexivity.
  - split; [reflexivity|].
    eexists. split; vm_compute; reflexivity.
Qed.



(* A session made by create_session, then stopped. *)
Lemma state_created_reachable : @reachable (machine (Some ready_text)) state_created.
Proof.
  eapply (@reachable_create (machine (Some ready_text)) state0 None
            (inr (set_status ready
                    (set_cli_process 7%N
                       (set_files input_path output_path
                          (@new_session (lit "uuid-0") None 0)))))).
  - by apply reachable_start.
  - vm_compute. reflexivity.
Defined.

Lemma stop_session_never_removes_witness :
  is_Some (sessions state_created !! lit "uuid-0")
  /\ exists st',
       @stop_session (machine (Some ready_text)) (lit "uuid-0") state_created
       = Some (inr false, st')
       /\ sessions st' = sessions state_created
       /\ (forall id, fst <$> get_session id st' = fst <$> get_session id state_created)
       /\ fst <$> list_sessions st' = fst <$> list_sessions state_created.
Proof.
  split.
  - vm_compute. eexists. reflexivity.
  - exact (@stop_session_never_removes (machine (Some ready_text)) state_created
             (lit "uuid-0") state_created_reachable).
Defined.

(* A message for session s1 while it is processing. *)
Lemma send_message_not_ready_no_write_witness :
  exists msg st',
    @send_message (machine None) (lit "s1") (lit "hello")
      (state1 processing ready_text running 0)
    = Some (inl (ValueError msg), st')
    /\ st' = state1 processing ready_text running 0
    /\ (forall path, read_file path (world st')
                     = read_file path (world (state1 processing ready_text running 0)))
    /\ sessions st' !! lit "s1" = Some (session1 processing).
Proof.
  apply (@send_message_not_ready_no_write (machine None)).
  - vm_compute. reflexivity.
  - discriminate.
Defined.

(* A message the external process never answers: the wait times out. *)
Lemma failed_send_keeps_user_message_witness :
  exists e st',
    @send_message (machine None) (lit "s1") (lit "hello") (state1 ready ready_text running 0)
    = Some (inl e, st')
    /\ exists session',
         sessions st' !! lit "s1" = Some session'
         /\ messages session'
            = messages (session1 ready)
              ++ [@user_message_of (machine None) (lit "hello")
                    (state1 ready ready_text running 0)]
         /\ status session' = error.
Proof.
  eexists _, _. split.
  - vm_compute. reflexivity.
  - eapply (@failed_send_keeps_user_message (machine None) (lit "s1") (lit "hello")
              (state1 ready ready_text running 0) (session1 ready)).
    + vm_compute. reflexivity.
    + reflexivity.
    + vm_compute. reflexivity.
Defined.


(* A cycle 10 s after the start of the wait, the process having exited
   with code 1. *)
Lemma exited_process_ends_wait_at_report_witness :
  @ready_loop (machine None) 1 (session1 initializing) 0 0
    (state1 initializing [] exited (seconds 10))
  = Some (inl (TimeoutError (lit "Session " ++ lit "s1"
                             ++ lit " failed to become ready within 300 seconds")),
          logged [StillWaiting (lit "s1") (seconds 10); ProcessExited 1;
                  ProcessStdout (lit "boom"); ProcessStderr (lit "no display");
                  TimedOut (lit "s1")]
                 (state1 initializing [] exited (seconds 10))).
Proof.
  assert (check_interval <= now (state1 initializing [] exited (seconds 10)) - 0) as Hi
    by (vm_compute; discriminate).
  assert (Process_returncode 7%N (world (state1 initializing [] exited (seconds 10)))
          = Some 1) as Hrc by (vm_compute; reflexivity).
  exact (proj1 (@exited_process_ends_wait_at_report (machine None) 0
                  (session1 initializing) 0 0
                  (state1 initializing [] exited (seconds 10)) eq_refl)
               Hi 7%N 1 exit_stdout exit_stderr eq_refl Hrc eq_refl).
Defined.

(* The process has exited before the wait starts, its pipes hold text
   that is read at once, and the output file stays empty: the wait goes
   through the cycles at 0, 2, 4, 6 and 8 s and ends in the cycle at
   10 s, with an exception whose message holds neither the stdout nor
   the stderr of the process. *)
Lemma exited_process_not_noticed_at_next_poll :
  Process_returncode 7%N (world (state1 initializing [] exited 0)) = Some 1
  /\ @communicate (machine None) 7%N (world (state1 initializing [] exited 0))
     = Streams (Text exit_stdout) (Text exit_stderr)
  /\ exists st',
       @_wait_for_session_ready_with_logs (machine None) (session1 initializing)
         (state1 initializing [] exited 0)
       = Some (inl (TimeoutError
                      (lit "Session s1 failed to become ready within 300 seconds")), st')
       /\ now st' = now (state1 initializing [] exited 0) + seconds 10
       /\ seconds 2 < now st' - now (state1 initializing [] exited 0)
       /\ contains exit_stdout
                   (lit "Session s1 failed to become ready within 300 seconds") = false
       /\ contains exit_stderr
                   (lit "Session s1 failed to become ready within 300 seconds") = false.
Proof.
  split; [vm_compute; reflexivity|]. split; [reflexivity|].
  eexists. split; [vm_compute; reflexivity|].
  repeat split; vm_compute; reflexivity.
Qed.

End Runs.

Module RoutesRuns.

Import Cline Examples.
Local Open Scope Z_scope.

(* Session s1 is processing and there is no session s2. *)
Lemma send_route_not_found_not_ready_witness :
  @Routes.send_message (machine None) strict (lit "s2") (lit "hello")
    (state1 processing ready_text running 0)
  = Some (inl {| Routes.status_code := 404;
                 Routes.detail := lit "Session " ++ lit "s2" ++ lit " not found" |},
          state1 processing ready_text running 0)
  /\ (@Routes.send_message (machine None) strict (lit "s1") (lit "hello")
        (state1 processing ready_text running 0)
      = Some (inl {| Routes.status_code := 404;
                     Routes.detail :=
                       lit "Session " ++ lit "s1" ++ lit " is not ready (status: "
                       ++ status_str (Cline.status (session1 processing)) ++ lit ")" |},
              state1 processing ready_text running 0)
      /\ lit "Session " ++ lit "s1" ++ lit " not found"
         <> lit "Session " ++ lit "s1" ++ lit " is not ready (status: "
            ++ status_str (Cline.status (session1 processing)) ++ lit ")").
Proof.
  split.
  - apply (proj1 (@RoutesProps.send_route_not_found_not_ready (machine None) strict (lit "s2")
                    (lit "hello") (state1 processing ready_text running 0))).
    vm_compute. reflexivity.
  - apply (proj2 (@RoutesProps.send_route_not_found_not_ready (machine None) strict (lit "s1")
                    (lit "hello") (state1 processing ready_text running 0))
                 (session1 processing)).
    + vm_compute. reflexivity.
    + discriminate.
Defined.

(* The unknown id and the session that is not ready get the same code. *)
Lemma not_found_and_not_ready_same_code :
  sessions (state1 processing ready_text running 0) !! lit "s2" = None
  /\ Cline.status <$> sessions (state1 processing ready_text running 0) !! lit "s1"
     = Some processing
  /\ exists a b st1 st2,
       @Routes.send_message (machine None) strict (lit "s2") (lit "hello")
         (state1 processing ready_text running 0) = Some (inl a, st1)
       /\ @Routes.send_message (machine None) strict (lit "s1") (lit "hello")
            (state1 processing ready_text running 0) = Some (inl b, st2)
       /\ Routes.status_code a = 404
       /\ Routes.status_code b = 404
       /\ Routes.status_code a = Routes.status_code b.
Proof.
  split; [vm_compute; reflexivity|]. split; [vm_compute; reflexivity|].
  eexists _, _, _, _. repeat split; vm_compute; reflexivity.
Qed.

End RoutesRuns.

Module ReviewRuns.

Import Review Examples.

(* Two extracted comments of more than ten characters among four lines,
   and an output without the marker. *)
Lemma parse_two_extracted_witness :
  fst (parse_coderabbit_output digits_int (lit "2025-01-01T00:00:00Z") review_output)
  = [extracted_comment (lit "Consider renaming this variable") (lit "2025-01-01T00:00:00Z");
     extracted_comment (lit "Missing null check in the handler") (lit "2025-01-01T00:00:00Z")]
  /\ fst (parse_coderabbit_output digits_int (lit "2025-01-01T00:00:00Z")
            (lit "Review finished, nothing to report"))
     = [placeholder (lit "2025-01-01T00:00:00Z")].
Proof.
  split.
  - apply (proj1 (ReviewProps.parse_two_extracted digits_int (lit "2025-01-01T00:00:00Z")
                    review_output)
                 (extracted_sep ++ lit "Consider renaming this variable...")
                 (extracted_sep ++ lit "Missing null check in the handler")).
    + vm_compute. reflexivity.
    + vm_compute. reflexivity.
    + vm_compute. lia.
    + vm_compute. reflexivity.
    + vm_compute. lia.
  - apply (proj2 (ReviewProps.parse_two_extracted digits_int (lit "2025-01-01T00:00:00Z")
                    (lit "Review finished, nothing to report"))).
    vm_compute. reflexivity.
Defined.

(* Two lines with the marker and a summary that counts 2, the first
   comment being "Fix typo.": one comment is returned. *)
Lemma short_extract_dropped :
  length (filter (fun l => contains extracted_marker l = true)
                 (split nl review_output_short)) = 2%nat
  /\ snd (parse_coderabbit_output digits_int (lit "2025-01-01T00:00:00Z")
            review_output_short) = [Expected 2]
  /\ length (fst (parse_coderabbit_output digits_int (lit "2025-01-01T00:00:00Z")
                    review_output_short)) = 1%nat.
Proof. repeat split; vm_compute; reflexivity. Qed.

End ReviewRuns.

(* ===================================================================== *)
(* More statements on concrete runs                                      *)
(* ===================================================================== *)

Module MoreRuns.

Import Cline Examples MoreExamples ClineProps.
Local Open Scope Z_scope.


Lemma state_replied_eq :
  @send_message (machine (Some replied_text)) (lit "s1") (lit "hello")
    (state1 ready ready_text running 0)
  = Some (inr done_result, state_replied).
Proof. vm_compute. reflexivity. Qed.

Lemma state_failed_eq :
  @send_message (machine None) (lit "s1") (lit "hello") (state1 ready ready_text running 0)
  = Some (inl (TimeoutError (lit "No response received within 300 seconds")),
          state_failed).
Proof. vm_compute. reflexivity. Qed.

(* The last message of the two that s1 holds after the exchange. *)
Lemma get_session_messages_window_witness :
  exists older recent,
    get_session_messages (lit "s1") 1 state_replied = Some (inr recent, state_replied)
    /\ messages session1_replied = older ++ recent
    /\ length recent = 1%nat.
Proof.
  apply (HistoryProps.get_session_messages_window (lit "s1") 1 state_replied
           session1_replied).
  vm_compute. reflexivity.
Defined.

(* The exchange on s1. *)
Lemma send_message_keeps_history_witness :
  (forall id session,
      sessions (state1 ready ready_text running 0) !! id = Some session ->
      exists session' more,
        sessions state_replied !! id = Some session'
        /\ messages session' = messages session ++ more
        /\ Cline.session_id session' = Cline.session_id session
        /\ workspace_path session' = workspace_path session
        /\ created_at session' = created_at session
        /\ cli_process session' = cli_process session
        /\ input_file session' = input_file session
        /\ output_file session' = output_file session
        /\ (id <> lit "s1" -> session' = session))
  /\ (forall id, sessions (state1 ready ready_text running 0) !! id = None ->
                 sessions state_replied !! id = None).
Proof.
  exact (@HistoryProps.send_message_keeps_history (machine (Some replied_text))
           (lit "s1") (lit "hello") (state1 ready ready_text running 0)
           (inr done_result) state_replied state_replied_eq).
Defined.

Lemma sent_exchange_ends_history_witness :
  exists u a,
    get_session_messages (lit "s1") 2 state_replied = Some (inr [u; a], state_replied)
    /\ m_type u = user /\ m_content u = JStr (lit "hello")
    /\ m_type a = agent /\ m_id a = r_message_id done_result
    /\ m_content a = r_response done_result.
Proof.
  exact (@HistoryProps.sent_exchange_ends_history (machine (Some replied_text))
           (lit "s1") (lit "hello") (state1 ready ready_text running 0)
           done_result state_replied state_replied_eq).
Defined.

(* A second message after the timeout, 100 s later, the output file
   then holding a reply. *)
Lemma send_after_failed_send_rejected_witness :
  @send_message (machine None) (lit "s1") (lit "again")
    (set_world (world1 replied_text running) (set_now (seconds 400) state_failed))
  = Some (inl (ValueError (lit "Session " ++ lit "s1"
                           ++ lit " is not ready (status: error)")),
          set_world (world1 replied_text running) (set_now (seconds 400) state_failed)).
Proof.
  apply (@HistoryProps.send_after_failed_send_rejected (machine None) (lit "s1")
           (lit "hello") (state1 ready ready_text running 0) (session1 ready)
           (TimeoutError (lit "No response received within 300 seconds")) state_failed).
  - vm_compute. reflexivity.
  - reflexivity.
  - exact state_failed_eq.
Defined.

(* The session create_session has registered. *)
Lemma registered_sessions_invariant_witness :
  Cline.session_id session_created = lit "uuid-0"
  /\ (status session_created = ready \/ status session_created = error
      \/ status session_created = processing)
  /\ is_Some (cli_process session_created)
  /\ is_Some (input_file session_created) /\ is_Some (output_file session_created)
  /\ workspace_path session_created <> [].
Proof.
  apply (@HistoryProps.registered_sessions_invariant (machine (Some ready_text))
           state_created (lit "uuid-0") session_created Runs.state_created_reachable).
  vm_compute. reflexivity.
Defined.

(* A send to s1 that is cancelled during its wait leaves s1 in status
   "processing", in a state the service has reached. *)
Lemma cancelled_send_leaves_processing :
  @reachable (machine (Some ready_text)) state_cancelled
  /\ status <$> sessions state_cancelled !! lit "uuid-0" = Some processing
  /\ length <$> (messages <$> sessions state_cancelled !! lit "uuid-0") = Some 1%nat.
Proof.
  split; [|split; vm_compute; reflexivity].
  unfold state_cancelled.
  destruct (write_file input_path (lit "hello") (world state_created)) as [w|] eqn:Hw;
    [|vm_compute in Hw; discriminate Hw].
  apply (@reachable_cancelled (machine (Some ready_text)) state_created
           (lit "uuid-0") (lit "hello") session_created input_path w).
  - exact Runs.state_created_reachable.
  - vm_compute. reflexivity.
  - reflexivity.
  - reflexivity.
  - exact Hw.
Qed.


(* A reply with messageId 1 followed by an error record without
   messageId, nothing consumed yet. *)
Lemma newest_fresh_reply_wins_witness :
  @poll_response (machine None) (session1 ready) 0 (state1 ready stale_text running 0)
  = Some (inr (Some (reply, 1)), state1 ready stale_text running 0).
Proof.
  apply (@ScanProps.newest_fresh_reply_wins (machine None) (session1 ready) 0
           (state1 ready stale_text running 0) output_path stale_text
           [lit "SESSION_READY"] reply_line [plain_error_line] reply 1).
  - reflexivity.
  - vm_compute. reflexivity.
  - vm_compute. reflexivity.
  - vm_compute. reflexivity.
  - reflexivity.
  - lia.
  - constructor; [|constructor].
    assert (@reply_of (machine None) plain_error_line = Reply plain_error_reply) as ->
      by (vm_compute; reflexivity).
    exists 0. split; [reflexivity|lia].
Defined.

(* A reply with messageId 1 followed by a reply with messageId "7". *)
Lemma unorderable_id_blocks_poll_witness :
  (exists msg,
     @poll_response machine_text_id (session1 ready) 0
       (state1 ready text_id_text running 0)
     = Some (inr None,
             logged [ResponseReadError (TypeError msg)]
                    (state1 ready text_id_text running 0)))
  /\ @reply_at machine_text_id (session1 ready) 0
       (world (state1 ready text_id_text running 0)) = None.
Proof.
  apply (@ScanProps.unorderable_id_blocks_poll machine_text_id (session1 ready) 0
           (state1 ready text_id_text running 0) output_path text_id_text
           [lit "SESSION_READY"; reply_line] text_id_line [] text_id_reply).
  - reflexivity.
  - vm_compute. reflexivity.
  - vm_compute. reflexivity.
  - vm_compute. reflexivity.
  - reflexivity.
  - constructor.
Defined.

(* The session create_session has registered, its process running. *)
Lemma failed_stop_deletes_nothing_witness :
  exists st' w,
    @stop_session (machine (Some ready_text)) (lit "uuid-0") state_created
    = Some (inr false, st')
    /\ sessions st' = sessions state_created
    /\ (world st' = w \/ world st' = @elapse (machine (Some ready_text)) (now st') w)
    /\ dirs w = dirs (world state_created)
    /\ (forall path, is_Some (files w !! path)
                     <-> is_Some (files (world state_created) !! path))
    /\ (forall path, input_file session_created <> Some path ->
          files w !! path = files (world state_created) !! path)
    /\ (forall q, sigkill (proc_of q w) = sigkill (proc_of q (world state_created))).
Proof.
  apply (@StopProps.failed_stop_deletes_nothing (machine (Some ready_text)) (lit "uuid-0")
           state_created session_created 7%N).
  - vm_compute. reflexivity.
  - reflexivity.
Defined.

(* The wait for s1 on the machine whose process writes the marker
   during the first sleep. *)
Lemma ready_wait_outcome_witness :
  exists r st',
    @_wait_for_session_ready_with_logs (machine (Some ready_text)) (session1 initializing)
      (state1 initializing [] running 0) = Some (r, st')
    /\ sessions st' = sessions (state1 initializing [] running 0)
    /\ match r with
       | inr _ =>
           ready_at (session1 initializing) (world st') = true
           /\ now st' - now (state1 initializing [] running 0) < max_wait
       | inl e =>
           (e = TimeoutError (lit "Session " ++ session_id (session1 initializing)
                              ++ lit " failed to become ready within 300 seconds")
            /\ (max_wait <= now st' - now (state1 initializing [] running 0)
                \/ (check_interval <= now st' - now (state1 initializing [] running 0)
                    /\ exists process code out err,
                         cli_process (session1 initializing) = Some process
                         /\ Process_returncode process (world st') = Some code
                         /\ @communicate (machine (Some ready_text)) process (world st')
                            = Streams (Text out) (Text err))))
           \/ (exists msg,
                 e = UnicodeDecodeError msg
                 /\ check_interval <= now st' - now (state1 initializing [] running 0)
                 /\ now st' - now (state1 initializing [] running 0) < max_wait
                 /\ exists process code stdout stderr,
                      cli_process (session1 initializing) = Some process
                      /\ Process_returncode process (world st') = Some code
                      /\ @communicate (machine (Some ready_text)) process (world st')
                         = Streams stdout stderr
                      /\ (stdout = Undecodable msg \/ stderr = Undecodable msg))
       end.
Proof.
  apply (@ReadyProps.ready_wait_outcome (machine (Some ready_text)) (session1 initializing)
           (state1 initializing [] running 0) output_path).
  - reflexivity.
  - discriminate.
Defined.

(* create_session on the machine whose process never writes. *)
Lemma create_session_failures_witness :
  sessions state_create_failed = sessions state0
  /\ (max_wait <= now state_create_failed - now state0
      \/ (check_interval <= now state_create_failed - now state0
          /\ exists process code,
               Process_returncode process (world state_create_failed) = Some code)).
Proof.
  destruct (@ReadyProps.create_session_failures (machine None) None state0
              (TimeoutError (lit "Session uuid-0 failed to become ready within 300 seconds"))
              state_create_failed)
    as [Hs [[Hnow _]|[[_ Hwhy]|(msg & He & _)]]].
  - vm_compute. reflexivity.
  - vm_compute in Hnow. discriminate Hnow.
  - split; [exact Hs|exact Hwhy].
  - discriminate He.
Defined.

End MoreRuns.

Module MoreRoutesRuns.

Import Cline Examples MoreExamples.
Local Open Scope Z_scope.

(* DELETE for the session create_session has registered. *)
Lemma stop_route_always_404_witness :
  exists app',
    @SessionRoutes.stop_session (machine (Some ready_text)) (lit "uuid-0") app_created
    = Some (inl {| Routes.status_code := 404;
                   Routes.detail := lit "Session " ++ lit "uuid-0"
                                    ++ lit " not found or already stopped" |}, app')
    /\ sessions (SessionRoutes.service app') = sessions (SessionRoutes.service app_created)
    /\ SessionRoutes.route_log app' = SessionRoutes.route_log app_created
    /\ SessionRoutes.get_session (lit "uuid-0") app'
       = match SessionRoutes.get_session (lit "uuid-0") app_created with
         | Some (r, _) => Some (r, app')
         | None => None
         end.
Proof.
  exact (@SessionRoutesProps.stop_route_always_404 (machine (Some ready_text))
           (lit "uuid-0") app_created Runs.state_created_reachable).
Defined.

(* GET for s1 after the send that timed out. *)
Lemma get_route_after_send_witness :
  SessionRoutes.get_session (lit "s1")
    {| SessionRoutes.service := state_failed; SessionRoutes.route_log := [] |}
  = Some (inr {| SessionRoutes.session_id := Cline.session_id (session1 ready);
                 SessionRoutes.workspace_path := workspace_path (session1 ready);
                 SessionRoutes.created_at := created_at (session1 ready);
                 SessionRoutes.status := lit "error";
                 SessionRoutes.message_count :=
                   length (messages (session1 ready)) + 1 |},
          {| SessionRoutes.service := state_failed; SessionRoutes.route_log := [] |}).
Proof.
  exact (@SessionRoutesProps.get_route_after_send (machine None) (lit "s1") (lit "hello")
           (state1 ready ready_text running 0) (session1 ready)
           (inl (TimeoutError (lit "No response received within 300 seconds")))
           state_failed [] eq_refl eq_refl MoreRuns.state_failed_eq).
Defined.


(* POST /cline/sessions without a body, on the machine whose process
   writes the readiness marker. *)
Lemma created_session_can_be_fetched_witness :
  SessionRoutes.status created_response = lit "ready"
  /\ SessionRoutes.message_count created_response = 0%nat
  /\ SessionRoutes.workspace_path created_response
     = lit "/home/newton/swe_bench_reproducer"
  /\ SessionRoutes.get_session (SessionRoutes.session_id created_response) app_created
     = Some (inr created_response, app_created).
Proof.
  apply (@SessionRoutesProps.created_session_can_be_fetched (machine (Some ready_text))
           None app0 (inr created_response) app_created).
  vm_compute. reflexivity.
Defined.

End MoreRoutesRuns.

Module ReviewApiRuns.

Import Review ReviewApi Examples MoreExamples.
Local Open Scope Z_scope.

(* A review of "/work" whose CLI prints the output of Examples and
   exits with code 0. *)
Lemma review_answer_has_a_comment_witness :
  @Path_exists (host (Exits 0 (Cline.Text review_output) (Cline.Text [])))
    (workspace_path review_request) = inr true
  /\ @Path_is_dir (host (Exits 0 (Cline.Text review_output) (Cline.Text [])))
       (workspace_path review_request) = inr true
  /\ success review_response = true
  /\ comment_count review_response = length (comments review_response)
  /\ (1 <= comment_count review_response)%nat
  /\ session_id review_response = lit "coderabbit-api-session"
  /\ exists absolute wait_for minutes stdout_str stderr_str,
       @Path_absolute (host (Exits 0 (Cline.Text review_output) (Cline.Text [])))
         (workspace_path review_request) = inr absolute
       /\ @npm_run_coderabbit (host (Exits 0 (Cline.Text review_output) (Cline.Text [])))
            absolute
          = Started wait_for
       /\ timeout_minutes review_request = Some minutes
       /\ wait_for (minutes * 60)
          = Exits 0 (Cline.Text stdout_str) (Cline.Text stderr_str)
       /\ comments review_response
          = fst (parse_coderabbit_output
                   (@int (host (Exits 0 (Cline.Text review_output) (Cline.Text []))))
                   (@strftime (host (Exits 0 (Cline.Text review_output) (Cline.Text []))))
                   stdout_str).
Proof.
  apply (@ReviewApiProps.review_answer_has_a_comment
           (host (Exits 0 (Cline.Text review_output) (Cline.Text [])))
           review_request review_response
           (snd (@review_workspace
                   (host (Exits 0 (Cline.Text review_output) (Cline.Text [])))
                   review_request))).
  vm_compute. reflexivity.
Defined.

(* The same review, the CLI exiting with code 1 after it has printed
   the two comments. *)
Lemma review_error_codes_witness :
  (Routes.status_code review_error = 400 \/ Routes.status_code review_error = 408
   \/ Routes.status_code review_error = 500)
  /\ (Routes.status_code review_error = 400
      <-> @Path_exists (host (Exits 1 (Cline.Text review_output)
                                (Cline.Text (lit "npm ERR! missing script"))))
            (workspace_path review_request) = inr false
          \/ (@Path_exists (host (Exits 1 (Cline.Text review_output)
                                    (Cline.Text (lit "npm ERR! missing script"))))
                (workspace_path review_request) = inr true
              /\ @Path_is_dir (host (Exits 1 (Cline.Text review_output)
                                       (Cline.Text (lit "npm ERR! missing script"))))
                   (workspace_path review_request) = inr false))
  /\ (length (Routes.detail review_error) <= 523)%nat.
Proof.
  destruct (@ReviewApiProps.review_error_codes
              (host (Exits 1 (Cline.Text review_output)
                       (Cline.Text (lit "npm ERR! missing script"))))
              review_request review_error
              (snd (@review_workspace
                      (host (Exits 1 (Cline.Text review_output)
                               (Cline.Text (lit "npm ERR! missing script"))))
                      review_request)))
    as (Hcodes & H400 & _ & _ & Hexit).
  - vm_compute. reflexivity.
  - split; [exact Hcodes|]. split; [exact H400|].
    destruct (Hexit (lit "/work")
                (fun _ => Exits 1 (Cline.Text review_output)
                            (Cline.Text (lit "npm ERR! missing script")))
                10 1 (Cline.Text review_output)
                (Cline.Text (lit "npm ERR! missing script"))
                eq_refl eq_refl eq_refl eq_refl eq_refl eq_refl) as (_ & _ & Hlen).
    exact Hlen.
Defined.

(* The CLI exits with code 0 after it has printed bytes that do not
   decode: the review fails, the exit code is not looked at. *)
Lemma review_of_undecodable_output :
  fst (@review_workspace
         (host (Exits 0 (Cline.Undecodable invalid_start_byte) (Cline.Text [])))
         review_request)
  = inl decode_error.
Proof. vm_compute. reflexivity. Qed.

(* The test of the path raises OSError: the answer is 500, not 400. *)
Lemma review_of_unreadable_path :
  fst (@review_workspace host_name_too_long review_request) = inl path_error
  /\ snd (@review_workspace host_name_too_long review_request)
     = [Unexpected name_too_long].
Proof. split; vm_compute; reflexivity. Qed.

End ReviewApiRuns.
